(** * asharicloud-webhook: webhook receiver and dead-letter processor

    A shallow embedding of the JavaScript sources
    - [src/utils/headers.util.js]       (module [HeadersUtil])
    - [src/config/index.js]             (module [Config])
    - [src/handlers/webhook.handler.js] (module [WebhookHandler])
    - [index-monolithic-backup.js]      (module [Monolith])
    - [dlq-processor.js]                (module [DLQ])
    followed by the properties of the specification that are checked
    against them.

    Conventions.  A JavaScript string is a Rocq [string]; one character
    stands for one code unit, so [length] is the JavaScript [.length].
    Numbers that the code only uses as integers are in [Z]; [NaN] is the
    [None] of an [option Z].  Console output is not part of the model. *)

From Stdlib Require Import String Ascii List ZArith Lia Bool Arith.
From Stdlib Require Import Numbers.DecimalString.
Import ListNotations.
Open Scope string_scope.

(* ================================================================= *)
(** ** JavaScript string primitives used by the sources *)

Module JS.

(** The double-quote character, as a one-character string. *)
Definition dq : string := String (ascii_of_nat 34) EmptyString.

Definition code (c : ascii) : nat := nat_of_ascii c.

Definition in_range (lo hi : nat) (c : ascii) : bool :=
  (lo <=? code c)%nat && (code c <=? hi)%nat.

Definition is_digit (c : ascii) : bool := in_range 48 57 c.
Definition is_upper (c : ascii) : bool := in_range 65 90 c.
Definition is_lower (c : ascii) : bool := in_range 97 122 c.

(** The character class [[a-zA-Z0-9]]. *)
Definition is_alnum (c : ascii) : bool :=
  is_lower c || is_upper c || is_digit c.

Fixpoint map_chars (f : ascii -> ascii) (s : string) : string :=
  match s with
  | EmptyString => EmptyString
  | String c s' => String (f c) (map_chars f s')
  end.

Fixpoint filter_chars (p : ascii -> bool) (s : string) : string :=
  match s with
  | EmptyString => EmptyString
  | String c s' =>
      if p c then String c (filter_chars p s') else filter_chars p s'
  end.

Fixpoint forall_chars (p : ascii -> bool) (s : string) : bool :=
  match s with
  | EmptyString => true
  | String c s' => p c && forall_chars p s'
  end.

(** [String.prototype.toLowerCase] on 8-bit code units: A-Z and the
    Latin-1 capitals (0xC0-0xDE except the multiplication sign). *)
Definition lower_char (c : ascii) : ascii :=
  if is_upper c || (in_range 192 222 c && negb (code c =? 215)%nat)
  then ascii_of_nat (code c + 32) else c.

Definition toLowerCase (s : string) : string := map_chars lower_char s.

(** Case folding of a regular expression with the [i] flag and no [u]
    flag: a character is compared through its upper-case form, and a
    character outside ASCII never folds onto an ASCII one. *)
Definition fold_char (c : ascii) : ascii :=
  if is_lower c then ascii_of_nat (code c - 32) else c.

Definition fold_case (s : string) : string := map_chars fold_char s.

(** [s.includes(sub)]. *)
Fixpoint includes (s sub : string) : bool :=
  if String.prefix sub s then true
  else match s with
       | EmptyString => false
       | String _ s' => includes s' sub
       end.

(** [s.substring(start, stop)]: both indices are clamped to
    [[0, s.length]] and swapped when out of order. *)
Definition clamp (len i : Z) : Z := Z.max 0 (Z.min i len).

Definition substring (s : string) (start stop : Z) : string :=
  let len := Z.of_nat (String.length s) in
  let a := clamp len start in
  let b := clamp len stop in
  let lo := Z.min a b in
  let hi := Z.max a b in
  String.substring (Z.to_nat lo) (Z.to_nat (hi - lo)) s.

(** The string without its first [n] characters. *)
Fixpoint drop (n : nat) (s : string) : string :=
  match n, s with
  | O, _ => s
  | S n', String _ s' => drop n' s'
  | S _, EmptyString => EmptyString
  end.

(** [s.indexOf(c)] for a character [c]; [None] stands for -1. *)
Fixpoint index_of (c : ascii) (s : string) : option nat :=
  match s with
  | EmptyString => None
  | String d s' =>
      if (d =? c)%char then Some 0 else option_map S (index_of c s')
  end.

(** [s.endsWith(suffix)]. *)
Definition endsWith (s suffix : string) : bool :=
  let n := String.length s in
  let m := String.length suffix in
  (m <=? n)%nat && (String.substring (n - m) m s =? suffix).

(** Decimal rendering of a number that is a natural. *)
Definition nat_to_string (n : nat) : string :=
  NilEmpty.string_of_uint (Nat.to_uint n).

(** White space skipped by [parseInt] (the 8-bit part of
    [StrWhiteSpaceChar]). *)
Definition is_space (c : ascii) : bool :=
  in_range 9 13 c || (code c =? 32)%nat || (code c =? 160)%nat.

Fixpoint skip_spaces (s : string) : string :=
  match s with
  | String c s' => if is_space c then skip_spaces s' else s
  | EmptyString => EmptyString
  end.

Definition digit_value (radix : Z) (c : ascii) : option Z :=
  let v :=
    if is_digit c then Some (Z.of_nat (code c) - 48)%Z
    else if is_lower c then Some (Z.of_nat (code c) - 87)%Z
    else if is_upper c then Some (Z.of_nat (code c) - 55)%Z
    else None in
  match v with
  | Some d => if (d <? radix)%Z then Some d else None
  | None => None
  end.

(** The longest prefix of digits, folded into its value; [None] when
    there is no digit at all. *)
Fixpoint digits_value (radix : Z) (acc : option Z) (s : string) : option Z :=
  match s with
  | EmptyString => acc
  | String c s' =>
      match digit_value radix c with
      | Some d =>
          digits_value radix
            (Some (match acc with Some a => a * radix + d | None => d end)%Z)
            s'
      | None => acc
      end
  end.

Definition strip_hex_prefix (s : string) : option string :=
  match s with
  | String "0" (String "x" r) => Some r
  | String "0" (String "X" r) => Some r
  | _ => None
  end.

(** [parseInt(s)] without a radix argument; [None] is [NaN]. *)
Definition parseInt (s : string) : option Z :=
  let s1 := skip_spaces s in
  let '(sign, s2) :=
    match s1 with
    | String "-" r => ((-1)%Z, r)
    | String "+" r => (1%Z, r)
    | _ => (1%Z, s1)
    end in
  let mag :=
    match strip_hex_prefix s2 with
    | Some r => digits_value 16 None r
    | None => digits_value 10 None s2
    end in
  option_map (Z.mul sign) mag.

End JS.

(* ================================================================= *)
(** ** Values, promises and the outside world *)

Module Runtime.

(** A value produced by [JSON.parse].  Numbers are kept as integers:
    the sources only test them for truthiness. *)
#[local] Unset Elimination Schemes.
Inductive json : Type :=
| JNull
| JBool (b : bool)
| JNumber (n : Z)
| JString (s : string)
| JArray (items : list json)
| JObject (members : list (string * json)).
#[local] Set Elimination Schemes.

(** The answer of a collaborator to [await client.send(command)]. *)
Inductive Reply : Type :=
| Resolved (value : string)
| Rejected (message : string).

(** How an [async] function ends: with a value, or with a thrown
    [Error] of which the model keeps the [message]. *)
Inductive Result (A : Type) : Type :=
| Returned (a : A)
| Thrown (message : string).
Arguments Returned {A} a.
Arguments Thrown {A} message.

Section Effects.
Variables Call G : Type.

(** The collaborators.  [reply] may depend on every call made
    before; [now] is [Date.now()]; [JSON_parse] is [JSON.parse]
    applied to a value (to its string conversion), [None] when it
    throws a [SyntaxError]. *)
Record World : Type := {
  reply : list Call -> Call -> Reply;
  now : list Call -> Z;
  JSON_parse : json -> option json
}.

(** The calls made so far, oldest first, and the module-level
    variables. *)
Record State : Type := { trace : list Call; globals : G }.

Definition M (A : Type) : Type := World -> State -> State * Result A.

Definition ret {A : Type} (a : A) : M A := fun _ s => (s, Returned a).

Definition throw {A : Type} (message : string) : M A :=
  fun _ s => (s, Thrown message).

Definition bind {A B : Type} (m : M A) (k : A -> M B) : M B :=
  fun w s =>
    match m w s with
    | (s', Returned a) => k a w s'
    | (s', Thrown e) => (s', Thrown e)
    end.

(** [try { m } catch (error) { h error.message }]. *)
Definition try_catch {A : Type} (m : M A) (h : string -> M A) : M A :=
  fun w s =>
    match m w s with
    | (s', Thrown e) => h e w s'
    | r => r
    end.

(** The state once the call [c] has been made. *)
Definition called (s : State) (c : Call) : State :=
  {| trace := trace s ++ [c]; globals := globals s |}.

(** [await client.send(c)]. *)
Definition send (c : Call) : M string :=
  fun w s =>
    match reply w (trace s) c with
    | Resolved v => (called s c, Returned v)
    | Rejected e => (called s c, Thrown e)
    end.

Definition date_now : M Z := fun w s => (s, Returned (now w (trace s))).

(** [JSON.parse(v)].  The text of the [SyntaxError] depends on the
    engine and on the input; one text stands for all of them. *)
Definition parse (v : json) : M json :=
  fun w s =>
    match JSON_parse w v with
    | Some j => (s, Returned j)
    | None => (s, Thrown "Unexpected token")
    end.

Definition get_globals : M G := fun _ s => (s, Returned (globals s)).

Definition set_globals (g : G) : M unit :=
  fun _ s => ({| trace := trace s; globals := g |}, Returned tt).

End Effects.

Arguments reply {Call} _ _ _.
Arguments now {Call} _ _.
Arguments JSON_parse {Call} _ _.
Arguments trace {Call G} _.
Arguments globals {Call G} _.
Arguments ret {Call G A} _ _ _.
Arguments throw {Call G A} _ _ _.
Arguments bind {Call G A B} _ _ _ _.
Arguments try_catch {Call G A} _ _ _ _.
Arguments called {Call G} _ _.
Arguments send {Call G} _ _ _.
Arguments date_now {Call G} _ _.
Arguments parse {Call G} _ _ _.
Arguments get_globals {Call G} _ _.
Arguments set_globals {Call G} _ _ _.

(** A service object with its own state [G1] and its own calls [Call1],
    used by code whose state is [G2] and whose calls are [Call2]: the
    service sees the collaborators and the clock of its caller, its
    state is a part of the caller's, and its calls are recorded among
    the caller's. *)
Section Embedding.
Variables Call1 G1 Call2 G2 : Type.
Variable inj : Call1 -> Call2.
Variable get : G2 -> G1.
Variable put : G2 -> G1 -> G2.

Definition inner_world (w : World Call2) (before : list Call2)
  : World Call1 :=
  {| reply := fun t c => reply w (before ++ map inj t) (inj c);
     now := fun t => now w (before ++ map inj t);
     JSON_parse := JSON_parse w |}.

Definition embed {A : Type} (m : M Call1 G1 A) : M Call2 G2 A :=
  fun w s =>
    let r :=
      m (inner_world w (trace s))
        {| trace := []; globals := get (globals s) |} in
    ({| trace := trace s ++ map inj (trace (fst r));
        globals := put (globals s) (globals (fst r)) |},
     snd r).

End Embedding.

Arguments inner_world {Call1 Call2} _ _ _.
Arguments embed {Call1 G1 Call2 G2} _ _ _ {A} _ _ _.

(** A value of [process.env], and JavaScript truthiness of strings. *)
Definition truthy (v : option string) : bool :=
  match v with
  | Some s => negb (s =? "")
  | None => false
  end.

(** [v || d] for a string-or-undefined [v]. *)
Definition or_else (v : option string) (d : string) : string :=
  if truthy v then match v with Some s => s | None => d end else d.

(** [v ?? d]. *)
Definition coalesce {A : Type} (v : option A) (d : A) : A :=
  match v with Some a => a | None => d end.

End Runtime.

Declare Scope js_scope.
Delimit Scope js_scope with js.
Notation "x <- m ;; k" := (Runtime.bind m (fun x => k))
  (at level 61, m at next level, right associativity) : js_scope.
Notation "m ;;; k" := (Runtime.bind m (fun _ => k))
  (at level 61, right associativity) : js_scope.

(* ================================================================= *)
(** ** src/utils/headers.util.js *)

Module HeadersUtil.

(** A header object, as the list [Object.entries] gives for it: the
    own properties in property order, each key once. *)
Definition Headers : Type := list (string * string).

(** [obj[key] = value] on an ordinary object whose entries are [o]. *)
Fixpoint obj_set (o : Headers) (key value : string) : Headers :=
  match o with
  | [] => [(key, value)]
  | (k, v) :: rest =>
      if k =? key then (k, value) :: rest
      else (k, v) :: obj_set rest key value
  end.

(** The same assignment on an object literal [{}]: the key
    [__proto__] reaches the accessor of [Object.prototype], whose
    setter ignores a string, so no property is created. *)
Definition assign (o : Headers) (key value : string) : Headers :=
  if key =? "__proto__" then o else obj_set o key value.

Definition sanitizeHeaders (originalHeaders : option Headers) : Headers :=
  match originalHeaders with
  | None => []
  | Some originalHeaders =>
      fold_left
        (fun constructedHeaders '(key, value) =>
           if negb (JS.toLowerCase key =? "headers")
           then assign constructedHeaders key value
           else constructedHeaders)
        originalHeaders []
  end.

(** [JSON.stringify] of an object whose values are strings
    (QuoteJSONString, then the members joined by commas). *)
Definition hex_digit (n : nat) : ascii :=
  if (n <? 10)%nat then ascii_of_nat (48 + n) else ascii_of_nat (87 + n).

Definition quote_char (c : ascii) : string :=
  let n := JS.code c in
  if (n =? 8)%nat then "\b"
  else if (n =? 9)%nat then "\t"
  else if (n =? 10)%nat then "\n"
  else if (n =? 12)%nat then "\f"
  else if (n =? 13)%nat then "\r"
  else if (n =? 34)%nat then "\" ++ JS.dq
  else if (n =? 92)%nat then "\\"
  else if (n <? 32)%nat then
    "\u00" ++ String (hex_digit (n / 16)) (String (hex_digit (n mod 16)) "")
  else String c "".

Fixpoint quote_chars (s : string) : string :=
  match s with
  | EmptyString => EmptyString
  | String c s' => quote_char c ++ quote_chars s'
  end.

Definition JSON_quote (s : string) : string := JS.dq ++ quote_chars s ++ JS.dq.

Definition JSON_member (kv : string * string) : string :=
  JSON_quote (fst kv) ++ ":" ++ JSON_quote (snd kv).

Definition JSON_stringify (o : Headers) : string :=
  "{" ++ String.concat "," (map JSON_member o) ++ "}".

Record Attribute : Type := { DataType : string; StringValue : string }.

(** The literal [',"_truncated":true}']. *)
Definition truncation_suffix : string :=
  "," ++ JS.dq ++ "_truncated" ++ JS.dq ++ ":true}".

(** [headers] is [None] for a value that is falsy or not an object. *)
Definition createHeadersAttribute
    (headers : option Headers) (maxSize : Z) : option Attribute :=
  match headers with
  | None => None
  | Some _ =>
      let sanitizedHeaders := sanitizeHeaders headers in
      if (List.length sanitizedHeaders =? 0)%nat then None
      else
        let headersJson := JSON_stringify sanitizedHeaders in
        if (Z.of_nat (String.length headersJson) <=? maxSize)%Z then
          Some {| DataType := "String"; StringValue := headersJson |}
        else
          let truncated :=
            JS.substring headersJson 0 (maxSize - 20) ++ truncation_suffix in
          Some {| DataType := "String"; StringValue := truncated |}
  end.

(** The default value of the parameter [maxSize]. *)
Definition default_maxSize : Z := 50000.

(** *** Regular expression objects

    A [RegExp] carries [lastIndex]; with the [g] flag [test] starts at
    [lastIndex], stores the end of the match on success and 0 on
    failure.  [matcher s start] is the end of the first match at or
    after [start]. *)
Record RegExp : Type := {
  matcher : string -> nat -> option nat;
  global : bool;
  lastIndex : nat
}.

Definition set_lastIndex (r : RegExp) (i : nat) : RegExp :=
  {| matcher := matcher r; global := global r; lastIndex := i |}.

Definition test (r : RegExp) (s : string) : bool * RegExp :=
  if global r then
    if (String.length s <? lastIndex r)%nat then (false, set_lastIndex r 0)
    else match matcher r s (lastIndex r) with
         | Some e => (true, set_lastIndex r e)
         | None => (false, set_lastIndex r 0)
         end
  else match matcher r s 0 with
       | Some _ => (true, r)
       | None => (false, r)
       end.

(** A literal matched with the [i] flag. *)
Definition literal_i (lit : string) (s : string) (start : nat) : option nat :=
  match String.index start (JS.fold_case lit) (JS.fold_case s) with
  | Some i => Some (i + String.length lit)
  | None => None
  end.

(** [<[^>]*>] searched from [start]: the first [<] there, then the
    first [>] after it.  (When the first [<] has no [>] after it, no
    later one has.)  The result is the index after that [>]. *)
Definition html_tag (s : string) (start : nat) : option nat :=
  match JS.index_of "<" (JS.drop start s) with
  | Some i =>
      let opened := start + i + 1 in
      match JS.index_of ">" (JS.drop opened s) with
      | Some j => Some (opened + j + 1)
      | None => None
      end
  | None => None
  end.

Record SuspiciousPattern : Type := { pattern : RegExp; message : string }.

Definition script_message : string := "Script content detected in headers".
Definition html_message : string := "HTML tags detected in headers".
Definition javascript_message : string :=
  "JavaScript protocol detected in headers".

(** The array literal of [validateHeaders], built anew at each call. *)
Definition suspiciousPatterns : list SuspiciousPattern :=
  [ {| pattern := {| matcher := literal_i "script"; global := false;
                     lastIndex := 0 |};
       message := script_message |};
    {| pattern := {| matcher := html_tag; global := true; lastIndex := 0 |};
       message := html_message |};
    {| pattern := {| matcher := literal_i "javascript:"; global := false;
                     lastIndex := 0 |};
       message := javascript_message |} ].

Definition suspicious_issue (msg key : string) : string :=
  msg ++ " in header " ++ JS.dq ++ key ++ JS.dq.

Definition length_issue (key headerValue : string) : string :=
  "Header " ++ JS.dq ++ key ++ JS.dq ++ " exceeds maximum length ("
    ++ JS.nat_to_string (String.length headerValue) ++ " bytes)".

(** One turn of the [forEach] callback:
    [pattern.test(headerValue) || pattern.test(key)]. *)
Definition check_pattern (key headerValue : string) (p : SuspiciousPattern)
  : list string * SuspiciousPattern :=
  let '(inValue, r1) := test (pattern p) headerValue in
  if inValue then
    ([suspicious_issue (message p) key],
     {| pattern := r1; message := message p |})
  else
    let '(inKey, r2) := test r1 key in
    ((if inKey then [suspicious_issue (message p) key] else []),
     {| pattern := r2; message := message p |}).

Fixpoint check_patterns (key headerValue : string)
    (ps : list SuspiciousPattern) : list string * list SuspiciousPattern :=
  match ps with
  | [] => ([], [])
  | p :: rest =>
      let '(i1, p') := check_pattern key headerValue p in
      let '(i2, rest') := check_patterns key headerValue rest in
      ((i1 ++ i2)%list, p' :: rest')
  end.

(** The body of the [for ... of Object.entries(headers)] loop. *)
Definition check_header (ps : list SuspiciousPattern) (kv : string * string)
  : list string * list SuspiciousPattern :=
  let '(key, value) := kv in
  let headerValue := value in
  let tooLong :=
    if (8192 <? Z.of_nat (String.length headerValue))%Z
    then [length_issue key headerValue] else [] in
  let '(found, ps') := check_patterns key headerValue ps in
  ((tooLong ++ found)%list, ps').

Fixpoint check_headers (ps : list SuspiciousPattern) (entries : Headers)
  : list string :=
  match entries with
  | [] => []
  | kv :: rest =>
      let '(issues, ps') := check_header ps kv in
      (issues ++ check_headers ps' rest)%list
  end.

Record Validation : Type := { isValid : bool; issues : list string }.

Definition validateHeaders (headers : option Headers) : Validation :=
  match headers with
  | None => {| isValid := true; issues := [] |}
  | Some entries =>
      let issues := check_headers suspiciousPatterns entries in
      {| isValid := (List.length issues =? 0)%nat; issues := issues |}
  end.

(** What the spec asks of a key or value, stated without the state of
    the regular expression objects. *)
Definition has_script (s : string) : bool :=
  JS.includes (JS.fold_case s) "SCRIPT".
Definition has_javascript (s : string) : bool :=
  JS.includes (JS.fold_case s) "JAVASCRIPT:".
Fixpoint has_char (c : ascii) (s : string) : bool :=
  match s with
  | EmptyString => false
  | String d s' => (d =? c)%char || has_char c s'
  end.

(** Some [<] of [s] has a [>] after it. *)
Fixpoint has_html_tag (s : string) : bool :=
  match s with
  | EmptyString => false
  | String d s' =>
      ((d =? "<")%char && has_char ">" s') || has_html_tag s'
  end.

(** *** extractTrackingIds *)

(** The arrow function [getHeaderValue]: the value of the first entry
    whose key equals [headerName] up to case; [None] is [null]. *)
Fixpoint getHeaderValue (headers : Headers) (headerName : string)
  : option string :=
  match headers with
  | [] => None
  | (key, value) :: rest =>
      if JS.toLowerCase key =? JS.toLowerCase headerName then Some value
      else getHeaderValue rest headerName
  end.

Record TrackingIds : Type := { correlationId : string; requestId : string }.

(** [a || b || crypto.randomUUID()]: the generator is called only when
    both look-ups are falsy.  [uuid i] is the identifier that the [i]-th
    call of [randomUUID] returns and [n] counts the calls made so far;
    the result carries the new count. *)
Definition first_or_uuid (uuid : nat -> string) (n : nat)
    (a b : option string) : string * nat :=
  match a with
  | Some v => if negb (v =? "") then (v, n) else
      match b with
      | Some v' => if negb (v' =? "") then (v', n) else (uuid n, S n)
      | None => (uuid n, S n)
      end
  | None =>
      match b with
      | Some v' => if negb (v' =? "") then (v', n) else (uuid n, S n)
      | None => (uuid n, S n)
      end
  end.

Definition extractTrackingIds (uuid : nat -> string) (n : nat)
    (headers : option Headers) : TrackingIds * nat :=
  match headers with
  | None =>
      ({| correlationId := uuid n; requestId := uuid (S n) |}, S (S n))
  | Some headers =>
      let '(correlationId, n1) :=
        first_or_uuid uuid n (getHeaderValue headers "x-correlation-id")
          (getHeaderValue headers "correlation-id") in
      let '(requestId, n2) :=
        first_or_uuid uuid n1 (getHeaderValue headers "x-request-id")
          (getHeaderValue headers "request-id") in
      ({| correlationId := correlationId; requestId := requestId |}, n2)
  end.

(** *** getHeadersStats *)

(** [Math.round(a / b)] for [a >= 0] and [b > 0]: halves round up. *)
Definition round_div (a b : Z) : Z := ((2 * a + b) / (2 * b))%Z.

(** [wouldBeTruncated] is absent from the object returned for a value
    that is not an object. *)
Record Stats : Type := {
  totalSize : Z;
  headerCount : Z;
  averageSize : Z;
  wouldBeTruncated : option bool
}.

Definition getHeadersStats (headers : option Headers) : Stats :=
  match headers with
  | None =>
      {| totalSize := 0; headerCount := 0; averageSize := 0;
         wouldBeTruncated := None |}
  | Some _ =>
      let sanitized := sanitizeHeaders headers in
      let jsonString := JSON_stringify sanitized in
      let headerCount := Z.of_nat (List.length sanitized) in
      let size := Z.of_nat (String.length jsonString) in
      {| totalSize := size;
         headerCount := headerCount;
         averageSize :=
           if (0 <? headerCount)%Z then round_div size headerCount else 0%Z;
         wouldBeTruncated := Some (50000 <? size)%Z |}
  end.

End HeadersUtil.

(* ================================================================= *)
(** ** src/config/index.js *)

Module Config.
Import Runtime.

(** The environment variables the handlers read. *)
Record Env : Type := {
  AWS_REGION : option string;
  SNS_TOPIC_ARN : option string;
  MONGODB_URI_PARAMETER : option string;
  AWS_LAMBDA_FUNCTION_NAME : option string
}.

Record Aws : Type := {
  region : string;
  snsTopicArn : option string;
  mongodbUriParameter : option string
}.

Record Webhook : Type := {
  allowedMethods : list string;
  maxHeaderSize : Z;
  maxRetries : Z;
  messageAgeHours : Z
}.

Record Config : Type := {
  aws : Aws;
  webhook : Webhook;
  environment : string
}.

Definition detectEnvironment (functionName : string) : string :=
  if JS.includes functionName "dev" then "dev"
  else if JS.includes functionName "prod" then "prod"
  else "unknown".

(** [_validate]: the keys whose value is falsy. *)
Definition missing (a : Aws) : list string :=
  map fst
    (filter (fun kv => negb (truthy (snd kv)))
       [("AWS_REGION", Some (region a));
        ("MONGODB_URI_PARAMETER", mongodbUriParameter a)]).

(** [new Config()]: the constructor throws when [_validate] does. *)
Definition construct (env : Env) : Result Config :=
  let aws := {| region := or_else (AWS_REGION env) "ap-southeast-3";
                snsTopicArn := SNS_TOPIC_ARN env;
                mongodbUriParameter := MONGODB_URI_PARAMETER env |} in
  let webhook := {| allowedMethods := ["POST"; "PUT"; "PATCH"; "DELETE"];
                    maxHeaderSize := 50000;
                    maxRetries := 3;
                    messageAgeHours := 24 |} in
  let environment :=
    detectEnvironment (or_else (AWS_LAMBDA_FUNCTION_NAME env) "") in
  match missing aws with
  | [] => Returned {| aws := aws; webhook := webhook;
                      environment := environment |}
  | keys =>
      Thrown ("Missing required configuration: " ++ String.concat ", " keys)
  end.

(** [getConfig()]: the instance is built on first use and kept; as the
    environment does not change, every call gives what [construct]
    gives. *)
Definition getConfig (env : Env) : Result Config := construct env.

Definition getDatabaseName (c : Config) : string :=
  environment c ++ "-webhook".

Definition isSNSConfigured (c : Config) : bool := truthy (snsTopicArn (aws c)).

End Config.

(* ================================================================= *)
(** ** Shapes shared by the two webhook handlers *)

(** The API Gateway event and the Lambda context. *)
Module Lambda.

Record Identity : Type := { sourceIp : option string }.

Record RequestContext : Type := {
  httpMethod : option string;
  domainName : option string;
  stage : option string;
  identity : option Identity
}.

Record Event : Type := {
  requestContext : option RequestContext;
  path : option string;
  headers : option HeadersUtil.Headers;
  queryStringParameters : option (list (string * string));
  body : option string;
  isBase64Encoded : option bool
}.

Record Context : Type := {
  awsRequestId : string;
  functionName : option string
}.

(** [event.requestContext?.httpMethod]. *)
Definition method_of (event : Event) : option string :=
  match requestContext event with
  | Some rc => httpMethod rc
  | None => None
  end.

(** [event.requestContext?.identity?.sourceIp]. *)
Definition sourceIp_of (event : Event) : option string :=
  match requestContext event with
  | Some rc => match identity rc with
               | Some i => sourceIp i
               | None => None
               end
  | None => None
  end.

End Lambda.

(** The structured webhook event ([eventData]). *)
Module EventData.

Inductive Payload : Type :=
| Raw (text : string)
| Parsed (value : Runtime.json).

Record Transport : Type := {
  method : string;
  path : string;
  headers : HeadersUtil.Headers;
  queryStringParameters : list (string * string);
  sourceIp : string
}.

(** [timestamp] is the time value whose [toISOString()] the source
    stores. *)
Record t : Type := {
  timestamp : Z;
  source : string;
  transport : Transport;
  payload : Payload;
  type : string;
  isBase64Encoded : bool
}.

End EventData.

(* ================================================================= *)
(** ** src/services/ssm.service.js *)

Module SSMService.
Import Runtime.
Local Open Scope js_scope.

Record Entry : Type := { value : string; timestamp : Z }.

(** [this.cache], a [Map], by its entries in insertion order. *)
Definition Cache : Type := list (string * Entry).

Fixpoint cache_get (cache : Cache) (key : string) : option Entry :=
  match cache with
  | [] => None
  | (k, e) :: rest => if k =? key then Some e else cache_get rest key
  end.

Definition cache_has (cache : Cache) (key : string) : bool :=
  match cache_get cache key with Some _ => true | None => false end.

Fixpoint cache_set (cache : Cache) (key : string) (e : Entry) : Cache :=
  match cache with
  | [] => [(key, e)]
  | (k, e') :: rest =>
      if k =? key then (k, e) :: rest else (k, e') :: cache_set rest key e
  end.

Definition cache_delete (cache : Cache) (key : string) : Cache :=
  filter (fun ke => negb (fst ke =? key)) cache.

Inductive Call : Type :=
| GetParameter (Name : string) (WithDecryption : bool).

Definition M (A : Type) : Type := Runtime.M Call Cache A.

Definition cacheTTL : Z := 5 * 60 * 1000.

(** The template literal with [parameterName] and [withDecryption]. *)
Definition cacheKey (parameterName : string) (withDecryption : bool)
  : string :=
  parameterName ++ ":" ++ (if withDecryption then "true" else "false").

(** The cache check at the head of [getParameter]: the cached value when
    it is younger than the time to live; an expired entry is removed. *)
Definition check_cache (cacheKey : string) (useCache : bool)
  : M (option string) :=
  cache <- get_globals ;;
  if useCache && cache_has cache cacheKey then
    match cache_get cache cacheKey with
    | Some cached =>
        now <- date_now ;;
        if (now - timestamp cached <? cacheTTL)%Z then ret (Some (value cached))
        else set_globals (cache_delete cache cacheKey) ;;; ret None
    | None => ret None
    end
  else ret None.

Definition getParameter (parameterName : string) (withDecryption : bool)
    (useCache : bool) : M string :=
  let cacheKey := cacheKey parameterName withDecryption in
  hit <- check_cache cacheKey useCache ;;
  match hit with
  | Some cached => ret cached
  | None =>
      try_catch
        (value <- send (GetParameter parameterName withDecryption) ;;
         (if useCache then
            cache <- get_globals ;;
            now <- date_now ;;
            set_globals
              (cache_set cache cacheKey {| value := value; timestamp := now |})
          else ret tt) ;;;
         ret value)
        (fun message =>
           throw ("SSM parameter retrieval failed: " ++ message))
  end.

(** [clearCache(parameterName)]; [None] or the empty string clears
    everything. *)
Definition clearCache (parameterName : option string) : M unit :=
  cache <- get_globals ;;
  if truthy parameterName then
    let prefix := coalesce parameterName "" ++ ":" in
    let keysToDelete :=
      filter (fun key => String.prefix prefix key) (map fst cache) in
    set_globals (fold_left cache_delete keysToDelete cache)
  else set_globals [].

Record CacheStats : Type := {
  totalEntries : Z;
  expiredEntries : Z;
  validEntries : Z;
  cacheTTLMs : Z
}.

Definition getCacheStats : M CacheStats :=
  now <- date_now ;;
  cache <- get_globals ;;
  let entries := map snd cache in
  let expired :=
    Z.of_nat
      (List.length
         (filter (fun entry => (cacheTTL <=? now - timestamp entry)%Z)
            entries)) in
  let size := Z.of_nat (List.length cache) in
  ret {| totalEntries := size;
         expiredEntries := expired;
         validEntries := (size - expired)%Z;
         cacheTTLMs := cacheTTL |}.

End SSMService.

(** The response handed back to API Gateway; [body] is the object given
    to [JSON.stringify]. *)
Module Http.

Record OperationsStatus : Type := { mongodb : string; sns : string }.

Inductive Body : Type :=
| Processed (message requestId database collection : string)
    (operations_status : OperationsStatus) (processing_time_ms : Z)
| MethodNotAllowed (message error : string) (allowed_methods : list string)
    (requestId : string)
| Failure (message error requestId : string).

Record Response : Type := {
  statusCode : Z;
  headers : list (string * string);
  body : Body
}.

(** The record each tracked operation resolves to. *)
Record OperationOutcome : Type := {
  success : bool;
  operation : string;
  error : option string
}.

(** An element of the array [Promise.allSettled] resolves to. *)
Inductive Settled : Type :=
| Fulfilled (value : OperationOutcome)
| SettledRejected (reason : string).

(** [results[i]?.value]. *)
Definition value_at (results : list Settled) (i : nat)
  : option OperationOutcome :=
  match nth_error results i with
  | Some (Fulfilled v) => Some v
  | _ => None
  end.

(** The calls the handlers make to their collaborators: the command
    of the parameter store, [new MongoClient(uri, options)] (the driver
    reads the connection string and throws on a malformed one),
    [client.connect()], [collection.insertOne(eventData)] and the
    publish. *)
Inductive Call : Type :=
| SSM (command : SSMService.Call)
| MongoClientNew (uri : string)
| MongoConnect (uri : string)
| MongoInsert (database collection : string) (eventData : EventData.t)
| SNSPublish (topicArn : string) (eventData : EventData.t)
    (environment : string).

(** The module-level variables kept between invocations: [mongoUri],
    the [mongoClient] of the monolith, and the cache of the [ssm]
    service object that the entry-point handler keeps in [services]. *)
Record Globals : Type := {
  mongoUri : option string;
  mongoClient : option string;
  ssmCache : SSMService.Cache
}.

Definition M (A : Type) : Type := Runtime.M Call Globals A.

Definition with_ssmCache (g : Globals) (cache : SSMService.Cache)
  : Globals :=
  {| mongoUri := mongoUri g; mongoClient := mongoClient g;
     ssmCache := cache |}.

(** A method of [services.ssm], called from the handler. *)
Definition ssm {A : Type} (m : SSMService.M A) : M A :=
  Runtime.embed SSM ssmCache with_ssmCache m.

End Http.

(* ================================================================= *)
(** ** src/handlers/webhook.handler.js *)

Module WebhookHandler.

(** [path.replace(/[^a-zA-Z0-9]/g, "-")]. *)
Definition replace_non_alnum (path : string) : string :=
  JS.map_chars (fun c => if JS.is_alnum c then c else "-"%char) path.

(** The two alternatives of [/^-+|-+$/g], each replaced by the empty
    string: the run of dashes at the start, and the run at the end. *)
Fixpoint strip_leading_dashes (s : string) : string :=
  match s with
  | String c s' => if (c =? "-")%char then strip_leading_dashes s' else s
  | EmptyString => EmptyString
  end.

Fixpoint strip_trailing_dashes (s : string) : string :=
  match s with
  | EmptyString => EmptyString
  | String c s' =>
      match strip_trailing_dashes s' with
      | EmptyString => if (c =? "-")%char then EmptyString
                       else String c EmptyString
      | r => String c r
      end
  end.

Definition trim_dashes (s : string) : string :=
  strip_trailing_dashes (strip_leading_dashes s).

Definition generateCollectionName (path : string) : string :=
  if (path =? "") || (path =? "/") then "root"
  else
    let collectionName := replace_non_alnum path in
    let collectionName := trim_dashes collectionName in
    if collectionName =? "" then "unknown" else collectionName.

(** The spec's wording, for comparison: "stripping all non-alphanumeric
    characters from P". *)
Definition strip_non_alnum (path : string) : string :=
  JS.filter_chars JS.is_alnum path.

Definition first_char (s : string) : option ascii :=
  match s with
  | String c _ => Some c
  | EmptyString => None
  end.

Fixpoint last_char (s : string) : option ascii :=
  match s with
  | EmptyString => None
  | String c EmptyString => Some c
  | String _ r => last_char r
  end.

(** "matches [[A-Za-z0-9-]*]". *)
Definition name_chars (s : string) : bool :=
  JS.forall_chars (fun c => JS.is_alnum c || (c =? "-")%char) s.

(** *** The request path through the handler *)

Import Runtime.
Local Open Scope js_scope.

Definition validateMethod (env : Config.Env) (method : option string)
  : Result bool :=
  match Config.getConfig env with
  | Returned config =>
      Returned
        (match method with
         | Some m =>
             existsb (String.eqb m)
               (Config.allowedMethods (Config.webhook config))
         | None => false
         end)
  | Thrown e => Thrown e
  end.

Definition extractEventData (event : Lambda.Event) : Http.M EventData.t :=
  let domain :=
    coalesce (match Lambda.requestContext event with
              | Some rc => Lambda.domainName rc | None => None end)
      "unknown-domain" in
  let stage :=
    coalesce (match Lambda.requestContext event with
              | Some rc => Lambda.stage rc | None => None end) "" in
  let path := coalesce (Lambda.path event) "/" in
  let source :=
    "https://" ++ domain ++ (if stage =? "" then "" else "/" ++ stage)
      ++ path in
  let method := coalesce (Lambda.method_of event) "UNKNOWN" in
  let headers := coalesce (Lambda.headers event) [] in
  let queryParams := coalesce (Lambda.queryStringParameters event) [] in
  let sourceIp := coalesce (Lambda.sourceIp_of event) "unknown" in
  let isBase64Encoded := coalesce (Lambda.isBase64Encoded event) false in
  let payload := coalesce (Lambda.body event) "" in
  pt <- (if payload =? "" then ret (EventData.Raw payload, "text/plain")
         else
           try_catch
             (parsedPayload <- parse (JString payload) ;;
              ret (EventData.Parsed parsedPayload, "application/json"))
             (fun _ => ret (EventData.Raw payload, "text/plain"))) ;;
  timestamp <- date_now ;;
  ret {| EventData.timestamp := timestamp;
         EventData.source := source;
         EventData.transport :=
           {| EventData.method := method;
              EventData.path := path;
              EventData.headers := headers;
              EventData.queryStringParameters := queryParams;
              EventData.sourceIp := sourceIp |};
         EventData.payload := fst pt;
         EventData.type := snd pt;
         EventData.isBase64Encoded := isBase64Encoded |}.

(** The placeholder for the store write: it only logs. *)
Definition storeWebhook (databaseName collectionName : string)
    (eventData : EventData.t) : Http.M Http.OperationOutcome :=
  ret {| Http.success := true; Http.operation := "mongodb";
         Http.error := None |}.

(** [sns.publishWebhookEvent(...)] of [SNSService]: the command is
    sent, and a failure is thrown again under a longer message. *)
Definition publishWebhookEvent (topicArn : string) (eventData : EventData.t)
    (environment : string) : Http.M string :=
  try_catch (send (Http.SNSPublish topicArn eventData environment))
    (fun message => throw ("SNS publish failed: " ++ message)).

(** [snsOperation]: the publish with its [.then] and [.catch]. *)
Definition snsOperation (topicArn : string) (eventData : EventData.t)
    (environment : string) : Http.M Http.OperationOutcome :=
  try_catch
    (publishWebhookEvent topicArn eventData environment ;;;
     ret {| Http.success := true; Http.operation := "sns";
            Http.error := None |})
    (fun message =>
       ret {| Http.success := false; Http.operation := "sns";
              Http.error := Some message |}).

Definition status (ok : bool) : string :=
  if ok then "success" else "failed".

(** The four-way [if] that builds [message] and [operations_status];
    the block reads the same in both handlers. *)
Definition compose (mongoSuccess snsSuccess : bool)
  : string * Http.OperationsStatus :=
  if mongoSuccess && snsSuccess then
    ("Webhook received, logged, stored, and published successfully",
     {| Http.mongodb := "success"; Http.sns := "success" |})
  else if mongoSuccess && negb snsSuccess then
    ("Webhook received, logged, and stored successfully. SNS publishing failed.",
     {| Http.mongodb := "success"; Http.sns := "failed" |})
  else if negb mongoSuccess && snsSuccess then
    ("Webhook received, logged, and published successfully. MongoDB storage failed.",
     {| Http.mongodb := "failed"; Http.sns := "success" |})
  else
    ("Webhook received and logged successfully. Both MongoDB storage and SNS publishing failed.",
     {| Http.mongodb := "failed"; Http.sns := "failed" |}).

Definition json_headers : list (string * string) :=
  [("Content-Type", "application/json")].

(** From [results] to the 200 response. *)
Definition respond (results : list Http.Settled) (context : Lambda.Context)
    (databaseName collectionName : string) (processingTime : Z)
  : Http.Response :=
  let mongoResult := Http.value_at results 0 in
  let snsResult := Http.value_at results 1 in
  let mongoSuccess := coalesce (option_map Http.success mongoResult) false in
  let snsSuccess := coalesce (option_map Http.success snsResult) true in
  let '(message, operations_status) := compose mongoSuccess snsSuccess in
  {| Http.statusCode := 200;
     Http.headers := json_headers;
     Http.body :=
       Http.Processed message (Lambda.awsRequestId context) databaseName
         collectionName operations_status processingTime |}.

Definition error_response (context : Lambda.Context) (message : string)
  : Http.Response :=
  {| Http.statusCode := 500;
     Http.headers := json_headers;
     Http.body :=
       Http.Failure "Error processing webhook" message
         (Lambda.awsRequestId context) |}.

Definition not_allowed (context : Lambda.Context) (error : string)
  : Http.Response :=
  {| Http.statusCode := 405;
     Http.headers := [("Content-Type", "application/json");
                      ("Allow", "POST, PUT, PATCH, DELETE")];
     Http.body :=
       Http.MethodNotAllowed "Method Not Allowed" error
         ["POST"; "PUT"; "PATCH"; "DELETE"] (Lambda.awsRequestId context) |}.

(** [initializeServices()]: the configuration, with the two service
    objects built from it and kept in [services]; the cache of
    [services.ssm] is [Http.ssmCache]. *)
Definition initializeServices (env : Config.Env) : Http.M Config.Config :=
  match Config.getConfig env with
  | Returned config => ret config
  | Thrown e => throw e
  end.

(** [if (!mongoUri) { mongoUri = await ssm.getParameter(name); }]: the
    secret kept in the global, fetched through the parameter service
    (with its defaults: decryption and caching on) while the global is
    empty. *)
Definition resolveMongoUri (parameterName : string) : Http.M string :=
  g <- get_globals ;;
  if truthy (Http.mongoUri g) then ret (coalesce (Http.mongoUri g) "")
  else
    value <- Http.ssm (SSMService.getParameter parameterName true true) ;;
    g' <- get_globals ;;
    set_globals {| Http.mongoUri := Some value;
                   Http.mongoClient := Http.mongoClient g';
                   Http.ssmCache := Http.ssmCache g' |} ;;;
    ret value.

(** The two operations are started together and awaited with
    [Promise.allSettled].  Here they run one after the other, the store
    first; neither can throw, so the second is run whatever the first
    did.  The tracking and tracing identifiers handed to the publish are
    left out of the recorded call. *)
Definition processWebhook (env : Config.Env) (event : Lambda.Event)
    (context : Lambda.Context) : Http.M Http.Response :=
  try_catch
    (config <- initializeServices env ;;
     eventData <- extractEventData event ;;
     resolveMongoUri
       (coalesce (Config.mongodbUriParameter (Config.aws config)) "") ;;;
     let databaseName := Config.getDatabaseName config in
     let collectionName :=
       generateCollectionName
         (EventData.path (EventData.transport eventData)) in
     startTime <- date_now ;;
     mongoResult <- storeWebhook databaseName collectionName eventData ;;
     published <-
       (if Config.isSNSConfigured config then
          snsResult <-
            snsOperation
              (coalesce (Config.snsTopicArn (Config.aws config)) "")
              eventData (Config.environment config) ;;
          ret [Http.Fulfilled snsResult]
        else ret []) ;;
     let results := Http.Fulfilled mongoResult :: published in
     endTime <- date_now ;;
     let processingTime := (endTime - startTime)%Z in
     ret (respond results context databaseName collectionName
            processingTime))
    (fun message => ret (error_response context message)).

Definition handler (env : Config.Env) (event : Lambda.Event)
    (context : Lambda.Context) : Http.M Http.Response :=
  let httpMethod := Lambda.method_of event in
  if match httpMethod with Some m => m =? "GET" | None => false end then
    ret (not_allowed context
           "GET requests are not supported by this webhook endpoint")
  else
    match validateMethod env httpMethod with
    | Thrown e => throw e
    | Returned false =>
        ret (not_allowed context
               (coalesce httpMethod "undefined"
                  ++ " requests are not supported"))
    | Returned true => processWebhook env event context
    end.

End WebhookHandler.

(* ================================================================= *)
(** ** index.js *)

Module Index.

(** [module.exports = { handler }], the handler of
    [src/handlers/webhook.handler.js]. *)
Definition handler := WebhookHandler.handler.

End Index.

(* ================================================================= *)
(** ** index-monolithic-backup.js *)

Module Monolith.
Import Runtime.
Local Open Scope js_scope.

(** [WebhookProcessor]: the three static methods have the text of
    their counterparts in the modular handler. *)
Definition extractEventData := WebhookHandler.extractEventData.
Definition generateCollectionName := WebhookHandler.generateCollectionName.
Definition generateDatabaseName (environment : string) : string :=
  environment ++ "-webhook".

(** [SSMService.getParameter] of this file: no cache, decryption on
    by default. *)
Definition getParameter (parameterName : string) : Http.M string :=
  try_catch
    (send (Http.SSM (SSMService.GetParameter parameterName true)))
    (fun message => throw ("SSM parameter retrieval failed: " ++ message)).

(** [headers[name]] for a name that is an own property or absent. *)
Fixpoint property (headers : HeadersUtil.Headers) (name : string)
  : option string :=
  match headers with
  | [] => None
  | (k, v) :: rest => if k =? name then Some v else property rest name
  end.

(** [headers["x-datadog-trace-id"] || headers["X-Datadog-Trace-Id"]];
    [None] when both are falsy. *)
Definition datadogTraceId (headers : HeadersUtil.Headers) : option string :=
  if truthy (property headers "x-datadog-trace-id")
  then property headers "x-datadog-trace-id"
  else if truthy (property headers "X-Datadog-Trace-Id")
       then property headers "X-Datadog-Trace-Id"
       else None.

(** [SNSService.publishWebhookEvent].  The value of the attribute
    [x-datadog-trace-id] of the command is
    [datadogTraceId || correlationId], and [correlationId] is not
    declared in the scope of the class: when [datadogTraceId] is falsy,
    evaluating it throws a [ReferenceError] before anything is sent. *)
Definition publishWebhookEvent (topicArn : string) (eventData : EventData.t)
    (environment : string) (datadogTraceId : option string)
  : Http.M string :=
  try_catch
    (if truthy datadogTraceId then
       send (Http.SNSPublish topicArn eventData environment)
     else throw "correlationId is not defined")
    (fun message => throw ("SNS publish failed: " ++ message)).

(** [MongoDBService.connect]: when the global is empty the client is
    constructed, stored in the global, and only then connected; a
    constructor that throws leaves the global empty, a [connect()] that
    rejects leaves the client in it. *)
Definition connect (connectionUri databaseName : string) : Http.M unit :=
  try_catch
    (g <- get_globals ;;
     match Http.mongoClient g with
     | None =>
         send (Http.MongoClientNew connectionUri) ;;;
         g' <- get_globals ;;
         set_globals {| Http.mongoUri := Http.mongoUri g';
                        Http.mongoClient := Some connectionUri;
                        Http.ssmCache := Http.ssmCache g' |} ;;;
         send (Http.MongoConnect connectionUri) ;;;
         ret tt
     | Some _ => ret tt
     end)
    (fun message => throw ("MongoDB connection failed: " ++ message)).

(** [MongoDBService.storeWebhookEvent], on the database [connect]
    attached. *)
Definition storeWebhookEvent (databaseName collectionName : string)
    (eventData : EventData.t) : Http.M string :=
  try_catch (send (Http.MongoInsert databaseName collectionName eventData))
    (fun message => throw ("MongoDB insert failed: " ++ message)).

Definition mongoOperation (mongoUri databaseName collectionName : string)
    (eventData : EventData.t) : Http.M Http.OperationOutcome :=
  try_catch
    (connect mongoUri databaseName ;;;
     storeWebhookEvent databaseName collectionName eventData ;;;
     ret {| Http.success := true; Http.operation := "mongodb";
            Http.error := None |})
    (fun message =>
       ret {| Http.success := false; Http.operation := "mongodb";
              Http.error := Some message |}).

(** [snsOperation]; [datadogTraceId] is read from the headers of the
    event. *)
Definition snsOperation (snsTopicArn : string) (eventData : EventData.t)
    (environment : string) : Http.M Http.OperationOutcome :=
  let headers := EventData.headers (EventData.transport eventData) in
  try_catch
    (publishWebhookEvent snsTopicArn eventData environment
       (datadogTraceId headers) ;;;
     ret {| Http.success := true; Http.operation := "sns";
            Http.error := None |})
    (fun message =>
       ret {| Http.success := false; Http.operation := "sns";
              Http.error := Some message |}).

(** The secret, fetched when the global [mongoUri] is still empty. *)
Definition resolveMongoUri (env : Config.Env) : Http.M string :=
  g <- get_globals ;;
  if truthy (Http.mongoUri g) then ret (coalesce (Http.mongoUri g) "")
  else
    if negb (truthy (Config.MONGODB_URI_PARAMETER env)) then
      throw "MONGODB_URI_PARAMETER environment variable not set"
    else
      value <- getParameter
                 (coalesce (Config.MONGODB_URI_PARAMETER env) "") ;;
      g' <- get_globals ;;
      set_globals {| Http.mongoUri := Some value;
                     Http.mongoClient := Http.mongoClient g';
                     Http.ssmCache := Http.ssmCache g' |} ;;;
      ret value.

(** The exported handler.  As in [processWebhook], the two operations
    awaited with [Promise.allSettled] run one after the other. *)
Definition handler (env : Config.Env) (event : Lambda.Event)
    (context : Lambda.Context) : Http.M Http.Response :=
  let httpMethod := Lambda.method_of event in
  if match httpMethod with Some m => m =? "GET" | None => false end then
    ret (WebhookHandler.not_allowed context
           "GET requests are not supported by this webhook endpoint")
  else
    try_catch
      (eventData <- extractEventData event ;;
       mongoUri <- resolveMongoUri env ;;
       let functionName := or_else (Lambda.functionName context) "" in
       let environment := Config.detectEnvironment functionName in
       let databaseName := generateDatabaseName environment in
       let collectionName :=
         generateCollectionName
           (EventData.path (EventData.transport eventData)) in
       startTime <- date_now ;;
       let snsTopicArn := Config.SNS_TOPIC_ARN env in
       mongoResult <-
         mongoOperation mongoUri databaseName collectionName eventData ;;
       published <-
         (if truthy snsTopicArn then
            snsResult <-
              snsOperation (coalesce snsTopicArn "") eventData environment ;;
            ret [Http.Fulfilled snsResult]
          else ret []) ;;
       let results := Http.Fulfilled mongoResult :: published in
       endTime <- date_now ;;
       let processingTime := (endTime - startTime)%Z in
       ret (WebhookHandler.respond results context databaseName
              collectionName processingTime))
      (fun message => ret (WebhookHandler.error_response context message)).

End Monolith.

(* ================================================================= *)
(** ** src/services/sns.service.js *)

Module SNSService.
Import Runtime.

(** The object [messageAttributes], by its entries in property order. *)
Definition Attributes : Type := list (string * HeadersUtil.Attribute).

Definition string_attribute (value : string) : HeadersUtil.Attribute :=
  {| HeadersUtil.DataType := "String"; HeadersUtil.StringValue := value |}.

(** [messageAttributes[name] = attribute]. *)
Fixpoint attr_set (attributes : Attributes) (name : string)
    (attribute : HeadersUtil.Attribute) : Attributes :=
  match attributes with
  | [] => [(name, attribute)]
  | (k, v) :: rest =>
      if k =? name then (k, attribute) :: rest
      else (k, v) :: attr_set rest name attribute
  end.

(** The argument [trackingIds], whose two properties may be missing. *)
Record TrackingIdsArg : Type := {
  correlationId : option string;
  requestId : option string
}.

(** [_addHeadersAttribute].  [maxHeaderSize] is [this.config.maxHeaderSize];
    when it is [undefined] the default of the parameter [maxSize] of
    [createHeadersAttribute] applies. *)
Definition _addHeadersAttribute (maxHeaderSize : option Z)
    (messageAttributes : Attributes) (headers : option HeadersUtil.Headers)
  : Attributes :=
  match headers with
  | None => messageAttributes
  | Some _ =>
      match HeadersUtil.createHeadersAttribute headers
              (coalesce maxHeaderSize HeadersUtil.default_maxSize) with
      | Some headersAttribute =>
          attr_set messageAttributes "headers" headersAttribute
      | None => messageAttributes
      end
  end.

Definition _addDatadogAttributes (messageAttributes : Attributes)
    (datadogTraceId datadogParentId : option string) : Attributes :=
  let messageAttributes :=
    if truthy datadogTraceId then
      attr_set messageAttributes "x-datadog-trace-id"
        (string_attribute (coalesce datadogTraceId ""))
    else messageAttributes in
  if truthy datadogParentId then
    attr_set messageAttributes "x-datadog-parent-id"
      (string_attribute (coalesce datadogParentId ""))
  else messageAttributes.

(** [_buildMessageAttributes].  [uuid] and [n] are the generator of
    [crypto.randomUUID()] and the number of calls made to it, as in
    [HeadersUtil.extractTrackingIds]. *)
Definition _buildMessageAttributes (maxHeaderSize : option Z)
    (uuid : nat -> string) (n : nat)
    (eventData : EventData.t) (environment : string)
    (trackingIds : TrackingIdsArg)
    (datadogTraceId datadogParentId : option string) : Attributes * nat :=
  let '(correlation, n1) :=
    if truthy (correlationId trackingIds)
    then (coalesce (correlationId trackingIds) "", n) else (uuid n, S n) in
  let '(request, n2) :=
    if truthy (requestId trackingIds)
    then (coalesce (requestId trackingIds) "", n1) else (uuid n1, S n1) in
  let messageAttributes :=
    [("environment", string_attribute environment);
     ("method",
      string_attribute (EventData.method (EventData.transport eventData)));
     ("path",
      string_attribute (EventData.path (EventData.transport eventData)));
     ("contentType", string_attribute (EventData.type eventData));
     ("x-correlation-id", string_attribute correlation);
     ("x-request-id", string_attribute request);
     ("content-type", string_attribute "application/json")] in
  let messageAttributes :=
    _addHeadersAttribute maxHeaderSize messageAttributes
      (Some (EventData.headers (EventData.transport eventData))) in
  (_addDatadogAttributes messageAttributes datadogTraceId datadogParentId,
   n2).

(** [_buildMessage], as the value that [JSON.parse] reads back from its
    [JSON.stringify]; [iso t] is [toISOString()] of the time value [t]. *)
Definition string_map (o : list (string * string)) : json :=
  JObject (map (fun kv => (fst kv, JString (snd kv))) o).

Definition _buildMessage (iso : Z -> string) (eventData : EventData.t)
    (environment : string) : json :=
  let transport := EventData.transport eventData in
  JObject
    [("environment", JString environment);
     ("timestamp", JString (iso (EventData.timestamp eventData)));
     ("source", JString (EventData.source eventData));
     ("transport",
      JObject
        [("method", JString (EventData.method transport));
         ("path", JString (EventData.path transport));
         ("headers", string_map (EventData.headers transport));
         ("queryStringParameters",
          string_map (EventData.queryStringParameters transport));
         ("sourceIp", JString (EventData.sourceIp transport))]);
     ("payload",
      match EventData.payload eventData with
      | EventData.Raw text => JString text
      | EventData.Parsed value => value
      end);
     ("type", JString (EventData.type eventData));
     ("isBase64Encoded", JBool (EventData.isBase64Encoded eventData))].

(** *** validateTopicArn *)

(** The longest prefix of [s] in the class [p], and what follows it. *)
Fixpoint span (p : ascii -> bool) (s : string) : string * string :=
  match s with
  | EmptyString => (EmptyString, EmptyString)
  | String c s' =>
      if p c then let '(a, b) := span p s' in (String c a, b)
      else (EmptyString, s)
  end.

Fixpoint strip_prefix (pre s : string) : option string :=
  match pre, s with
  | EmptyString, _ => Some s
  | String a pre', String b s' =>
      if (a =? b)%char then strip_prefix pre' s' else None
  | String _ _, EmptyString => None
  end.

(** [[a-z0-9-]] and [[a-zA-Z0-9_-]]. *)
Definition is_region_char (c : ascii) : bool :=
  JS.is_lower c || JS.is_digit c || (c =? "-")%char.

Definition is_name_char (c : ascii) : bool :=
  JS.is_alnum c || (c =? "_")%char || (c =? "-")%char.

(** The colon between two runs. *)
Definition expect_colon (s : string) : option string :=
  match s with
  | String c r => if (c =? ":")%char then Some r else None
  | EmptyString => None
  end.

(** [/^arn:aws:sns:[a-z0-9-]+:\d+:[a-zA-Z0-9_-]+$/.test(topicArn)]: no
    class contains the colon, so each run ends at the next colon. *)
Definition validateTopicArn (topicArn : option string) : bool :=
  match topicArn with
  | None => false
  | Some s =>
      match strip_prefix "arn:aws:sns:" s with
      | None => false
      | Some r1 =>
          let '(region, r2) := span is_region_char r1 in
          match expect_colon r2 with
          | Some r3 =>
              let '(account, r4) := span JS.is_digit r3 in
              match expect_colon r4 with
              | Some name =>
                  negb (region =? "") && negb (account =? "")
                  && negb (name =? "") && JS.forall_chars is_name_char name
              | None => false
              end
          | None => false
          end
      end
  end.

End SNSService.

(* ================================================================= *)
(** ** index-monolithic-backup.js: the publish command *)

(** The class [SNSService] of the monolith and what the handler does
    with it, under the names used in the statements about the publish
    command. *)
Module MonolithSNS.

Definition property := Monolith.property.
Definition datadogTraceId := Monolith.datadogTraceId.
Definition publishWebhookEvent := Monolith.publishWebhookEvent.
Definition snsOperation := Monolith.snsOperation.
Definition handler := Monolith.handler.

End MonolithSNS.

(* ================================================================= *)
(** ** dlq-processor.js *)

(** The SQS event the dead-letter processor receives. *)
Module SQS.

(** [ApproximateReceiveCount] is written by SQS as a decimal string;
    the model keeps its value. *)
Record Attributes : Type := {
  ApproximateReceiveCount : option Z;
  ApproximateFirstReceiveTimestamp : option string;
  SentTimestamp : option string
}.

(** Each field is the [stringValue] of the message attribute of that
    name, [None] when the attribute or its [stringValue] is absent. *)
Record MessageAttributes : Type := {
  TopicArn : option string;
  FailureReason : option string;
  Endpoint : option string;
  Protocol : option string
}.

Record Record_ : Type := {
  messageId : string;
  body : string;
  attributes : option Attributes;
  messageAttributes : option MessageAttributes;
  receiptHandle : string
}.

Record Event : Type := { Records : option (list Record_) }.

End SQS.

Module DLQ.
Import Runtime.
Local Open Scope js_scope.

Record Env : Type := {
  DLQ_URL : option string;
  CRITICAL_FAILURE_TOPIC_ARN : option string;
  ENVIRONMENT : option string
}.

Record FailureInfo : Type := {
  messageId : string;
  receiveCount : Z;
  firstReceiveTimestamp : option string;
  sentTimestamp : option string;
  originalTopicArn : option string;
  failureReason : string;
  subscriberEndpoint : option string;
  protocol : option string
}.

Record Analysis : Type := {
  shouldRetry : bool;
  isCritical : bool;
  failureType : string;
  recommendations : list string
}.

Record Dimension : Type := { Name : string; Value : string }.

Record Metric : Type := {
  MetricName : string;
  Dimensions : list Dimension
}.

(** [_retry], the metadata added to a republished event. *)
Record Retry : Type := {
  attempt : Z;
  originalMessageId : string;
  originalFailure : string;
  retryTimestamp : Z
}.

Inductive Message : Type :=
| RetryMessage (webhookEvent : json) (_retry : Retry)
| Notification (environment : string) (failure : FailureInfo)
    (path method timestamp : option json) (analysis : Analysis)
    (sentAt : Z).

Record PublishCommand : Type := {
  TopicArn : string;
  Subject : option string;
  Message_ : Message;
  RetryAttempt : option string
}.

Inductive Call : Type :=
| PutMetricData (Namespace : string) (MetricData : list Metric)
| Publish (command : PublishCommand)
| DeleteMessage (QueueUrl ReceiptHandle : string).

(** One element of the array [results]. *)
Inductive EntryResult : Type :=
| ProcessedResult (messageId : string) (analysis : Analysis)
| FailedResult (messageId : string) (error : string).

Definition status (r : EntryResult) : string :=
  match r with
  | ProcessedResult _ _ => "processed"
  | FailedResult _ _ => "failed"
  end.

(** The state carries the array [results] of the handler. *)
Definition M (A : Type) : Type := Runtime.M Call (list EntryResult) A.

(** *** Reading parsed values *)

Definition truthy_json (v : option json) : bool :=
  match v with
  | None | Some JNull => false
  | Some (JBool b) => b
  | Some (JNumber n) => negb (n =? 0)%Z
  | Some (JString s) => negb (s =? "")
  | Some (JArray _) | Some (JObject _) => true
  end.

(** The value of the last member called [name], as [JSON.parse] keeps
    it. *)
Fixpoint lookup (name : string) (members : list (string * json))
  : option json :=
  match members with
  | [] => None
  | (k, v) :: rest =>
      match lookup name rest with
      | Some v' => Some v'
      | None => if k =? name then Some v else None
      end
  end.

(** [v.name], for a name that is no index and not [length]; [None] is
    [undefined]. *)
Definition member (v : json) (name : string) : Result (option json) :=
  match v with
  | JNull => Thrown ("Cannot read properties of null (reading '" ++ name ++ "')")
  | JObject members => Returned (lookup name members)
  | _ => Returned None
  end.

(** [v?.includes(needle)] for the value [v] of a property. *)
Definition opt_includes (v : option json) (needle : string) : Result bool :=
  match v with
  | None | Some JNull => Returned false
  | Some (JString s) => Returned (JS.includes s needle)
  | Some (JArray items) =>
      Returned
        (existsb
           (fun i => match i with JString t => t =? needle | _ => false end)
           items)
  | Some _ => Thrown "webhookEvent.path?.includes is not a function"
  end.

(** *** analyzeFailure *)

Definition day_ms : Z := 24 * (1000 * 60 * 60).

(** [Date.now() - parseInt(failureInfo.sentTimestamp)]. *)
Definition messageAgeMs (now : Z) (failureInfo : FailureInfo) : option Z :=
  match sentTimestamp failureInfo with
  | Some s => option_map (fun t => now - t)%Z (JS.parseInt s)
  | None => None
  end.

(** [messageAgeHours > 24], where [messageAgeHours] is
    [messageAgeMs / (1000 * 60 * 60)]: the division is monotone and
    exact at 24 hours, so the test compares the age with 24 hours of
    milliseconds.  A comparison with [NaN] is false. *)
Definition older_than_24h (ageMs : option Z) : bool :=
  match ageMs with
  | Some a => (day_ms <? a)%Z
  | None => false
  end.

Definition analyzeFailure (now : Z) (failureInfo : FailureInfo)
    (webhookEvent : json) : Result Analysis :=
  let analysis :=
    {| shouldRetry := false; isCritical := false;
       failureType := "unknown"; recommendations := [] |} in
  let analysis :=
    if JS.includes (failureReason failureInfo) "timeout" then
      {| shouldRetry := true; isCritical := isCritical analysis;
         failureType := "timeout";
         recommendations :=
           (recommendations analysis
              ++ ["Consider increasing timeout for subscriber"])%list |}
    else if JS.includes (failureReason failureInfo) "5" then
      {| shouldRetry := true; isCritical := isCritical analysis;
         failureType := "server_error";
         recommendations :=
           (recommendations analysis
              ++ ["Subscriber experiencing server errors"])%list |}
    else if JS.includes (failureReason failureInfo) "4" then
      {| shouldRetry := false; isCritical := isCritical analysis;
         failureType := "client_error";
         recommendations :=
           (recommendations analysis
              ++ ["Check subscriber configuration or webhook payload"])%list |}
    else analysis in
  match member webhookEvent "path" with
  | Thrown e => Thrown e
  | Returned path =>
      let critical :=
        match opt_includes path "/payment" with
        | Returned true => Returned true
        | Returned false =>
            match opt_includes path "/security" with
            | Returned true => Returned true
            | Returned false => opt_includes path "/critical"
            | Thrown e => Thrown e
            end
        | Thrown e => Thrown e
        end in
      match critical with
      | Thrown e => Thrown e
      | Returned c =>
          let analysis :=
            if c then
              {| shouldRetry := shouldRetry analysis; isCritical := true;
                 failureType := failureType analysis;
                 recommendations := recommendations analysis |}
            else analysis in
          let messageAgeMs := messageAgeMs now failureInfo in
          if older_than_24h messageAgeMs then
            Returned
              {| shouldRetry := false; isCritical := isCritical analysis;
                 failureType := failureType analysis;
                 recommendations :=
                   (recommendations analysis
                      ++ ["Message too old for retry"])%list |}
          else Returned analysis
      end
  end.

(** *** The side channels *)

Definition protocol_dimension (failureInfo : FailureInfo) : Dimension :=
  {| Name := "Protocol"; Value := or_else (protocol failureInfo) "unknown" |}.

(** [params.MetricData]. *)
Definition metricData (failureInfo : FailureInfo) (analysis : Analysis)
  : list Metric :=
  let processed :=
    {| MetricName := "ProcessedMessages";
       Dimensions :=
         [protocol_dimension failureInfo;
          {| Name := "FailureType"; Value := failureType analysis |}] |} in
  if isCritical analysis then
    [processed;
     {| MetricName := "CriticalFailures";
        Dimensions := [protocol_dimension failureInfo] |}]
  else [processed].

Definition sendMetrics (failureInfo : FailureInfo) (analysis : Analysis)
  : M unit :=
  try_catch
    (send (PutMetricData "WebhookReceiver/DLQ"
             (metricData failureInfo analysis)) ;;;
     ret tt)
    (fun _ => ret tt).

Definition Z_to_string (z : Z) : string :=
  NilEmpty.string_of_int (Z.to_int z).

(** The [command] of [retryDelivery]: the original event with [_retry]
    added, for the original topic. *)
Definition retryCommand (webhookEvent : json) (failureInfo : FailureInfo)
    (retryTimestamp : Z) : PublishCommand :=
  let retryMessage :=
    RetryMessage webhookEvent
      {| attempt := receiveCount failureInfo;
         originalMessageId := messageId failureInfo;
         originalFailure := failureReason failureInfo;
         retryTimestamp := retryTimestamp |} in
  {| TopicArn := coalesce (originalTopicArn failureInfo) "";
     Subject := None;
     Message_ := retryMessage;
     RetryAttempt := Some (Z_to_string (receiveCount failureInfo)) |}.

Definition retryDelivery (webhookEvent : json) (failureInfo : FailureInfo)
  : M unit :=
  if truthy (originalTopicArn failureInfo) then
    retryTimestamp <- date_now ;;
    send (Publish (retryCommand webhookEvent failureInfo retryTimestamp)) ;;;
    ret tt
  else ret tt.

(** The [command] of [sendCriticalFailureNotification]. *)
Definition notificationCommand (env : Env) (failureInfo : FailureInfo)
    (path method timestamp : option json) (analysis : Analysis) (sentAt : Z)
  : PublishCommand :=
  let notification :=
    Notification (or_else (ENVIRONMENT env) "unknown") failureInfo
      path method timestamp analysis sentAt in
  {| TopicArn := coalesce (CRITICAL_FAILURE_TOPIC_ARN env) "";
     Subject := Some ("Critical Webhook Failure - " ++ failureType analysis);
     Message_ := notification;
     RetryAttempt := None |}.

Definition sendCriticalFailureNotification (env : Env)
    (failureInfo : FailureInfo) (webhookEvent : json) (analysis : Analysis)
  : M unit :=
  match member webhookEvent "path", member webhookEvent "method",
        member webhookEvent "timestamp" with
  | Returned path, Returned method, Returned timestamp =>
      sentAt <- date_now ;;
      send (Publish
              (notificationCommand env failureInfo path method timestamp
                 analysis sentAt)) ;;;
      ret tt
  | Thrown e, _, _ | _, Thrown e, _ | _, _, Thrown e => throw e
  end.

(** The archive is a line of console output. *)
Definition storeFailureDetails (failureInfo : FailureInfo)
    (webhookEvent : json) (analysis : Analysis) : M unit :=
  ret tt.

(** *** processDLQMessage *)

Definition failureInfoOf (record : SQS.Record_) : FailureInfo :=
  let attributes := SQS.attributes record in
  let messageAttributes := SQS.messageAttributes record in
  let attr {A : Type} (f : SQS.Attributes -> option A) : option A :=
    match attributes with Some a => f a | None => None end in
  let mattr (f : SQS.MessageAttributes -> option string) : option string :=
    match messageAttributes with Some a => f a | None => None end in
  {| messageId := SQS.messageId record;
     receiveCount := coalesce (attr SQS.ApproximateReceiveCount) 1%Z;
     firstReceiveTimestamp := attr SQS.ApproximateFirstReceiveTimestamp;
     sentTimestamp := attr SQS.SentTimestamp;
     originalTopicArn := mattr SQS.TopicArn;
     failureReason := or_else (mattr SQS.FailureReason) "Unknown";
     subscriberEndpoint := mattr SQS.Endpoint;
     protocol := mattr SQS.Protocol |}.

(** [messageBody.Message || messageBody]. *)
Definition message_or_body (messageBody : json) : M json :=
  match member messageBody "Message" with
  | Returned m =>
      ret (if truthy_json m then coalesce m messageBody else messageBody)
  | Thrown e => throw e
  end.

(** The original webhook event of a parsed body. *)
Definition parseWebhookEvent (messageBody : json) : M json :=
  try_catch (v <- message_or_body messageBody ;; parse v)
    (fun _ => message_or_body messageBody).

Definition processDLQMessage (env : Env) (record : SQS.Record_)
  : M EntryResult :=
  try_catch
    (messageBody <- parse (JString (SQS.body record)) ;;
     let failureInfo := failureInfoOf record in
     webhookEvent <- parseWebhookEvent messageBody ;;
     now <- date_now ;;
     analysis <-
       match analyzeFailure now failureInfo webhookEvent with
       | Returned a => ret a
       | Thrown e => throw e
       end ;;
     sendMetrics failureInfo analysis ;;;
     (if shouldRetry analysis && (receiveCount failureInfo <? 3)%Z then
        retryDelivery webhookEvent failureInfo
      else
        if truthy (CRITICAL_FAILURE_TOPIC_ARN env) && isCritical analysis
        then sendCriticalFailureNotification env failureInfo webhookEvent
               analysis
        else ret tt) ;;;
     storeFailureDetails failureInfo webhookEvent analysis ;;;
     ret (ProcessedResult (SQS.messageId record) analysis))
    (fun error => throw error).

(** *** handler *)

(** [results.push(r)]. *)
Definition push (r : EntryResult) : M unit :=
  results <- get_globals ;;
  set_globals (results ++ [r])%list.

(** The body of the loop over [event.Records]. *)
Definition iteration (env : Env) (record : SQS.Record_) : M unit :=
  try_catch
    (result <- processDLQMessage env record ;;
     push result ;;;
     if truthy (DLQ_URL env) then
       send (DeleteMessage (coalesce (DLQ_URL env) "")
               (SQS.receiptHandle record)) ;;;
       ret tt
     else ret tt)
    (fun error => push (FailedResult (SQS.messageId record) error)).

Fixpoint loop (env : Env) (records : list SQS.Record_) : M unit :=
  match records with
  | [] => ret tt
  | record :: rest => iteration env record ;;; loop env rest
  end.

Record Summary : Type := { processed : nat; failed : nat; total : nat }.

Definition count_status (s : string) (results : list EntryResult) : nat :=
  List.length (filter (fun r => status r =? s) results).

Definition summarize (results : list EntryResult) : Summary :=
  {| processed := count_status "processed" results;
     failed := count_status "failed" results;
     total := List.length results |}.

Record Response : Type := {
  statusCode : Z;
  message : string;
  summary : Summary;
  results : list EntryResult
}.

(** The handler starts from an empty [results]. *)
Definition handler (env : Env) (event : SQS.Event) : M Response :=
  set_globals [] ;;;
  loop env (coalesce (SQS.Records event) []) ;;;
  results <- get_globals ;;
  let summary := summarize results in
  ret {| statusCode := 200;
         message := "DLQ processing complete";
         summary := summary;
         results := results |}.

(** A run of the handler in a world, from no call made. *)
Definition run (w : World Call) (env : Env) (event : SQS.Event)
  : State Call (list EntryResult) * Result Response :=
  handler env event w {| trace := []; globals := [] |}.

End DLQ.

(* ================================================================= *)
(** ** Concrete requests, entries and worlds *)

Module Sample.
Import Runtime.

(** A world where every collaborator answers, the clock stands still
    and nothing parses as JSON. *)
Definition calm {Call : Type} : World Call :=
  {| reply := fun _ _ => Resolved "ok";
     now := fun _ => 1700000000000%Z;
     JSON_parse := fun _ => None |}.

Definition env : Config.Env :=
  {| Config.AWS_REGION := None;
     Config.SNS_TOPIC_ARN := Some "arn:aws:sns:webhook-events";
     Config.MONGODB_URI_PARAMETER := Some "/webhook/receiver/prod/mongodb-uri";
     Config.AWS_LAMBDA_FUNCTION_NAME := Some "prod-webhook-receiver-handler" |}.

Definition request (method path body : string) : Lambda.Event :=
  {| Lambda.requestContext :=
       Some {| Lambda.httpMethod := Some method;
               Lambda.domainName := Some "webhook.ashari.cloud";
               Lambda.stage := Some "v1";
               Lambda.identity := None |};
     Lambda.path := Some path;
     Lambda.headers := Some [("X-Correlation-ID", "test-123")];
     Lambda.queryStringParameters := None;
     Lambda.body := Some body;
     Lambda.isBase64Encoded := Some false |}.

Definition context : Lambda.Context :=
  {| Lambda.awsRequestId := "req-1";
     Lambda.functionName := Some "prod-webhook-receiver-handler" |}.

(** A cold start: no call made, nothing cached. *)
Definition cold : State Http.Call Http.Globals :=
  {| trace := [];
     globals := {| Http.mongoUri := None; Http.mongoClient := None;
                   Http.ssmCache := [] |} |}.

(** A dead-letter entry for the production topic. *)
Definition entry (reason : string) (receiveCount : Z) (sent : option string)
  : SQS.Record_ :=
  {| SQS.messageId := "m-1";
     SQS.body := "{}";
     SQS.attributes :=
       Some {| SQS.ApproximateReceiveCount := Some receiveCount;
               SQS.ApproximateFirstReceiveTimestamp := None;
               SQS.SentTimestamp := sent |};
     SQS.messageAttributes :=
       Some {| SQS.TopicArn := Some "arn:aws:sns:webhook-events";
               SQS.FailureReason := Some reason;
               SQS.Endpoint := Some "https://api.brainybuddy.app/generatives";
               SQS.Protocol := Some "https" |};
     SQS.receiptHandle := "rh-1" |}.

Definition dlq_env : DLQ.Env :=
  {| DLQ.DLQ_URL := Some "https://sqs/prod-webhook-receiver-sns-dlq";
     DLQ.CRITICAL_FAILURE_TOPIC_ARN := None;
     DLQ.ENVIRONMENT := Some "prod" |}.

Definition generatives : json := JObject [("path", JString "/generatives")].

(** A world that reads every body as the event [{path: "/generatives"}]
    and in which every call resolves. *)
Definition reading : World DLQ.Call :=
  {| reply := fun _ _ => Resolved "ok";
     now := fun _ => 1700000000000%Z;
     JSON_parse := fun _ => Some generatives |}.

(** The same world, except that SQS rejects every delete. *)
Definition delete_rejected : World DLQ.Call :=
  {| reply := fun _ c =>
                match c with
                | DLQ.DeleteMessage _ _ => Rejected "ReceiptHandleIsInvalid"
                | _ => Resolved "ok"
                end;
     now := fun _ => 1700000000000%Z;
     JSON_parse := fun _ => Some generatives |}.

(** One second, and two days, before the clock of these worlds. *)
Definition recent : option string := Some "1699999999000".
Definition stale : option string := Some "1699827200000".

Definition fresh_start : State DLQ.Call (list DLQ.EntryResult) :=
  {| trace := []; globals := [] |}.

End Sample.

(* ================================================================= *)
(** ** Terms in which the properties are stated *)

Section NamerTerms.
Import WebhookHandler.

Definition dash : ascii := "-"%char.

(** All characters of [s] are dashes. *)
Definition all_dashes (s : string) : bool :=
  JS.forall_chars (fun c => (c =? dash)%char) s.

End NamerTerms.

Section ValidationTerms.
Import HeadersUtil.

(** The three patterns of [validateHeaders] when the [lastIndex] of the
    HTML pattern is [i]; the other two never change. *)
Definition patterns_at (i : nat) : list SuspiciousPattern :=
  [ {| pattern := {| matcher := literal_i "script"; global := false;
                     lastIndex := 0 |};
       message := script_message |};
    {| pattern := {| matcher := html_tag; global := true; lastIndex := i |};
       message := html_message |};
    {| pattern := {| matcher := literal_i "javascript:"; global := false;
                     lastIndex := 0 |};
       message := javascript_message |} ].

(** What one header adds to the issue list, apart from the finding of
    the stateful HTML pattern. *)
Definition script_issue (key value : string) : list string :=
  if has_script value || has_script key
  then [suspicious_issue script_message key] else [].

Definition javascript_issue (key value : string) : list string :=
  if has_javascript value || has_javascript key
  then [suspicious_issue javascript_message key] else [].

Definition too_long_issue (key value : string) : list string :=
  if (8192 <? Z.of_nat (String.length value))%Z
  then [length_issue key value] else [].

Definition html_pattern (i : nat) : SuspiciousPattern :=
  {| pattern := {| matcher := html_tag; global := true; lastIndex := i |};
     message := html_message |}.

(** No finding for this header. *)
Definition clean (kv : string * string) : Prop :=
  let '(key, value) := kv in
  (Z.of_nat (String.length value) <= 8192)%Z
  /\ has_script key = false /\ has_script value = false
  /\ has_html_tag key = false /\ has_html_tag value = false
  /\ has_javascript key = false /\ has_javascript value = false.

End ValidationTerms.

Section DispatcherTerms.
Import Runtime.

Definition resolved (r : Reply) : bool :=
  match r with Resolved _ => true | Rejected _ => false end.

(** Whether the store branch of the monolith succeeds from the state
    [s]: the construction of the client and the connection (if one has
    to be opened) and the insert all resolve. *)
Definition mongo_succeeds (w : World Http.Call)
    (s : State Http.Call Http.Globals)
    (mongoUri databaseName collectionName : string)
    (eventData : EventData.t) : bool :=
  let insert := Http.MongoInsert databaseName collectionName eventData in
  let construct := Http.MongoClientNew mongoUri in
  let connect := Http.MongoConnect mongoUri in
  match Http.mongoClient (globals s) with
  | Some _ => resolved (reply w (trace s) insert)
  | None =>
      resolved (reply w (trace s) construct)
      && resolved (reply w (trace s ++ [construct]) connect)
      && resolved (reply w (trace s ++ [construct; connect]) insert)
  end.

(** The 200 response built from the settled results. *)
Definition settled_response (context : Lambda.Context)
    (databaseName collectionName : string) (mongoSuccess snsSuccess : bool)
    (processingTime : Z) : Http.Response :=
  {| Http.statusCode := 200;
     Http.headers := [("Content-Type", "application/json")];
     Http.body :=
       Http.Processed
         (fst (WebhookHandler.compose mongoSuccess snsSuccess))
         (Lambda.awsRequestId context) databaseName collectionName
         {| Http.mongodb := WebhookHandler.status mongoSuccess;
            Http.sns := WebhookHandler.status snsSuccess |}
         processingTime |}.

(** The method test at the head of both handlers. *)
Definition is_GET (method : option string) : bool :=
  match method with Some m => m =? "GET" | None => false end.

Definition allowed (method : option string) : bool :=
  match method with
  | Some m => existsb (String.eqb m) ["POST"; "PUT"; "PATCH"; "DELETE"]
  | None => false
  end.

End DispatcherTerms.

Section AnalyzerTerms.
Import Runtime DLQ.

(** The retry decision of the reason alone. *)
Definition retry_by_reason (reason : string) : bool :=
  JS.includes reason "timeout" || JS.includes reason "5".

Definition type_by_reason (reason : string) : string :=
  if JS.includes reason "timeout" then "timeout"
  else if JS.includes reason "5" then "server_error"
  else if JS.includes reason "4" then "client_error"
  else "unknown".

Definition too_old : string := "Message too old for retry".

Definition with_sentTimestamp (fi : FailureInfo) (t : option string)
  : FailureInfo :=
  {| messageId := messageId fi;
     receiveCount := receiveCount fi;
     firstReceiveTimestamp := firstReceiveTimestamp fi;
     sentTimestamp := t;
     originalTopicArn := originalTopicArn fi;
     failureReason := failureReason fi;
     subscriberEndpoint := subscriberEndpoint fi;
     protocol := protocol fi |}.

End AnalyzerTerms.

Section PipelineTerms.
Import Runtime DLQ.
Local Open Scope list_scope.

Definition is_delete (c : Call) : bool :=
  match c with DeleteMessage _ _ => true | _ => false end.

(** A republished event, as opposed to a notification. *)
Definition is_retry (c : Call) : bool :=
  match c with
  | Publish command =>
      match Message_ command with
      | RetryMessage _ _ => true
      | Notification _ _ _ _ _ _ _ => false
      end
  | _ => false
  end.

(** [m] leaves [results] alone and only adds calls that satisfy [P]. *)
Definition appends (P : Call -> Prop) {A : Type} (m : M A) : Prop :=
  forall w s s' r,
    m w s = (s', r) ->
    globals s' = globals s
    /\ exists calls, trace s' = trace s ++ calls /\ Forall P calls.

End PipelineTerms.

(* ================================================================= *)
(** ** Further terms: headers *)

Section HeaderTerms.
Import HeadersUtil.

(** The entries [sanitizeHeaders] keeps. *)
Definition kept (kv : string * string) : bool :=
  negb (JS.toLowerCase (fst kv) =? "headers")
  && negb (fst kv =? "__proto__").

(** The callback of the loop of [sanitizeHeaders]. *)
Definition sanitize_step (constructedHeaders : Headers)
    (kv : string * string) : Headers :=
  let '(key, value) := kv in
  if negb (JS.toLowerCase key =? "headers")
  then assign constructedHeaders key value
  else constructedHeaders.

(** The same headers with each key rewritten by [f]. *)
Definition rename_keys (f : string -> string) (headers : Headers) : Headers :=
  map (fun kv => (f (fst kv), snd kv)) headers.

End HeaderTerms.

(* ================================================================= *)
(** ** Further terms: names and configuration *)

Section NameTerms.
Import WebhookHandler.

(** A name in the form [generateCollectionName] produces: over
    [[A-Za-z0-9-]], not empty, no dash at either end. *)
Definition canonical (name : string) : Prop :=
  name_chars name = true /\ name <> ""
  /\ first_char name <> Some "-"%char /\ last_char name <> Some "-"%char.

End NameTerms.

(* ================================================================= *)
Section FindingTerms.
Import HeadersUtil.

(** The issue is one that the entries of [headers] account for. *)
Definition justified (headers : Headers) (issue : string) : Prop :=
  exists key value,
    In (key, value) headers
    /\ ((issue = length_issue key value
         /\ (8192 < Z.of_nat (String.length value))%Z)
        \/ (issue = suspicious_issue script_message key
            /\ (has_script value = true \/ has_script key = true))
        \/ (issue = suspicious_issue html_message key
            /\ (has_html_tag value = true \/ has_html_tag key = true))
        \/ (issue = suspicious_issue javascript_message key
            /\ (has_javascript value = true \/ has_javascript key = true))).

End FindingTerms.

Section CallTerms.


Definition is_store_call (c : Http.Call) : bool :=
  match c with
  | Http.MongoClientNew _ | Http.MongoConnect _ | Http.MongoInsert _ _ _ =>
      true
  | _ => false
  end.

End CallTerms.

(* ================================================================= *)
Section ServiceTerms.

(** [messageAttributes[name]]. *)
Fixpoint attribute (attributes : SNSService.Attributes) (name : string)
  : option HeadersUtil.Attribute :=
  match attributes with
  | [] => None
  | (k, v) :: rest => if k =? name then Some v else attribute rest name
  end.

(** The strings the pattern of [validateTopicArn] describes. *)
Definition topic_arn_shape (s : string) : Prop :=
  exists region account name,
    s = "arn:aws:sns:" ++ region ++ ":" ++ account ++ ":" ++ name
    /\ region <> "" /\ JS.forall_chars SNSService.is_region_char region = true
    /\ account <> "" /\ JS.forall_chars JS.is_digit account = true
    /\ name <> "" /\ JS.forall_chars SNSService.is_name_char name = true.

(** The run of a class ends at [s]. *)
Definition stops (p : ascii -> bool) (s : string) : Prop :=
  match s with
  | String c _ => p c = false
  | EmptyString => True
  end.

(** An entry that [getParameter] serves from the cache at time [now]. *)
Definition fresh (now : Z) (entry : SSMService.Entry) : bool :=
  (now - SSMService.timestamp entry <? SSMService.cacheTTL)%Z.

End ServiceTerms.

Section SecretTerms.
Import Runtime.

(** The command of the parameter store for the secret, as both handlers
    send it. *)
Definition secret_command (parameterName : string) : Http.Call :=
  Http.SSM (SSMService.GetParameter parameterName true).

(** What a fetch of [parameterName] through [services.ssm] gives in
    the state [s] when the cache of the service is [cache] at the call:
    the value, cached with the time after the call, or the rejection
    under the message of the service. *)
Definition fetched (w : World Http.Call) (s : State Http.Call Http.Globals)
    (parameterName : string) (cache : SSMService.Cache)
  : State Http.Call Http.Globals * Result string :=
  let c := secret_command parameterName in
  let key := SSMService.cacheKey parameterName true in
  match reply w (trace s) c with
  | Resolved v =>
      ({| trace := trace s ++ [c];
          globals :=
            Http.with_ssmCache (globals s)
              (SSMService.cache_set cache key
                 {| SSMService.value := v;
                    SSMService.timestamp := now w (trace s ++ [c]) |}) |},
       Returned v)
  | Rejected e =>
      ({| trace := trace s ++ [c];
          globals := Http.with_ssmCache (globals s) cache |},
       Thrown ("SSM parameter retrieval failed: " ++ e))
  end.

(** The value of the secret put in the global [mongoUri]. *)
Definition with_mongoUri (g : Http.Globals) (value : string)
  : Http.Globals :=
  {| Http.mongoUri := Some value;
     Http.mongoClient := Http.mongoClient g;
     Http.ssmCache := Http.ssmCache g |}.

End SecretTerms.

Section ReadingTerms.
Import Runtime DLQ.

(** [messageBody.Message || messageBody], for a body other than
    [null]. *)
Definition message_of (messageBody : json) : json :=
  match messageBody with
  | JObject members =>
      if truthy_json (lookup "Message" members)
      then coalesce (lookup "Message" members) messageBody
      else messageBody
  | _ => messageBody
  end.

(** The original event of a body other than [null]: its message read
    as JSON, or the message as it is when it does not parse. *)
Definition original_event (w : World Call) (messageBody : json) : json :=
  match JSON_parse w (message_of messageBody) with
  | Some v => v
  | None => message_of messageBody
  end.

(** An event whose path the analysis can read: the event is not
    [null], and its [path] is absent, [null], a string or an array. *)
Definition readable_path (webhookEvent : json) : bool :=
  match webhookEvent with
  | JNull => false
  | JObject members =>
      match lookup "path" members with
      | None | Some JNull | Some (JString _) | Some (JArray _) => true
      | Some _ => false
      end
  | _ => true
  end.

End ReadingTerms.

(* ================================================================= *)
(** * Properties *)

Example parseInt_examples :
  JS.parseInt "1700000000000" = Some 1700000000000%Z /\
  JS.parseInt "  -42px" = Some (-42)%Z /\
  JS.parseInt "0x1F" = Some 31%Z /\
  JS.parseInt "undefined" = None /\
  JS.parseInt "" = None.
Proof. repeat split; reflexivity. Qed.

Example generateCollectionName_examples :
  WebhookHandler.generateCollectionName "/generatives" = "generatives" /\
  WebhookHandler.generateCollectionName "/messages/telegram" = "messages-telegram" /\
  WebhookHandler.generateCollectionName "/test/webhook/path" = "test-webhook-path" /\
  WebhookHandler.generateCollectionName "/" = "root" /\
  WebhookHandler.generateCollectionName "" = "root" /\
  WebhookHandler.generateCollectionName "//--//" = "unknown".
Proof. repeat split; reflexivity. Qed.

Example validateHeaders_test8 :
  HeadersUtil.issues
    (HeadersUtil.validateHeaders
       (Some [("X-Script", "<script>alert('xss')</script>");
              ("X-Normal", "normal-value");
              ("X-JS", "javascript:alert('bad')")]))
  = [HeadersUtil.suspicious_issue HeadersUtil.script_message "X-Script";
     HeadersUtil.suspicious_issue HeadersUtil.html_message "X-Script";
     HeadersUtil.suspicious_issue HeadersUtil.script_message "X-JS";
     HeadersUtil.suspicious_issue HeadersUtil.javascript_message "X-JS"].
Proof. vm_compute. reflexivity. Qed.

Example JSON_stringify_example :
  HeadersUtil.JSON_stringify [("Content-Type", "application/json"); ("a", "b")]
  = "{" ++ JS.dq ++ "Content-Type" ++ JS.dq ++ ":" ++ JS.dq ++ "application/json"
        ++ JS.dq ++ "," ++ JS.dq ++ "a" ++ JS.dq ++ ":" ++ JS.dq ++ "b" ++ JS.dq ++ "}".
Proof. reflexivity. Qed.

(* ================================================================= *)
(** ** The partition namer *)

Section CollectionName.
Import WebhookHandler.

Lemma dash_not_alnum : JS.is_alnum dash = false.
Proof. reflexivity. Qed.

Lemma alnum_not_dash (c : ascii) : JS.is_alnum c = true -> (c =? dash)%char = false.
Proof.
  intros H. destruct (Ascii.eqb_spec c dash) as [->|]; [|reflexivity].
  rewrite dash_not_alnum in H. discriminate.
Qed.

Lemma strip_leading_empty (s : string) :
  strip_leading_dashes s = "" <-> all_dashes s = true.
Proof.
  unfold all_dashes, dash.
  induction s as [|c s IH]; simpl; [tauto|].
  destruct (c =? "-")%char; simpl; [exact IH|].
  split; discriminate.
Qed.

Lemma strip_trailing_empty (s : string) :
  strip_trailing_dashes s = "" <-> all_dashes s = true.
Proof.
  unfold all_dashes, dash.
  induction s as [|c s IH]; simpl; [tauto|].
  destruct (strip_trailing_dashes s) eqn:E.
  - destruct (c =? "-")%char; simpl.
    + split; [intros _; apply IH; reflexivity | reflexivity].
    + split; discriminate.
  - split; [discriminate|].
    intros H. apply andb_true_iff in H as [_ H].
    apply IH in H. discriminate.
Qed.

Lemma strip_leading_first (s : string) :
  first_char (strip_leading_dashes s) <> Some dash.
Proof.
  induction s as [|c s IH]; simpl; [discriminate|].
  destruct (Ascii.eqb_spec c "-"); [exact IH|].
  simpl. unfold dash. congruence.
Qed.

Lemma strip_trailing_first (s : string) (c : ascii) :
  first_char s = Some c -> c <> dash ->
  first_char (strip_trailing_dashes s) = Some c.
Proof.
  destruct s as [|d s]; simpl; [discriminate|].
  intros [= ->] Hc.
  destruct (strip_trailing_dashes s); [|reflexivity].
  destruct (Ascii.eqb_spec c "-"); [contradiction|reflexivity].
Qed.

Lemma strip_trailing_last (s : string) :
  last_char (strip_trailing_dashes s) <> Some dash.
Proof.
  induction s as [|c s IH]; simpl; [discriminate|].
  destruct (strip_trailing_dashes s) as [|d r] eqn:E.
  - destruct (Ascii.eqb_spec c "-"); simpl; [discriminate|].
    unfold dash. congruence.
  - exact IH.
Qed.

Lemma trim_empty (s : string) : trim_dashes s = "" <-> all_dashes s = true.
Proof.
  unfold trim_dashes. split.
  - intros H.
    destruct (strip_leading_dashes s) as [|c r] eqn:E.
    + apply strip_leading_empty, E.
    + exfalso.
      pose proof (strip_leading_first s) as Hf. rewrite E in Hf. simpl in Hf.
      assert (Hc : c <> dash) by congruence.
      pose proof (strip_trailing_first (String c r) c eq_refl Hc) as Hl.
      rewrite H in Hl. discriminate.
  - intros H. apply strip_leading_empty in H. rewrite H. reflexivity.
Qed.

Lemma trim_first (s : string) : first_char (trim_dashes s) <> Some dash.
Proof.
  unfold trim_dashes.
  destruct (strip_leading_dashes s) as [|c r] eqn:E; [discriminate|].
  pose proof (strip_leading_first s) as Hf. rewrite E in Hf. simpl in Hf.
  assert (Hc : c <> dash) by congruence.
  rewrite (strip_trailing_first (String c r) c eq_refl Hc). congruence.
Qed.

Lemma trim_last (s : string) : last_char (trim_dashes s) <> Some dash.
Proof. apply strip_trailing_last. Qed.

Lemma strip_leading_chars (p : ascii -> bool) (s : string) :
  JS.forall_chars p s = true ->
  JS.forall_chars p (strip_leading_dashes s) = true.
Proof.
  induction s as [|c s IH]; simpl; [auto|].
  intros H. destruct (c =? "-")%char; [|exact H].
  apply andb_true_iff in H as [_ H]. auto.
Qed.

Lemma strip_trailing_chars (p : ascii -> bool) (s : string) :
  JS.forall_chars p s = true ->
  JS.forall_chars p (strip_trailing_dashes s) = true.
Proof.
  induction s as [|c s IH]; simpl; [auto|].
  intros H. apply andb_true_iff in H as [Hc H]. specialize (IH H).
  destruct (strip_trailing_dashes s) as [|d r].
  - destruct (c =? "-")%char; simpl; [reflexivity|].
    rewrite Hc. reflexivity.
  - change (JS.forall_chars p (String c (String d r)))
      with (p c && JS.forall_chars p (String d r)).
    rewrite Hc, IH. reflexivity.
Qed.

Lemma replace_chars (path : string) :
  name_chars (replace_non_alnum path) = true.
Proof.
  unfold name_chars, replace_non_alnum.
  induction path as [|c s IH]; simpl; [reflexivity|].
  rewrite IH, andb_true_r.
  destruct (JS.is_alnum c) eqn:E; [rewrite E|]; reflexivity.
Qed.

Lemma replace_all_dashes (path : string) :
  all_dashes (replace_non_alnum path) = true <-> strip_non_alnum path = "".
Proof.
  unfold all_dashes, replace_non_alnum, strip_non_alnum.
  induction path as [|c s IH]; simpl; [tauto|].
  destruct (JS.is_alnum c) eqn:E.
  - rewrite (alnum_not_dash c E). simpl. split; discriminate.
  - simpl. exact IH.
Qed.

(** The name is empty after trimming exactly when the path has no
    alphanumeric character. *)
Lemma trimmed_empty_iff (path : string) :
  trim_dashes (replace_non_alnum path) = "" <-> strip_non_alnum path = "".
Proof. rewrite trim_empty. apply replace_all_dashes. Qed.

Lemma generateCollectionName_cases (path : string) :
  (path = "" \/ path = "/") /\ generateCollectionName path = "root"
  \/ (path <> "" /\ path <> "/" /\ strip_non_alnum path = ""
      /\ generateCollectionName path = "unknown")
  \/ (path <> "" /\ path <> "/" /\ strip_non_alnum path <> ""
      /\ trim_dashes (replace_non_alnum path) <> ""
      /\ generateCollectionName path = trim_dashes (replace_non_alnum path)).
Proof.
  unfold generateCollectionName.
  destruct (String.eqb_spec path "") as [->|H1]; simpl; [left; auto|].
  destruct (String.eqb_spec path "/") as [->|H2]; simpl; [left; auto|].
  right.
  destruct (String.eqb_spec (trim_dashes (replace_non_alnum path)) "")
    as [E|E].
  - left. repeat split; auto. apply trimmed_empty_iff, E.
  - right. repeat split; auto.
    intros H. apply E, trimmed_empty_iff, H.
Qed.

(** The claim as the spec words it fails from left to right at
    ["/root"]: the name is "root" although the path is neither empty
    nor ["/"]. *)
Lemma root_iff_fails_at_slash_root :
  ~ (generateCollectionName "/root" = "root"
     <-> ("/root" = "" \/ "/root" = "/")).
Proof.
  intros [H _]. destruct (H eq_refl) as [E|E]; discriminate E.
Qed.

(** The same for "unknown", in both directions: ["unknown"] has
    alphanumeric characters and is named "unknown"; ["/"] has none and
    is named "root". *)
Lemma unknown_iff_fails :
  ~ (generateCollectionName "unknown" = "unknown"
     <-> strip_non_alnum "unknown" = "")
  /\ ~ (generateCollectionName "/" = "unknown"
        <-> strip_non_alnum "/" = "").
Proof.
  split.
  - intros [H _]. discriminate (H eq_refl).
  - intros [_ H]. discriminate (H eq_refl).
Qed.

End CollectionName.

(** C3, the claim as the spec states it, refuted at explicit paths: the
    two equivalences ("root" iff the path is empty or "/"; "unknown" iff
    the path has no alphanumeric character) do not hold for the paths
    "/root", "unknown" and "/". *)
Lemma C3_counterexample :
  ~ (WebhookHandler.generateCollectionName "/root" = "root"
     <-> ("/root" = "" \/ "/root" = "/"))
  /\ ~ (WebhookHandler.generateCollectionName "unknown" = "unknown"
        <-> WebhookHandler.strip_non_alnum "unknown" = "")
  /\ ~ (WebhookHandler.generateCollectionName "/" = "unknown"
        <-> WebhookHandler.strip_non_alnum "/" = "").
Proof.
  split; [exact root_iff_fails_at_slash_root | exact unknown_iff_fails].
Qed.

(** C3, as amended.  For every path P the partition namer is a total
    function whose result is a non-empty string over [[A-Za-z0-9-]] that
    neither starts nor ends with "-".  The result is "root" when P is
    empty or "/", and otherwise only when the dash-replaced, dash-trimmed
    path is itself "root"; it is "unknown" when P is neither empty nor
    "/" and has no alphanumeric character, and otherwise only when the
    trimmed path is itself "unknown". *)
Theorem C3_generateCollectionName_shape :
  forall path : string,
    let name := WebhookHandler.generateCollectionName path in
    let trimmed :=
      WebhookHandler.trim_dashes (WebhookHandler.replace_non_alnum path) in
    WebhookHandler.name_chars name = true
    /\ name <> ""
    /\ WebhookHandler.first_char name <> Some "-"%char
    /\ WebhookHandler.last_char name <> Some "-"%char
    /\ (name = "root" <-> path = "" \/ path = "/" \/ trimmed = "root")
    /\ (name = "unknown" <->
        path <> "" /\ path <> "/"
        /\ (WebhookHandler.strip_non_alnum path = "" \/ trimmed = "unknown")).
Proof.
  intros path name trimmed. subst name trimmed.
  destruct (generateCollectionName_cases path)
    as [[Hp ->] | [(H1 & H2 & Hs & ->) | (H1 & H2 & Hs & Ht & ->)]].
  - repeat split; try reflexivity; try discriminate.
    + intros _. destruct Hp; auto.
    + intros (A & B & _). destruct Hp; contradiction.
  - repeat split; try reflexivity; try discriminate; auto.
    intros [E | [E | E]]; try contradiction.
    apply trimmed_empty_iff in Hs. rewrite Hs in E. discriminate.
  - split; [|split; [|split; [|split; [|split]]]].
    + unfold WebhookHandler.trim_dashes.
      apply strip_trailing_chars, strip_leading_chars, replace_chars.
    + exact Ht.
    + apply trim_first.
    + apply trim_last.
    + split; [intros E; right; right; exact E|].
      intros [E | [E | E]]; [contradiction | contradiction | exact E].
    + split; [intros E; repeat split; auto|].
      intros (_ & _ & [E | E]); [contradiction | exact E].
Qed.

(* ================================================================= *)
(** ** The serialized-headers attribute *)

Section HeadersAttribute.
Import HeadersUtil.

Lemma string_length_app (a b : string) :
  String.length (a ++ b) = String.length a + String.length b.
Proof. induction a as [|c a IH]; simpl; [reflexivity | now rewrite IH]. Qed.

Lemma substring_zero_length (n : nat) (s : string) :
  n <= String.length s -> String.length (String.substring 0 n s) = n.
Proof.
  revert s. induction n as [|n IH]; intros [|c s] H; simpl in *;
    try reflexivity; try lia.
  rewrite IH; [reflexivity | lia].
Qed.

Lemma substring_all (s : string) : String.substring 0 (String.length s) s = s.
Proof. induction s as [|c s IH]; simpl; [reflexivity | now rewrite IH]. Qed.

Lemma substring_skip (a b : string) :
  String.substring (String.length a) (String.length b) (a ++ b) = b.
Proof. induction a as [|c a IH]; simpl; [apply substring_all | exact IH]. Qed.

Lemma endsWith_app (a b : string) : JS.endsWith (a ++ b) b = true.
Proof.
  unfold JS.endsWith. rewrite string_length_app.
  replace (String.length a + String.length b - String.length b)
    with (String.length a) by lia.
  rewrite substring_skip, String.eqb_refl, andb_true_r.
  apply Nat.leb_le. lia.
Qed.

(** [substring(0, k)] keeps exactly [k] characters when [k] is within
    the string. *)
Lemma js_substring_prefix (s : string) (k : Z) :
  (0 <= k <= Z.of_nat (String.length s))%Z ->
  JS.substring s 0 k = String.substring 0 (Z.to_nat k) s
  /\ Z.of_nat (String.length (JS.substring s 0 k)) = k.
Proof.
  intros H. unfold JS.substring, JS.clamp.
  replace (Z.max 0 (Z.min 0 (Z.of_nat (String.length s)))) with 0%Z by lia.
  replace (Z.max 0 (Z.min k (Z.of_nat (String.length s)))) with k by lia.
  replace (Z.min 0 k) with 0%Z by lia.
  replace (Z.max 0 k - 0)%Z with k by lia.
  split; [reflexivity|].
  simpl Z.to_nat. rewrite substring_zero_length; lia.
Qed.

(** A negative end index is read as 0. *)
Lemma js_substring_negative (s : string) (k : Z) :
  (k <= 0)%Z -> JS.substring s 0 k = "".
Proof.
  intros H. unfold JS.substring, JS.clamp.
  replace (Z.max 0 (Z.min 0 (Z.of_nat (String.length s)))) with 0%Z by lia.
  replace (Z.max 0 (Z.min k (Z.of_nat (String.length s)))) with 0%Z by lia.
  simpl. destruct s; reflexivity.
Qed.

Lemma truncation_suffix_length : String.length truncation_suffix = 19.
Proof. reflexivity. Qed.

Lemma stringify_empty : JSON_stringify [] = "{}".
Proof. reflexivity. Qed.

Lemma createHeadersAttribute_eq (headers : Headers) (maxSize : Z) :
  sanitizeHeaders (Some headers) <> [] ->
  createHeadersAttribute (Some headers) maxSize =
    let headersJson := JSON_stringify (sanitizeHeaders (Some headers)) in
    if (Z.of_nat (String.length headersJson) <=? maxSize)%Z
    then Some {| DataType := "String"; StringValue := headersJson |}
    else Some {| DataType := "String";
                 StringValue :=
                   JS.substring headersJson 0 (maxSize - 20)
                     ++ truncation_suffix |}.
Proof.
  intros H. unfold createHeadersAttribute.
  destruct (sanitizeHeaders (Some headers)); [contradiction | reflexivity].
Qed.

End HeadersAttribute.

(** C4, the claim as the spec states it, refuted at explicit inputs.
    With [maxSize = 10] the map [{a: "bbbbbbbbbb"}] serializes to 18
    characters and the result has 19, not 9.  With [maxSize = 1000] the
    map [{Headers: "x"}] is empty once sanitized: its serialization "{}"
    fits, and nothing is returned. *)
Lemma C4_counterexample :
  (let headers := [("a", "bbbbbbbbbb")] in
   let json :=
     HeadersUtil.JSON_stringify (HeadersUtil.sanitizeHeaders (Some headers)) in
   (10 < Z.of_nat (String.length json))%Z
   /\ exists a,
       HeadersUtil.createHeadersAttribute (Some headers) 10 = Some a
       /\ String.length (HeadersUtil.StringValue a) = 19
       /\ Z.of_nat (String.length (HeadersUtil.StringValue a)) <> (10 - 1)%Z)
  /\ (let headers := [("Headers", "x")] in
      let json :=
        HeadersUtil.JSON_stringify
          (HeadersUtil.sanitizeHeaders (Some headers)) in
      (Z.of_nat (String.length json) <= 1000)%Z
      /\ HeadersUtil.createHeadersAttribute (Some headers) 1000 = None).
Proof.
  split.
  - cbv zeta. split; [vm_compute; reflexivity|].
    eexists. split; [vm_compute; reflexivity|].
    split; [reflexivity | vm_compute; discriminate].
  - cbv zeta. split; [vm_compute; discriminate | reflexivity].
Qed.

(** C4, as amended.  For every header map that is not empty once
    sanitized: when its serialization has at most [maxSize] characters it
    is returned verbatim; when it has more and [maxSize] is at least 20,
    the result is its first [maxSize - 20] characters followed by the
    truncation suffix, so it has exactly [maxSize - 1] characters and ends
    in the marker. *)
Theorem C4_createHeadersAttribute_truncation :
  forall (headers : HeadersUtil.Headers) (maxSize : Z),
    HeadersUtil.sanitizeHeaders (Some headers) <> [] ->
    let json :=
      HeadersUtil.JSON_stringify (HeadersUtil.sanitizeHeaders (Some headers)) in
    ((Z.of_nat (String.length json) <= maxSize)%Z ->
     HeadersUtil.createHeadersAttribute (Some headers) maxSize
     = Some {| HeadersUtil.DataType := "String";
               HeadersUtil.StringValue := json |})
    /\ ((maxSize < Z.of_nat (String.length json))%Z -> (20 <= maxSize)%Z ->
        exists value,
          HeadersUtil.createHeadersAttribute (Some headers) maxSize
          = Some {| HeadersUtil.DataType := "String";
                    HeadersUtil.StringValue := value |}
          /\ value = String.substring 0 (Z.to_nat (maxSize - 20)) json
                       ++ HeadersUtil.truncation_suffix
          /\ Z.of_nat (String.length value) = (maxSize - 1)%Z
          /\ JS.endsWith value HeadersUtil.truncation_suffix = true).
Proof.
  intros headers maxSize Hne json.
  rewrite (createHeadersAttribute_eq headers maxSize Hne). cbv zeta.
  fold json. split.
  - intros H. apply Z.leb_le in H. rewrite H. reflexivity.
  - intros H H20. apply Z.leb_gt in H as Hb. rewrite Hb.
    destruct (js_substring_prefix json (maxSize - 20)) as [E L]; [lia|].
    eexists. split; [reflexivity|]. rewrite E. split; [reflexivity|].
    split.
    + rewrite string_length_app, truncation_suffix_length.
      rewrite E in L. lia.
    + apply endsWith_app.
Qed.

(** The instance of the spec: with [maxSize = 1000] a map of 40 headers
    is cut to exactly 999 characters. *)
Lemma C4_witness :
  let headers :=
    map (fun i => ("X-Header-" ++ JS.nat_to_string i,
                   "Long value with padding to increase size"))
      (seq 0 40) in
  exists value,
    HeadersUtil.createHeadersAttribute (Some headers) 1000
    = Some {| HeadersUtil.DataType := "String";
              HeadersUtil.StringValue := value |}
    /\ Z.of_nat (String.length value) = 999%Z
    /\ JS.endsWith value HeadersUtil.truncation_suffix = true.
Proof.
  intros headers.
  assert (Hne : HeadersUtil.sanitizeHeaders (Some headers) <> [])
    by (vm_compute; discriminate).
  destruct (C4_createHeadersAttribute_truncation headers 1000 Hne) as [_ H].
  destruct H as (value & E & _ & L & W).
  - vm_compute. reflexivity.
  - lia.
  - exists value. repeat split; assumption.
Defined.

(* ================================================================= *)
(** ** Header validation *)

Section Validation.
Import HeadersUtil.

Lemma patterns_at_zero : suspiciousPatterns = patterns_at 0.
Proof. reflexivity. Qed.

Lemma index_zero_includes (lit s : string) :
  (exists i, String.index 0 lit s = Some i) <-> JS.includes s lit = true.
Proof.
  induction s as [|c s IH].
  - simpl. destruct lit; simpl; split; intros H; eauto;
      try discriminate; destruct H; discriminate.
  - change (String.index 0 lit (String c s))
      with (if String.prefix lit (String c s) then Some 0
            else match String.index 0 lit s with
                 | Some n => Some (S n)
                 | None => None
                 end).
    change (JS.includes (String c s) lit)
      with (if String.prefix lit (String c s) then true
            else JS.includes s lit).
    destruct (String.prefix lit (String c s)).
    + split; eauto.
    + rewrite <- IH. destruct (String.index 0 lit s).
      * split; eauto.
      * split; intros [i H]; discriminate.
Qed.

(** A pattern without the [g] flag answers for the whole string and
    keeps its state. *)
Lemma test_literal (lit s : string) :
  test {| matcher := literal_i lit; global := false; lastIndex := 0 |} s
  = (JS.includes (JS.fold_case s) (JS.fold_case lit),
     {| matcher := literal_i lit; global := false; lastIndex := 0 |}).
Proof.
  unfold test, literal_i. simpl.
  pose proof (index_zero_includes (JS.fold_case lit) (JS.fold_case s)) as H.
  destruct (String.index 0 (JS.fold_case lit) (JS.fold_case s)) as [i|].
  - replace (JS.includes (JS.fold_case s) (JS.fold_case lit)) with true;
      [reflexivity|]. symmetry. apply H. eauto.
  - destruct (JS.includes (JS.fold_case s) (JS.fold_case lit));
      [|reflexivity].
    destruct H as [_ H]. destruct (H eq_refl). discriminate.
Qed.

Lemma check_literal (lit msg key value : string) :
  check_pattern key value
    {| pattern := {| matcher := literal_i lit; global := false;
                     lastIndex := 0 |};
       message := msg |}
  = ((if JS.includes (JS.fold_case value) (JS.fold_case lit)
         || JS.includes (JS.fold_case key) (JS.fold_case lit)
      then [suspicious_issue msg key] else []),
     {| pattern := {| matcher := literal_i lit; global := false;
                      lastIndex := 0 |};
        message := msg |}).
Proof.
  unfold check_pattern. simpl pattern. simpl message.
  rewrite test_literal.
  destruct (JS.includes (JS.fold_case value) (JS.fold_case lit));
    [reflexivity|].
  rewrite test_literal. reflexivity.
Qed.

Lemma index_of_has_char (c : ascii) (s : string) :
  (exists i, JS.index_of c s = Some i) <-> has_char c s = true.
Proof.
  induction s as [|d s IH]; simpl.
  - split; [intros [i H]|intros H]; discriminate.
  - destruct (d =? c)%char; simpl; [split; eauto|].
    rewrite <- IH. destruct (JS.index_of c s); simpl.
    + split; eauto.
    + split; intros [i H]; discriminate.
Qed.

Lemma drop_add (a b : nat) (s : string) :
  JS.drop (a + b) s = JS.drop b (JS.drop a s).
Proof.
  revert s. induction a as [|a IH]; intros s; simpl; [reflexivity|].
  destruct s; [|apply IH]. destruct b; reflexivity.
Qed.

Lemma has_char_drop (c : ascii) (n : nat) (s : string) :
  has_char c (JS.drop n s) = true -> has_char c s = true.
Proof.
  revert s. induction n as [|n IH]; intros [|d s]; simpl; auto.
  intros H. rewrite (IH s H). apply orb_true_r.
Qed.

Lemma has_html_tag_closes (s : string) :
  has_html_tag s = true -> has_char ">" s = true.
Proof.
  induction s as [|d s IH]; simpl; [discriminate|].
  intros H. apply orb_true_iff in H as [H|H].
  - apply andb_true_iff in H as [_ H]. rewrite H. apply orb_true_r.
  - rewrite (IH H). apply orb_true_r.
Qed.

Lemma has_html_tag_drop (n : nat) (s : string) :
  has_html_tag (JS.drop n s) = true -> has_html_tag s = true.
Proof.
  revert s. induction n as [|n IH]; intros [|d s]; simpl; auto.
  intros H. rewrite (IH s H). apply orb_true_r.
Qed.

(** The first [<] and a [>] after it, when the string has a tag. *)
Lemma has_html_tag_first (s : string) :
  has_html_tag s = true ->
  exists i, JS.index_of "<" s = Some i
            /\ has_char ">" (JS.drop (S i) s) = true.
Proof.
  induction s as [|d s IH]; simpl; [discriminate|].
  intros H. destruct (d =? "<")%char eqn:E; simpl in H.
  - exists 0. split; [reflexivity|]. simpl.
    apply orb_true_iff in H as [H|H]; [exact H|].
    apply has_html_tag_closes, H.
  - destruct (IH H) as (i & Hi & Hc). exists (S i). rewrite Hi.
    split; [reflexivity | exact Hc].
Qed.

Lemma first_has_html_tag (s : string) (i : nat) :
  JS.index_of "<" s = Some i -> has_char ">" (JS.drop (S i) s) = true ->
  has_html_tag s = true.
Proof.
  revert i. induction s as [|d s IH]; simpl; [discriminate|].
  intros i. destruct (d =? "<")%char eqn:E; simpl.
  - intros [= <-]. simpl. intros H. rewrite H. reflexivity.
  - destruct (JS.index_of "<" s) as [k|] eqn:Hk; simpl; [|discriminate].
    intros [= <-] H. apply (IH k eq_refl H).
Qed.

(** The matcher finds something from [start] exactly when the rest of
    the string has a tag. *)
Lemma html_tag_iff (s : string) (start : nat) :
  (exists e, html_tag s start = Some e)
  <-> has_html_tag (JS.drop start s) = true.
Proof.
  unfold html_tag. split.
  - intros [e H].
    destruct (JS.index_of "<" (JS.drop start s)) as [i|] eqn:Hi;
      [|discriminate].
    destruct (JS.index_of ">" (JS.drop (start + i + 1) s)) as [j|] eqn:Hj;
      [|discriminate].
    apply (first_has_html_tag _ i Hi).
    apply index_of_has_char. exists j.
    rewrite <- Hj. rewrite <- Nat.add_assoc, drop_add.
    f_equal. f_equal. lia.
  - intros H. destruct (has_html_tag_first _ H) as (i & Hi & Hc).
    rewrite Hi. apply index_of_has_char in Hc as [j Hj].
    replace (start + i + 1) with (start + S i) by lia.
    rewrite drop_add, Hj. eauto.
Qed.

Lemma html_tag_zero (s : string) :
  has_html_tag s = true <-> exists e, html_tag s 0 = Some e.
Proof. rewrite html_tag_iff. reflexivity. Qed.

Lemma html_tag_none (s : string) (i : nat) :
  has_html_tag s = false -> html_tag s i = None.
Proof.
  intros H. destruct (html_tag s i) as [e|] eqn:E; [|reflexivity].
  assert (T : has_html_tag (JS.drop i s) = true)
    by (apply html_tag_iff; eauto).
  apply has_html_tag_drop in T. congruence.
Qed.

(** The HTML pattern keeps its shape; only [lastIndex] moves.  A tag in
    the key is always found; a tag in the value is found when the
    search starts at 0. *)
Lemma check_html (i : nat) (key value : string) :
  exists (found : list string) (j : nat),
    check_pattern key value (html_pattern i) = (found, html_pattern j)
    /\ (found = [] \/ found = [suspicious_issue html_message key])
    /\ (has_html_tag value = false -> has_html_tag key = false -> found = [])
    /\ (has_html_tag key = true -> found = [suspicious_issue html_message key])
    /\ (i = 0 -> has_html_tag value = true ->
        found = [suspicious_issue html_message key]).
Proof.
  unfold check_pattern, html_pattern, test, set_lastIndex.
  cbn [pattern message global lastIndex matcher].
  assert (K : forall r : nat,
    exists found j,
      (let '(inKey, r2) :=
         if (String.length key <? 0)%nat
         then (false, {| matcher := html_tag; global := true; lastIndex := 0 |})
         else match html_tag key 0 with
              | Some e =>
                  (true,
                   {| matcher := html_tag; global := true; lastIndex := e |})
              | None =>
                  (false,
                   {| matcher := html_tag; global := true; lastIndex := 0 |})
              end in
       ((if inKey then [suspicious_issue html_message key] else []),
        {| pattern := r2; message := html_message |}))
      = (found, html_pattern j)
      /\ (found = [] \/ found = [suspicious_issue html_message key])
      /\ (has_html_tag key = false -> found = [])
      /\ (has_html_tag key = true ->
          found = [suspicious_issue html_message key])).
  { intros _. change (String.length key <? 0)%nat with false. cbv iota.
    destruct (html_tag key 0) as [e|] eqn:Hk.
    - do 2 eexists. split; [reflexivity|]. split; [auto|]. split; [|auto].
      intros H. rewrite (html_tag_none key 0 H) in Hk. discriminate.
    - do 2 eexists. split; [reflexivity|]. split; [auto|]. split; [auto|].
      intros H. apply html_tag_zero in H as [e H]. congruence. }
  destruct (String.length value <? i)%nat eqn:Hlen.
  - destruct (K 0) as (found & j & E & Hs & Hn & Hy).
    exists found, j. split; [exact E|]. split; [exact Hs|].
    split; [auto|]. split; [exact Hy|].
    intros -> _. apply Nat.ltb_lt in Hlen. lia.
  - destruct (html_tag value i) as [e|] eqn:Hv.
    + exists [suspicious_issue html_message key], e.
      split; [reflexivity|]. split; [auto|]. split; [|auto].
      intros H. rewrite (html_tag_none value i H) in Hv. discriminate.
    + destruct (K 0) as (found & j & E & Hs & Hn & Hy).
      exists found, j. split; [exact E|]. split; [exact Hs|].
      split; [auto|]. split; [exact Hy|].
      intros -> H. apply html_tag_zero in H as [e H]. congruence.
Qed.

Lemma check_header_at (i : nat) (key value : string) :
  exists (found : list string) (j : nat),
    check_header (patterns_at i) (key, value)
    = ((too_long_issue key value ++ script_issue key value ++ found
          ++ javascript_issue key value)%list, patterns_at j)
    /\ (found = [] \/ found = [suspicious_issue html_message key])
    /\ (has_html_tag value = false -> has_html_tag key = false -> found = [])
    /\ (has_html_tag key = true -> found = [suspicious_issue html_message key])
    /\ (i = 0 -> has_html_tag value = true ->
        found = [suspicious_issue html_message key]).
Proof.
  destruct (check_html i key value) as (found & j & E & H).
  exists found, j. split; [|exact H].
  unfold check_header, patterns_at, check_patterns.
  rewrite !check_literal. fold (html_pattern i). rewrite E.
  unfold html_pattern. rewrite app_nil_r. reflexivity.
Qed.

Lemma check_headers_flags (entries : Headers) :
  forall i : nat,
    let issues := check_headers (patterns_at i) entries in
    (forall key value, In (key, value) entries ->
       ((8192 < Z.of_nat (String.length value))%Z ->
        In (length_issue key value) issues)
       /\ (has_script value = true \/ has_script key = true ->
           In (suspicious_issue script_message key) issues)
       /\ (has_javascript value = true \/ has_javascript key = true ->
           In (suspicious_issue javascript_message key) issues)
       /\ (has_html_tag key = true ->
           In (suspicious_issue html_message key) issues))
    /\ (Forall clean entries -> issues = []).
Proof.
  induction entries as [|[k v] rest IH]; intros i issues.
  - split; [intros ? ? []|reflexivity].
  - subst issues. cbn [check_headers].
    destruct (check_header_at i k v) as (found & j & E & Hs & Hn & Hk & _).
    rewrite E. destruct (IH j) as [IHin IHclean]. split.
    + intros key value [[= <- <-]|Hin].
      * repeat split; intros H; apply in_or_app; left.
        -- apply in_or_app. left. unfold too_long_issue.
           apply Z.ltb_lt in H. rewrite H. left. reflexivity.
        -- apply in_or_app. right. apply in_or_app. left.
           unfold script_issue.
           destruct H as [H|H]; rewrite H; rewrite ?orb_true_r; left;
             reflexivity.
        -- do 3 (apply in_or_app; right). unfold javascript_issue.
           destruct H as [H|H]; rewrite H; rewrite ?orb_true_r; left;
             reflexivity.
        -- do 2 (apply in_or_app; right). apply in_or_app. left.
           rewrite (Hk H). left. reflexivity.
      * destruct (IHin key value Hin) as (A & B & C & D).
        repeat split; intros H; apply in_or_app; right; auto.
    + intros Hall. inversion Hall as [|? ? Hc Hrest]; subst.
      rewrite (IHclean Hrest), app_nil_r.
      destruct Hc as (L & S1 & S2 & T1 & T2 & J1 & J2).
      unfold too_long_issue, script_issue, javascript_issue.
      rewrite (Hn T2 T1), S1, S2, J1, J2.
      apply Z.ltb_ge in L. rewrite L. reflexivity.
Qed.

End Validation.

(** The parts of C8 that hold.  [validateHeaders] is a total function;
    in its issue list every value longer than 8192 characters is flagged,
    every key or value with script content or the javascript: scheme is
    flagged, every key with an HTML tag is flagged, and a header map with
    none of these yields the empty list. *)
Lemma validateHeaders_flags :
  forall headers : HeadersUtil.Headers,
    let issues := HeadersUtil.issues (HeadersUtil.validateHeaders (Some headers)) in
    (forall key value, In (key, value) headers ->
       ((8192 < Z.of_nat (String.length value))%Z ->
        In (HeadersUtil.length_issue key value) issues)
       /\ (HeadersUtil.has_script value = true
           \/ HeadersUtil.has_script key = true ->
           In (HeadersUtil.suspicious_issue HeadersUtil.script_message key)
              issues)
       /\ (HeadersUtil.has_javascript value = true
           \/ HeadersUtil.has_javascript key = true ->
           In (HeadersUtil.suspicious_issue HeadersUtil.javascript_message key)
              issues)
       /\ (HeadersUtil.has_html_tag key = true ->
           In (HeadersUtil.suspicious_issue HeadersUtil.html_message key)
              issues))
    /\ (Forall clean headers ->
        HeadersUtil.validateHeaders (Some headers)
        = {| HeadersUtil.isValid := true; HeadersUtil.issues := [] |}).
Proof.
  intros headers issues. subst issues. unfold HeadersUtil.validateHeaders.
  cbn [HeadersUtil.issues]. rewrite patterns_at_zero.
  destruct (check_headers_flags headers 0) as [A B]. split; [exact A|].
  intros H. rewrite (B H). reflexivity.
Qed.

(** C8 at the failing input [{a: "<b>", b: "<i>"}].  The value of header
    "b" contains an HTML tag, but the pattern with the [g] flag resumes
    at the [lastIndex] left by header "a": only header "a" is reported. *)
Theorem C8_html_tag_in_later_value_missed :
  let headers := [("a", "<b>"); ("b", "<i>")] in
  HeadersUtil.has_html_tag "<i>" = true
  /\ HeadersUtil.validateHeaders (Some headers)
     = {| HeadersUtil.isValid := false;
          HeadersUtil.issues :=
            [HeadersUtil.suspicious_issue HeadersUtil.html_message "a"] |}
  /\ ~ In (HeadersUtil.suspicious_issue HeadersUtil.html_message "b")
         (HeadersUtil.issues (HeadersUtil.validateHeaders (Some headers))).
Proof.
  cbv zeta. split; [reflexivity|]. split; [vm_compute; reflexivity|].
  vm_compute. intros [H|[]]. discriminate H.
Qed.

(* ================================================================= *)
(** ** The dual-sink dispatcher *)

(** Unfolding of the monad operations. *)
Ltac run :=
  unfold Runtime.bind, Runtime.try_catch, Runtime.ret, Runtime.throw,
    Runtime.send, Runtime.called, Runtime.date_now, Runtime.parse,
    Runtime.get_globals, Runtime.set_globals;
  cbn [Runtime.trace Runtime.globals fst snd].

Section ParameterProperties.
Import Runtime SSMService.
Local Open Scope js_scope.
Local Open Scope list_scope.

Lemma cache_get_set (cache : Cache) (key k : string) (e : Entry) :
  cache_get (cache_set cache key e) k
  = if (key =? k)%string then Some e else cache_get cache k.
Proof.
  induction cache as [|[k' e'] rest IH]; cbn.
  - destruct (String.eqb_spec key k); reflexivity.
  - destruct (String.eqb_spec k' key) as [->|N]; cbn.
    + destruct (String.eqb_spec key k); reflexivity.
    + rewrite IH. destruct (String.eqb_spec k' k) as [->|N'];
        [|reflexivity].
      destruct (String.eqb_spec key k); [congruence | reflexivity].
Qed.

Lemma cache_get_delete (cache : Cache) (key k : string) :
  cache_get (cache_delete cache key) k
  = if (key =? k)%string then None else cache_get cache k.
Proof.
  unfold cache_delete.
  induction cache as [|[k' e'] rest IH]; cbn.
  - destruct (key =? k)%string; reflexivity.
  - destruct (String.eqb_spec k' key) as [->|N]; cbn.
    + rewrite IH. destruct (String.eqb_spec key k); reflexivity.
    + rewrite IH. destruct (String.eqb_spec k' k) as [->|N'];
        [|reflexivity].
      destruct (String.eqb_spec key k); [congruence | reflexivity].
Qed.

Lemma cache_get_In (cache : Cache) (k : string) (e : Entry) :
  cache_get cache k = Some e -> In k (map fst cache).
Proof.
  induction cache as [|[k' e'] rest IH]; cbn; [discriminate|].
  destruct (String.eqb_spec k' k); [auto|]. intros H. right. auto.
Qed.

Lemma cache_get_fold_delete (keys : list string) (k : string) :
  forall cache : Cache,
    cache_get (fold_left cache_delete keys cache) k
    = if existsb (String.eqb k) keys then None else cache_get cache k.
Proof.
  induction keys as [|key rest IH]; intros cache; cbn; [reflexivity|].
  rewrite IH, cache_get_delete. rewrite (String.eqb_sym k key).
  destruct (key =? k)%string; cbn; [|reflexivity].
  destruct (existsb (String.eqb k) rest); reflexivity.
Qed.

Lemma prefix_app (a b : string) : String.prefix a (a ++ b)%string = true.
Proof.
  induction a as [|c a IH]; cbn; [destruct b; reflexivity|].
  destruct (ascii_dec c c); [exact IH | contradiction].
Qed.

Lemma cacheKey_prefix (name : string) (withDecryption : bool) :
  String.prefix (name ++ ":")%string (cacheKey name withDecryption) = true.
Proof.
  unfold cacheKey.
  replace (name ++ ":" ++ (if withDecryption then "true" else "false"))%string
    with ((name ++ ":")
            ++ (if withDecryption then "true" else "false"))%string.
  - apply prefix_app.
  - induction name as [|c name IH]; cbn; [reflexivity|].
    rewrite IH. reflexivity.
Qed.

(** The cache check, case by case. *)
Lemma check_cache_run (key : string) (useCache : bool) (w : World Call)
    (s : State Call Cache) :
  check_cache key useCache w s
  = match (if useCache then cache_get (globals s) key else None) with
    | Some cached =>
        if fresh (now w (trace s)) cached then (s, Returned (Some (value cached)))
        else ({| trace := trace s;
                 globals := cache_delete (globals s) key |}, Returned None)
    | None => (s, Returned None)
    end.
Proof.
  unfold check_cache, cache_has, fresh. run.
  destruct useCache; cbn [andb]; [|reflexivity].
  destruct (cache_get (globals s) key) as [cached|]; [|reflexivity].
  run. destruct (_ <? _)%Z; reflexivity.
Qed.

(** A hit: no call, nothing changed. *)
Lemma getParameter_hit (parameterName : string) (withDecryption : bool)
    (w : World Call) (s : State Call Cache) (cached : Entry) :
  cache_get (globals s) (cacheKey parameterName withDecryption)
  = Some cached ->
  fresh (now w (trace s)) cached = true ->
  getParameter parameterName withDecryption true w s
  = (s, Returned (value cached)).
Proof.
  intros Hget Hfresh. unfold getParameter. cbv zeta. unfold bind at 1.
  rewrite check_cache_run, Hget, Hfresh. reflexivity.
Qed.

(** A miss: the state in which the store is asked, then one call. *)
Lemma getParameter_miss (parameterName : string) (withDecryption : bool)
    (useCache : bool) (w : World Call) (s : State Call Cache) :
  let key := cacheKey parameterName withDecryption in
  match (if useCache then cache_get (globals s) key else None) with
  | Some cached => fresh (now w (trace s)) cached = false
  | None => True
  end ->
  let cache :=
    match (if useCache then cache_get (globals s) key else None) with
    | Some _ => cache_delete (globals s) key
    | None => globals s
    end in
  let c := GetParameter parameterName withDecryption in
  getParameter parameterName withDecryption useCache w s
  = match reply w (trace s) c with
    | Resolved v =>
        ({| trace := trace s ++ [c];
            globals :=
              if useCache then
                cache_set cache key
                  {| value := v; timestamp := now w (trace s ++ [c]) |}
              else cache |},
         Returned v)
    | Rejected e =>
        ({| trace := trace s ++ [c]; globals := cache |},
         Thrown ("SSM parameter retrieval failed: " ++ e)%string)
    end.
Proof.
  intros key Hmiss cache c. unfold getParameter. cbv zeta. fold key.
  unfold bind at 1. rewrite check_cache_run. subst cache.
  destruct (if useCache then cache_get (globals s) key else None)
    as [cached|] eqn:E.
  - rewrite Hmiss. run. fold c.
    destruct (reply w (trace s) c); [|reflexivity].
    destruct useCache; reflexivity.
  - run. fold c. destruct (reply w (trace s) c); [|destruct s; reflexivity].
    destruct useCache; [reflexivity | destruct s; reflexivity].
Qed.

End ParameterProperties.

Section Dispatcher.
Import Runtime.
Local Open Scope js_scope.

Lemma extractEventData_total (event : Lambda.Event)
    (w : World Http.Call) (s : State Http.Call Http.Globals) :
  exists eventData,
    WebhookHandler.extractEventData event w s = (s, Returned eventData)
    /\ EventData.path (EventData.transport eventData)
       = coalesce (Lambda.path event) "/"
    /\ EventData.method (EventData.transport eventData)
       = coalesce (Lambda.method_of event) "UNKNOWN".
Proof.
  unfold WebhookHandler.extractEventData. run.
  destruct (coalesce (Lambda.body event) "" =? "").
  - eexists. split; [reflexivity|]. split; reflexivity.
  - destruct (JSON_parse w (JString (coalesce (Lambda.body event) ""))).
    + eexists. split; [reflexivity|]. split; reflexivity.
    + eexists. split; [reflexivity|]. split; reflexivity.
Qed.

(** The type tag says whether the payload was parsed. *)
Lemma extractEventData_type (event : Lambda.Event)
    (w : World Http.Call) (s s' : State Http.Call Http.Globals)
    (eventData : EventData.t) :
  WebhookHandler.extractEventData event w s = (s', Returned eventData) ->
  (EventData.type eventData = "application/json"
   /\ exists v, EventData.payload eventData = EventData.Parsed v)
  \/ (EventData.type eventData = "text/plain"
      /\ EventData.payload eventData
         = EventData.Raw (coalesce (Lambda.body event) "")).
Proof.
  unfold WebhookHandler.extractEventData. run.
  destruct (coalesce (Lambda.body event) "" =? "").
  - intros [= _ <-]. right. split; reflexivity.
  - destruct (JSON_parse w (JString (coalesce (Lambda.body event) ""))).
    + intros [= _ <-]. left. split; [reflexivity|]. eexists. reflexivity.
    + intros [= _ <-]. right. split; reflexivity.
Qed.

Lemma extractEventData_headers (event : Lambda.Event)
    (w : World Http.Call) (s s' : State Http.Call Http.Globals)
    (eventData : EventData.t) :
  WebhookHandler.extractEventData event w s = (s', Returned eventData) ->
  EventData.headers (EventData.transport eventData)
  = coalesce (Lambda.headers event) [].
Proof.
  unfold WebhookHandler.extractEventData. run.
  destruct (coalesce (Lambda.body event) "" =? "")%string.
  - intros [= _ <-]. reflexivity.
  - destruct (JSON_parse w (JString (coalesce (Lambda.body event) "")));
      intros [= _ <-]; reflexivity.
Qed.

(** The publish branch of the entry-point handler never throws: it
    makes one call and reports whether that call resolved. *)
Lemma snsOperation_spec (topicArn environment : string)
    (eventData : EventData.t) (w : World Http.Call)
    (s : State Http.Call Http.Globals) :
  let c := Http.SNSPublish topicArn eventData environment in
  exists r,
    WebhookHandler.snsOperation topicArn eventData environment w s
    = (called s c, Returned r)
    /\ Http.success r = resolved (reply w (trace s) c)
    /\ Http.operation r = "sns".
Proof.
  unfold WebhookHandler.snsOperation, WebhookHandler.publishWebhookEvent,
    called.
  run.
  destruct (reply w (trace s)
              (Http.SNSPublish topicArn eventData environment));
    eexists; repeat split; reflexivity.
Qed.

(** The publish branch of the monolith never throws either.  With a
    trace header it makes one call and reports whether that call
    resolved; without one it fails while the command is built, and makes
    no call. *)
Lemma monolith_snsOperation_spec (topicArn environment : string)
    (eventData : EventData.t) (w : World Http.Call)
    (s : State Http.Call Http.Globals) :
  let c := Http.SNSPublish topicArn eventData environment in
  Monolith.snsOperation topicArn eventData environment w s
  = if truthy (Monolith.datadogTraceId
                 (EventData.headers (EventData.transport eventData))) then
      (called s c,
       Returned
         {| Http.success := resolved (reply w (trace s) c);
            Http.operation := "sns";
            Http.error :=
              match reply w (trace s) c with
              | Resolved _ => None
              | Rejected e => Some ("SNS publish failed: " ++ e)
              end |})
    else
      (s, Returned
            {| Http.success := false; Http.operation := "sns";
               Http.error :=
                 Some "SNS publish failed: correlationId is not defined" |}).
Proof.
  unfold Monolith.snsOperation, Monolith.publishWebhookEvent, called.
  cbv zeta.
  destruct (truthy (Monolith.datadogTraceId
                      (EventData.headers (EventData.transport eventData))));
    run; [|reflexivity].
  destruct (reply w (trace s)
              (Http.SNSPublish topicArn eventData environment));
    reflexivity.
Qed.

(** The store branch of the monolith never throws. *)
Lemma mongoOperation_spec (mongoUri databaseName collectionName : string)
    (eventData : EventData.t) (w : World Http.Call)
    (s : State Http.Call Http.Globals) :
  exists s' r,
    Monolith.mongoOperation mongoUri databaseName collectionName eventData w s
    = (s', Returned r)
    /\ Http.success r
       = mongo_succeeds w s mongoUri databaseName collectionName eventData
    /\ Http.operation r = "mongodb"
    /\ Http.mongoUri (globals s') = Http.mongoUri (globals s).
Proof.
  unfold Monolith.mongoOperation, Monolith.connect,
    Monolith.storeWebhookEvent, mongo_succeeds.
  run.
  destruct (Http.mongoClient (globals s)); run.
  - destruct (reply w (trace s)
                (Http.MongoInsert databaseName collectionName eventData));
      do 2 eexists; repeat split; reflexivity.
  - destruct (reply w (trace s) (Http.MongoClientNew mongoUri)); run;
      [|do 2 eexists; repeat split; reflexivity].
    destruct (reply w (trace s ++ [Http.MongoClientNew mongoUri])
                (Http.MongoConnect mongoUri)); run;
      [|do 2 eexists; repeat split; reflexivity].
    rewrite <- app_assoc. cbn [app].
    destruct (reply w
                (trace s ++ [Http.MongoClientNew mongoUri;
                             Http.MongoConnect mongoUri])
                (Http.MongoInsert databaseName collectionName eventData));
      do 2 eexists; repeat split; reflexivity.
Qed.

(** The placeholder of the modular handler resolves to success, in
    every world and state, without any call. *)
Lemma storeWebhook_spec (databaseName collectionName : string)
    (eventData : EventData.t) (w : World Http.Call)
    (s : State Http.Call Http.Globals) :
  WebhookHandler.storeWebhook databaseName collectionName eventData w s
  = (s, Returned {| Http.success := true; Http.operation := "mongodb";
                    Http.error := None |}).
Proof. reflexivity. Qed.

(** The four-way composition, case by case. *)
Lemma compose_table :
  WebhookHandler.compose true true
  = ("Webhook received, logged, stored, and published successfully",
     {| Http.mongodb := "success"; Http.sns := "success" |})
  /\ WebhookHandler.compose true false
     = ("Webhook received, logged, and stored successfully. SNS publishing failed.",
        {| Http.mongodb := "success"; Http.sns := "failed" |})
  /\ WebhookHandler.compose false true
     = ("Webhook received, logged, and published successfully. MongoDB storage failed.",
        {| Http.mongodb := "failed"; Http.sns := "success" |})
  /\ WebhookHandler.compose false false
     = ("Webhook received and logged successfully. Both MongoDB storage and SNS publishing failed.",
        {| Http.mongodb := "failed"; Http.sns := "failed" |}).
Proof. repeat split; reflexivity. Qed.

Lemma compose_status (mongoSuccess snsSuccess : bool) :
  snd (WebhookHandler.compose mongoSuccess snsSuccess)
  = {| Http.mongodb := WebhookHandler.status mongoSuccess;
       Http.sns := WebhookHandler.status snsSuccess |}.
Proof. destruct mongoSuccess, snsSuccess; reflexivity. Qed.

Lemma respond_both (context : Lambda.Context) (db coll : string)
    (mongoResult snsResult : Http.OperationOutcome) (t : Z) :
  WebhookHandler.respond [Http.Fulfilled mongoResult; Http.Fulfilled snsResult]
    context db coll t
  = settled_response context db coll (Http.success mongoResult)
      (Http.success snsResult) t.
Proof.
  destruct mongoResult as [[|] ? ?], snsResult as [[|] ? ?]; reflexivity.
Qed.

Lemma respond_store_only (context : Lambda.Context) (db coll : string)
    (mongoResult : Http.OperationOutcome) (t : Z) :
  WebhookHandler.respond [Http.Fulfilled mongoResult] context db coll t
  = settled_response context db coll (Http.success mongoResult) true t.
Proof. destruct mongoResult as [[|] ? ?]; reflexivity. Qed.

Lemma allowed_not_GET (method : option string) :
  allowed method = true -> is_GET method = false.
Proof.
  destruct method as [m|]; [|discriminate]. simpl.
  destruct (String.eqb_spec m "GET") as [->|]; [discriminate|reflexivity].
Qed.

(** The run of the monolithic handler on a request that is not a GET. *)
Lemma monolith_handler_run (env : Config.Env) (event : Lambda.Event)
    (context : Lambda.Context) (w : World Http.Call)
    (s : State Http.Call Http.Globals) :
  is_GET (Lambda.method_of event) = false ->
  exists eventData,
    WebhookHandler.extractEventData event w s = (s, Returned eventData)
    /\ match Monolith.resolveMongoUri env w s with
       | (s1, Thrown e) =>
           Monolith.handler env event context w s
           = (s1, Returned (WebhookHandler.error_response context e))
       | (s1, Returned mongoUri) =>
           let environment :=
             Config.detectEnvironment
               (or_else (Lambda.functionName context) "") in
           let db := Monolith.generateDatabaseName environment in
           let coll :=
             WebhookHandler.generateCollectionName
               (coalesce (Lambda.path event) "/") in
           exists s2 mongoResult,
             Monolith.mongoOperation mongoUri db coll eventData w s1
             = (s2, Returned mongoResult)
             /\ Http.success mongoResult
                = mongo_succeeds w s1 mongoUri db coll eventData
             /\ if truthy (Config.SNS_TOPIC_ARN env) then
                  let c :=
                    Http.SNSPublish (coalesce (Config.SNS_TOPIC_ARN env) "")
                      eventData environment in
                  if truthy (Monolith.datadogTraceId
                               (coalesce (Lambda.headers event) [])) then
                    Monolith.handler env event context w s
                    = (called s2 c,
                       Returned
                         (settled_response context db coll
                            (Http.success mongoResult)
                            (resolved (reply w (trace s2) c))
                            (now w (trace s2 ++ [c]) - now w (trace s1))))
                  else
                    Monolith.handler env event context w s
                    = (s2,
                       Returned
                         (settled_response context db coll
                            (Http.success mongoResult) false
                            (now w (trace s2) - now w (trace s1))))
                else
                  Monolith.handler env event context w s
                  = (s2,
                     Returned
                       (settled_response context db coll
                          (Http.success mongoResult) true
                          (now w (trace s2) - now w (trace s1))))
       end.
Proof.
  intros Hgate.
  destruct (extractEventData_total event w s) as (ed & Hed & Hpath & _).
  pose proof (extractEventData_headers event w s s ed Hed) as Hh.
  exists ed. split; [exact Hed|].
  remember (Monolith.handler env event context w s) as result eqn:Hres.
  unfold Monolith.handler in Hres. fold (is_GET (Lambda.method_of event)) in Hres.
  rewrite Hgate in Hres.
  unfold Monolith.extractEventData, Monolith.generateCollectionName in Hres.
  unfold try_catch, bind, date_now in Hres. cbv beta zeta in Hres.
  rewrite Hed in Hres. rewrite Hpath in Hres.
  destruct (Monolith.resolveMongoUri env w s) as [s1 [uri|e]];
    [|exact Hres].
  cbv zeta.
  set (environment :=
         Config.detectEnvironment (or_else (Lambda.functionName context) ""))
    in *.
  set (db := Monolith.generateDatabaseName environment) in *.
  set (coll := WebhookHandler.generateCollectionName
                 (coalesce (Lambda.path event) "/")) in *.
  destruct (mongoOperation_spec uri db coll ed w s1)
    as (s2 & mr & Hm & Hsucc & _ & _).
  exists s2, mr. split; [exact Hm|]. split; [exact Hsucc|].
  rewrite Hm in Hres.
  destruct (truthy (Config.SNS_TOPIC_ARN env)).
  - rewrite monolith_snsOperation_spec, Hh in Hres.
    destruct (truthy (Monolith.datadogTraceId
                        (coalesce (Lambda.headers event) []))).
    + unfold ret in Hres. cbn [fst snd trace called] in Hres.
      rewrite respond_both in Hres. exact Hres.
    + unfold ret in Hres. cbn [fst snd] in Hres.
      rewrite respond_both in Hres. exact Hres.
  - unfold ret in Hres. cbn [fst snd] in Hres.
    rewrite respond_store_only in Hres. exact Hres.
Qed.

Lemma getConfig_allowedMethods (env : Config.Env) (config : Config.Config) :
  Config.getConfig env = Returned config ->
  Config.allowedMethods (Config.webhook config)
  = ["POST"; "PUT"; "PATCH"; "DELETE"].
Proof.
  unfold Config.getConfig, Config.construct.
  destruct (Config.missing _); [|discriminate].
  intros [= <-]. reflexivity.
Qed.

Lemma validateMethod_allowed (env : Config.Env) (config : Config.Config)
    (method : option string) :
  Config.getConfig env = Returned config ->
  WebhookHandler.validateMethod env method = Returned (allowed method).
Proof.
  intros H. unfold WebhookHandler.validateMethod. rewrite H.
  rewrite (getConfig_allowedMethods env config H). reflexivity.
Qed.

Lemma inner_now_nil (w : World Http.Call) (before : list Http.Call) :
  now (inner_world Http.SSM w before) [] = now w before.
Proof. cbn. rewrite app_nil_r. reflexivity. Qed.

Lemma inner_reply_nil (w : World Http.Call) (before : list Http.Call)
    (c : SSMService.Call) :
  reply (inner_world Http.SSM w before) [] c = reply w before (Http.SSM c).
Proof. cbn. rewrite app_nil_r. reflexivity. Qed.

Lemma with_ssmCache_same (g : Http.Globals) :
  Http.with_ssmCache g (Http.ssmCache g) = g.
Proof. destruct g. reflexivity. Qed.

(** [ssm.getParameter(name)] as the handler calls it: a value younger
    than the time to live is served from the cache of the service;
    else the store is asked, after an expired entry is removed. *)
Lemma ssm_getParameter_run (parameterName : string) (w : World Http.Call)
    (s : State Http.Call Http.Globals) :
  let key := SSMService.cacheKey parameterName true in
  let cache := Http.ssmCache (globals s) in
  Http.ssm (SSMService.getParameter parameterName true true) w s
  = match SSMService.cache_get cache key with
    | Some cached =>
        if fresh (now w (trace s)) cached
        then (s, Returned (SSMService.value cached))
        else fetched w s parameterName (SSMService.cache_delete cache key)
    | None => fetched w s parameterName cache
    end.
Proof.
  intros key cache. unfold Http.ssm, embed.
  set (w' := inner_world Http.SSM w (trace s)).
  set (s0 := {| trace := []; globals := Http.ssmCache (globals s) |}).
  pose proof (getParameter_miss parameterName true true w' s0) as Hmiss.
  cbv zeta in Hmiss. fold key in Hmiss.
  change (globals s0) with cache in Hmiss.
  change (trace s0) with (@nil SSMService.Call) in Hmiss.
  unfold w' in Hmiss. rewrite inner_now_nil, inner_reply_nil in Hmiss.
  fold w' in Hmiss.
  assert (Hfetch : forall cache0,
            (let r :=
               match reply w (trace s)
                       (Http.SSM (SSMService.GetParameter parameterName true))
               with
               | Resolved v =>
                   ({| trace := [] ++ [SSMService.GetParameter parameterName true];
                       globals :=
                         SSMService.cache_set cache0 key
                           {| SSMService.value := v;
                              SSMService.timestamp :=
                                now w'
                                  ([] ++ [SSMService.GetParameter
                                            parameterName true]) |} |},
                    Returned v)
               | Rejected e =>
                   ({| trace := [] ++ [SSMService.GetParameter parameterName true];
                       globals := cache0 |},
                    Thrown ("SSM parameter retrieval failed: " ++ e))
               end in
             ({| trace := trace s ++ map Http.SSM (trace (fst r));
                 globals := Http.with_ssmCache (globals s) (globals (fst r)) |},
              snd r))
            = fetched w s parameterName cache0).
  { intros cache0. unfold fetched, secret_command. cbv zeta. fold key.
    destruct (reply w (trace s)
                (Http.SSM (SSMService.GetParameter parameterName true)));
      reflexivity. }
  destruct (SSMService.cache_get cache key) as [cached|] eqn:E.
  - destruct (fresh (now w (trace s)) cached) eqn:F.
    + assert (F' : fresh (now w' (trace s0)) cached = true)
        by (unfold w'; cbn [trace s0]; rewrite inner_now_nil; exact F).
      rewrite (getParameter_hit parameterName true w' s0 cached E F').
      cbv zeta. cbn [fst snd trace globals s0 map].
      rewrite app_nil_r, with_ssmCache_same. destruct s. reflexivity.
    + rewrite (Hmiss eq_refl). apply Hfetch.
  - rewrite (Hmiss I). apply Hfetch.
Qed.

(** The secret is read from the global, or fetched through the
    parameter service and then put in the global; nothing else can
    throw before the dispatch. *)
Lemma resolveMongoUri_spec (parameterName : string) (w : World Http.Call)
    (s : State Http.Call Http.Globals) :
  WebhookHandler.resolveMongoUri parameterName w s
  = if truthy (Http.mongoUri (globals s)) then
      (s, Returned (coalesce (Http.mongoUri (globals s)) ""))
    else
      match Http.ssm (SSMService.getParameter parameterName true true) w s
      with
      | (s1, Returned value) =>
          ({| trace := trace s1;
              globals := with_mongoUri (globals s1) value |},
           Returned value)
      | (s1, Thrown e) => (s1, Thrown e)
      end.
Proof.
  unfold WebhookHandler.resolveMongoUri, with_mongoUri. run.
  destruct (truthy (Http.mongoUri (globals s))); [reflexivity|].
  destruct (Http.ssm (SSMService.getParameter parameterName true true) w s)
    as [s1 [value|e]]; reflexivity.
Qed.

(** The run of the modular handler on a request with a permitted
    method, under a valid configuration. *)
Lemma modular_handler_run (env : Config.Env) (config : Config.Config)
    (event : Lambda.Event) (context : Lambda.Context)
    (w : World Http.Call) (s : State Http.Call Http.Globals) :
  Config.getConfig env = Returned config ->
  allowed (Lambda.method_of event) = true ->
  exists eventData,
    WebhookHandler.extractEventData event w s = (s, Returned eventData)
    /\ match WebhookHandler.resolveMongoUri
               (coalesce (Config.mongodbUriParameter (Config.aws config)) "")
               w s with
       | (s1, Thrown e) =>
           WebhookHandler.handler env event context w s
           = (s1, Returned (WebhookHandler.error_response context e))
       | (s1, Returned _) =>
           let db := Config.getDatabaseName config in
           let coll :=
             WebhookHandler.generateCollectionName
               (coalesce (Lambda.path event) "/") in
           if Config.isSNSConfigured config then
             let c :=
               Http.SNSPublish
                 (coalesce (Config.snsTopicArn (Config.aws config)) "")
                 eventData (Config.environment config) in
             WebhookHandler.handler env event context w s
             = (called s1 c,
                Returned
                  (settled_response context db coll true
                     (resolved (reply w (trace s1) c))
                     (now w (trace s1 ++ [c]) - now w (trace s1))))
           else
             WebhookHandler.handler env event context w s
             = (s1,
                Returned
                  (settled_response context db coll true true
                     (now w (trace s1) - now w (trace s1))))
       end.
Proof.
  intros Hcfg Hgate.
  destruct (extractEventData_total event w s) as (ed & Hed & Hpath & _).
  exists ed. split; [exact Hed|].
  remember (WebhookHandler.handler env event context w s) as result eqn:Hres.
  unfold WebhookHandler.handler in Hres.
  fold (is_GET (Lambda.method_of event)) in Hres.
  rewrite (allowed_not_GET _ Hgate) in Hres.
  rewrite (validateMethod_allowed env config _ Hcfg), Hgate in Hres.
  unfold WebhookHandler.processWebhook, WebhookHandler.initializeServices
    in Hres.
  rewrite Hcfg in Hres.
  unfold try_catch, bind, date_now in Hres. cbv beta zeta in Hres.
  unfold ret at 1 in Hres. rewrite Hed in Hres. rewrite Hpath in Hres.
  destruct (WebhookHandler.resolveMongoUri _ w s) as [s1 [uri|e]];
    [|exact Hres].
  cbv zeta. rewrite storeWebhook_spec in Hres.
  destruct (Config.isSNSConfigured config).
  - destruct (snsOperation_spec
                (coalesce (Config.snsTopicArn (Config.aws config)) "")
                (Config.environment config) ed w s1) as (sr & Hs & Hsr & _).
    cbv zeta in Hs, Hsr. rewrite Hs in Hres.
    unfold ret in Hres. cbn [fst snd trace called] in Hres.
    rewrite respond_both, Hsr in Hres. exact Hres.
  - unfold ret in Hres. cbn [fst snd] in Hres.
    rewrite respond_store_only in Hres. exact Hres.
Qed.

(** The method gate of the modular handler. *)
Lemma modular_gate (env : Config.Env) (config : Config.Config)
    (event : Lambda.Event) (context : Lambda.Context)
    (w : World Http.Call) (s : State Http.Call Http.Globals) :
  Config.getConfig env = Returned config ->
  let method := Lambda.method_of event in
  (allowed method = true ->
   WebhookHandler.handler env event context w s
   = WebhookHandler.processWebhook env event context w s)
  /\ (allowed method = false ->
      exists error,
        WebhookHandler.handler env event context w s
        = (s, Returned (WebhookHandler.not_allowed context error))).
Proof.
  intros Hcfg method. unfold WebhookHandler.handler.
  fold method. fold (is_GET method).
  rewrite (validateMethod_allowed env config _ Hcfg). split; intros H.
  - rewrite (allowed_not_GET _ H), H. reflexivity.
  - rewrite H. destruct (is_GET method); eexists; reflexivity.
Qed.

(** The method gate of the monolithic handler: GET alone is turned
    away. *)
Lemma monolith_gate (env : Config.Env) (event : Lambda.Event)
    (context : Lambda.Context) (w : World Http.Call)
    (s : State Http.Call Http.Globals) :
  (is_GET (Lambda.method_of event) = true ->
   Monolith.handler env event context w s
   = (s, Returned
           (WebhookHandler.not_allowed context
              "GET requests are not supported by this webhook endpoint")))
  /\ (is_GET (Lambda.method_of event) = false ->
      exists s' response,
        Monolith.handler env event context w s = (s', Returned response)
        /\ (Http.statusCode response = 200%Z
            \/ Http.statusCode response = 500%Z)).
Proof.
  split; intros H.
  - unfold Monolith.handler. fold (is_GET (Lambda.method_of event)).
    rewrite H. reflexivity.
  - destruct (monolith_handler_run env event context w s H) as (ed & _ & R).
    destruct (Monolith.resolveMongoUri env w s) as [s1 [uri|e]].
    + cbv zeta in R. destruct R as (s2 & mr & _ & _ & R).
      destruct (truthy (Config.SNS_TOPIC_ARN env));
        [destruct (truthy (Monolith.datadogTraceId
                             (coalesce (Lambda.headers event) [])))|];
        rewrite R; do 2 eexists; (split; [reflexivity|left; reflexivity]).
    + rewrite R. do 2 eexists. split; [reflexivity|right; reflexivity].
Qed.

End Dispatcher.

(** C1.  A request with a permitted method passes the gate of both
    handlers.  The two tracked branches never throw; once the connection
    secret is resolved both are run, whatever the other does, and the
    response has status 200 with [operations_status] "success" or "failed"
    for each branch as it went, the publish counting as a success when no
    topic is configured.  In the entry-point handler the store branch is
    the placeholder and the publish branch goes as its one call goes.  In
    the monolith the store branch succeeds when the construction of the
    client, the connection (when none is kept) and the insert all
    resolve; the publish branch goes as its one call goes when the
    request carries a trace header, and without one it fails before any
    call, while the command is built.  The message of the both-failed
    case differs from that of the both-succeeded case.  The only other
    response is the 500 made from an exception thrown while resolving
    the secret. *)
Theorem C1_dispatcher_settles_all :
  forall (env : Config.Env) (config : Config.Config) (event : Lambda.Event)
         (context : Lambda.Context) (w : Runtime.World Http.Call)
         (s : Runtime.State Http.Call Http.Globals),
    Config.getConfig env = Runtime.Returned config ->
    allowed (Lambda.method_of event) = true ->
    (* the composition *)
    (forall mongoSuccess snsSuccess : bool,
       Http.statusCode
         (settled_response context "db" "c" mongoSuccess snsSuccess 0) = 200%Z
       /\ snd (WebhookHandler.compose mongoSuccess snsSuccess)
          = {| Http.mongodb := if mongoSuccess then "success" else "failed";
               Http.sns := if snsSuccess then "success" else "failed" |})
    /\ fst (WebhookHandler.compose false false)
       <> fst (WebhookHandler.compose true true)
    (* the handler of the entry point *)
    /\ (exists eventData,
          WebhookHandler.extractEventData event w s
          = (s, Runtime.Returned eventData)
          /\ match WebhookHandler.resolveMongoUri
                     (Runtime.coalesce
                        (Config.mongodbUriParameter (Config.aws config)) "")
                     w s with
             | (s1, Runtime.Thrown e) =>
                 Index.handler env event context w s
                 = (s1, Runtime.Returned
                          {| Http.statusCode := 500;
                             Http.headers := WebhookHandler.json_headers;
                             Http.body :=
                               Http.Failure "Error processing webhook" e
                                 (Lambda.awsRequestId context) |})
             | (s1, Runtime.Returned _) =>
                 let db := Config.getDatabaseName config in
                 let coll :=
                   WebhookHandler.generateCollectionName
                     (Runtime.coalesce (Lambda.path event) "/") in
                 if Config.isSNSConfigured config then
                   let c :=
                     Http.SNSPublish
                       (Runtime.coalesce
                          (Config.snsTopicArn (Config.aws config)) "")
                       eventData (Config.environment config) in
                   Index.handler env event context w s
                   = (Runtime.called s1 c,
                      Runtime.Returned
                        (settled_response context db coll true
                           (resolved (Runtime.reply w (Runtime.trace s1) c))
                           (Runtime.now w (Runtime.trace s1 ++ [c])
                            - Runtime.now w (Runtime.trace s1))))
                 else
                   Index.handler env event context w s
                   = (s1,
                      Runtime.Returned
                        (settled_response context db coll true true
                           (Runtime.now w (Runtime.trace s1)
                            - Runtime.now w (Runtime.trace s1))))
             end)
    (* the monolithic handler *)
    /\ (exists eventData,
          WebhookHandler.extractEventData event w s
          = (s, Runtime.Returned eventData)
          /\ match Monolith.resolveMongoUri env w s with
             | (s1, Runtime.Thrown e) =>
                 Monolith.handler env event context w s
                 = (s1, Runtime.Returned
                          {| Http.statusCode := 500;
                             Http.headers := WebhookHandler.json_headers;
                             Http.body :=
                               Http.Failure "Error processing webhook" e
                                 (Lambda.awsRequestId context) |})
             | (s1, Runtime.Returned mongoUri) =>
                 let environment :=
                   Config.detectEnvironment
                     (Runtime.or_else (Lambda.functionName context) "") in
                 let db := Monolith.generateDatabaseName environment in
                 let coll :=
                   WebhookHandler.generateCollectionName
                     (Runtime.coalesce (Lambda.path event) "/") in
                 exists s2 mongoResult,
                   Monolith.mongoOperation mongoUri db coll eventData w s1
                   = (s2, Runtime.Returned mongoResult)
                   /\ Http.success mongoResult
                      = mongo_succeeds w s1 mongoUri db coll eventData
                   /\ if Runtime.truthy (Config.SNS_TOPIC_ARN env) then
                        let c :=
                          Http.SNSPublish
                            (Runtime.coalesce (Config.SNS_TOPIC_ARN env) "")
                            eventData environment in
                        if Runtime.truthy
                             (Monolith.datadogTraceId
                                (Runtime.coalesce (Lambda.headers event) []))
                        then
                          Monolith.handler env event context w s
                          = (Runtime.called s2 c,
                             Runtime.Returned
                               (settled_response context db coll
                                  (Http.success mongoResult)
                                  (resolved
                                     (Runtime.reply w (Runtime.trace s2) c))
                                  (Runtime.now w (Runtime.trace s2 ++ [c])
                                   - Runtime.now w (Runtime.trace s1))))
                        else
                          Monolith.handler env event context w s
                          = (s2,
                             Runtime.Returned
                               (settled_response context db coll
                                  (Http.success mongoResult) false
                                  (Runtime.now w (Runtime.trace s2)
                                   - Runtime.now w (Runtime.trace s1))))
                      else
                        Monolith.handler env event context w s
                        = (s2,
                           Runtime.Returned
                             (settled_response context db coll
                                (Http.success mongoResult) true
                                (Runtime.now w (Runtime.trace s2)
                                 - Runtime.now w (Runtime.trace s1))))
             end).
Proof.
  intros env config event context w s Hcfg Hgate.
  split; [|split; [|split]].
  - intros [|] [|]; split; reflexivity.
  - discriminate.
  - exact (modular_handler_run env config event context w s Hcfg Hgate).
  - exact (monolith_handler_run env event context w s
             (allowed_not_GET _ Hgate)).
Qed.

(** C1 at a POST to "/messages/telegram" on a cold start, every
    collaborator answering.  The entry-point handler responds 200 with
    both branches reported as successes.  The request carries no trace
    header: the monolith responds 200 with the store reported as a
    success and the publish as failed; with the header
    [x-datadog-trace-id] added it reports both as successes. *)
Lemma C1_witness :
  let event := Sample.request "POST" "/messages/telegram" "{}" in
  let traced :=
    {| Lambda.requestContext := Lambda.requestContext event;
       Lambda.path := Lambda.path event;
       Lambda.headers := Some [("x-datadog-trace-id", "4711")];
       Lambda.queryStringParameters := None;
       Lambda.body := Lambda.body event;
       Lambda.isBase64Encoded := Lambda.isBase64Encoded event |} in
  let processed (response : Http.Response) (mongodb sns : string) :=
    Http.statusCode response = 200%Z
    /\ exists message t,
         Http.body response
         = Http.Processed message "req-1" "prod-webhook" "messages-telegram"
             {| Http.mongodb := mongodb; Http.sns := sns |} t in
  (exists config,
     Config.getConfig Sample.env = Runtime.Returned config
     /\ Config.isSNSConfigured config = true)
  /\ allowed (Lambda.method_of event) = true
  /\ (exists s' response,
        Index.handler Sample.env event Sample.context Sample.calm Sample.cold
        = (s', Runtime.Returned response)
        /\ processed response "success" "success")
  /\ (exists s' response,
        Monolith.handler Sample.env event Sample.context Sample.calm
          Sample.cold
        = (s', Runtime.Returned response)
        /\ processed response "success" "failed")
  /\ (exists s' response,
        Monolith.handler Sample.env traced Sample.context Sample.calm
          Sample.cold
        = (s', Runtime.Returned response)
        /\ processed response "success" "success").
Proof.
  intros event traced processed.
  destruct (Config.getConfig Sample.env) as [config|m] eqn:Hcfg;
    [|discriminate Hcfg].
  split; [exists config; split; [reflexivity|];
          injection Hcfg as <-; reflexivity|].
  split; [reflexivity|].
  destruct (C1_dispatcher_settles_all Sample.env config event Sample.context
              Sample.calm Sample.cold Hcfg eq_refl)
    as (_ & _ & (ed1 & _ & R1) & (ed2 & _ & R2)).
  destruct (C1_dispatcher_settles_all Sample.env config traced Sample.context
              Sample.calm Sample.cold Hcfg eq_refl)
    as (_ & _ & _ & (ed3 & _ & R3)).
  injection Hcfg as <-.
  split; [|split].
  - destruct (WebhookHandler.resolveMongoUri _ Sample.calm Sample.cold)
      as [s1 [uri|e]] eqn:E; [|vm_compute in E; discriminate E].
    change (Config.isSNSConfigured _) with true in R1.
    cbv iota zeta in R1. rewrite R1. do 2 eexists. split; [reflexivity|].
    split; [reflexivity|]. do 2 eexists. reflexivity.
  - destruct (Monolith.resolveMongoUri Sample.env Sample.calm Sample.cold)
      as [s1 [uri|e]] eqn:E; [|vm_compute in E; discriminate E].
    cbv zeta in R2. destruct R2 as (s2 & mr & _ & Hm & R2).
    change (Runtime.truthy (Config.SNS_TOPIC_ARN Sample.env)) with true in R2.
    change (Runtime.truthy
              (Monolith.datadogTraceId
                 (Runtime.coalesce (Lambda.headers event) [])))
      with false in R2.
    cbv iota zeta in R2. rewrite R2, Hm.
    vm_compute in E. injection E as <- <-.
    do 2 eexists. split; [reflexivity|].
    split; [reflexivity|]. do 2 eexists. reflexivity.
  - destruct (Monolith.resolveMongoUri Sample.env Sample.calm Sample.cold)
      as [s1 [uri|e]] eqn:E; [|vm_compute in E; discriminate E].
    cbv zeta in R3. destruct R3 as (s2 & mr & _ & Hm & R3).
    change (Runtime.truthy (Config.SNS_TOPIC_ARN Sample.env)) with true in R3.
    change (Runtime.truthy
              (Monolith.datadogTraceId
                 (Runtime.coalesce (Lambda.headers traced) [])))
      with true in R3.
    cbv iota zeta in R3. rewrite R3, Hm.
    vm_compute in E. injection E as <- <-.
    do 2 eexists. split; [reflexivity|].
    split; [reflexivity|]. do 2 eexists. reflexivity.
Defined.

(** The method gate of the entry-point handler does what C5 says: under
    a valid configuration a permitted method goes on to [processWebhook]
    and every other method, GET included, is answered 405 with the Allow
    header and the same list of allowed methods. *)
Lemma modular_method_gate :
  forall (env : Config.Env) (config : Config.Config) (event : Lambda.Event)
         (context : Lambda.Context) (w : Runtime.World Http.Call)
         (s : Runtime.State Http.Call Http.Globals),
    Config.getConfig env = Runtime.Returned config ->
    (allowed (Lambda.method_of event) = true ->
     Index.handler env event context w s
     = WebhookHandler.processWebhook env event context w s)
    /\ (allowed (Lambda.method_of event) = false ->
        exists error,
          Index.handler env event context w s
          = (s, Runtime.Returned
                  {| Http.statusCode := 405;
                     Http.headers :=
                       [("Content-Type", "application/json");
                        ("Allow", "POST, PUT, PATCH, DELETE")];
                     Http.body :=
                       Http.MethodNotAllowed "Method Not Allowed" error
                         ["POST"; "PUT"; "PATCH"; "DELETE"]
                         (Lambda.awsRequestId context) |})).
Proof.
  intros env config event context w s Hcfg.
  exact (modular_gate env config event context w s Hcfg).
Qed.

(** C5 at the failing input, a HEAD request to the monolithic handler.
    HEAD is not in the allow-list, and the handler of the entry point
    answers it 405; the monolithic handler tests for GET only, normalizes
    the request and answers 200 or 500. *)
Theorem C5_monolith_gate_passes_HEAD :
  forall (env : Config.Env) (context : Lambda.Context)
         (w : Runtime.World Http.Call)
         (s : Runtime.State Http.Call Http.Globals),
    let event := Sample.request "HEAD" "/generatives" "" in
    allowed (Lambda.method_of event) = false
    /\ (exists eventData,
          Monolith.extractEventData event w s
          = (s, Runtime.Returned eventData)
          /\ EventData.method (EventData.transport eventData) = "HEAD")
    /\ (exists s' response,
          Monolith.handler env event context w s
          = (s', Runtime.Returned response)
          /\ (Http.statusCode response = 200%Z
              \/ Http.statusCode response = 500%Z)
          /\ Http.statusCode response <> 405%Z)
    /\ (forall config,
          Config.getConfig env = Runtime.Returned config ->
          exists error,
            Index.handler env event context w s
            = (s, Runtime.Returned (WebhookHandler.not_allowed context error))).
Proof.
  intros env context w s event. split; [reflexivity|]. split; [|split].
  - destruct (extractEventData_total event w s) as (ed & H & _ & Hm).
    exists ed. split; [exact H | exact Hm].
  - destruct (monolith_gate env event context w s) as [_ H].
    destruct (H eq_refl) as (s' & r & E & Hs).
    exists s', r. split; [exact E|]. split; [exact Hs|].
    destruct Hs as [-> | ->]; discriminate.
  - intros config Hcfg.
    destruct (modular_gate env config event context w s Hcfg) as [_ H].
    exact (H eq_refl).
Qed.

(** C9.  In the handler exported by the entry point the store branch is
    a placeholder that resolves to success in every world and state.  So
    whenever that handler answers 200, [operations_status.mongodb] is
    "success" and the message is one of the two store-succeeded messages:
    the store-failed and both-failed responses are never produced. *)
Theorem C9_modular_store_branch_always_succeeds :
  forall (env : Config.Env) (event : Lambda.Event) (context : Lambda.Context)
         (w : Runtime.World Http.Call)
         (s s' : Runtime.State Http.Call Http.Globals)
         (response : Http.Response),
    Index.handler env event context w s = (s', Runtime.Returned response) ->
    Http.statusCode response = 200%Z ->
    (forall db coll eventData w0 s0,
       WebhookHandler.storeWebhook db coll eventData w0 s0
       = (s0, Runtime.Returned
                {| Http.success := true; Http.operation := "mongodb";
                   Http.error := None |}))
    /\ exists message requestId db coll snsStatus t,
         Http.body response
         = Http.Processed message requestId db coll
             {| Http.mongodb := "success"; Http.sns := snsStatus |} t
         /\ (message = fst (WebhookHandler.compose true true)
             \/ message = fst (WebhookHandler.compose true false))
         /\ message <> fst (WebhookHandler.compose false true)
         /\ message <> fst (WebhookHandler.compose false false).
Proof.
  intros env event context w s s' response Hrun H200.
  split; [reflexivity|].
  unfold Index.handler in Hrun.
  destruct (Config.getConfig env) as [config|e] eqn:Hcfg.
  - destruct (allowed (Lambda.method_of event)) eqn:Hgate.
    + destruct (modular_handler_run env config event context w s Hcfg Hgate)
        as (ed & _ & R).
      destruct (WebhookHandler.resolveMongoUri _ w s) as [s1 [uri|e]].
      * cbv zeta in R.
        assert (Hb : exists b t,
                   response
                   = settled_response context (Config.getDatabaseName config)
                       (WebhookHandler.generateCollectionName
                          (Runtime.coalesce (Lambda.path event) "/"))
                       true b t).
        { destruct (Config.isSNSConfigured config);
            rewrite R in Hrun; injection Hrun as _ <-; eauto. }
        destruct Hb as (b & t & ->).
        do 6 eexists. split; [reflexivity|].
        destruct b; (split; [auto|split; discriminate]).
      * rewrite R in Hrun. injection Hrun as _ <-. discriminate H200.
    + destruct (modular_gate env config event context w s Hcfg) as [_ G].
      destruct (G Hgate) as (error & E). rewrite E in Hrun.
      injection Hrun as _ <-. discriminate H200.
  - unfold WebhookHandler.handler, WebhookHandler.validateMethod in Hrun.
    rewrite Hcfg in Hrun.
    destruct (match Lambda.method_of event with
              | Some m => m =? "GET"
              | None => false
              end).
    + injection Hrun as _ <-. discriminate H200.
    + discriminate Hrun.
Qed.

(** C9 at a POST on a cold start whose publish is rejected: the response
    is 200 with the store reported as a success. *)
Lemma C9_witness :
  let w : Runtime.World Http.Call :=
    {| Runtime.reply :=
         fun _ c => match c with
                    | Http.SNSPublish _ _ _ => Runtime.Rejected "down"
                    | _ => Runtime.Resolved "ok"
                    end;
       Runtime.now := fun _ => 0%Z;
       Runtime.JSON_parse := fun _ => None |} in
  let event := Sample.request "POST" "/generatives" "ping" in
  exists s' response,
    Index.handler Sample.env event Sample.context w Sample.cold
    = (s', Runtime.Returned response)
    /\ Http.statusCode response = 200%Z
    /\ exists message requestId db coll t,
         Http.body response
         = Http.Processed message requestId db coll
             {| Http.mongodb := "success"; Http.sns := "failed" |} t.
Proof.
  intros w event.
  destruct (Index.handler Sample.env event Sample.context w Sample.cold)
    as [s' [response|e]] eqn:E; [|discriminate E].
  assert (H200 : Http.statusCode response = 200%Z)
    by (injection E as _ <-; reflexivity).
  destruct (C9_modular_store_branch_always_succeeds Sample.env event
              Sample.context w Sample.cold s' response E H200)
    as (_ & message & requestId & db & coll & snsStatus & t & Hb & _).
  exists s', response. split; [reflexivity|]. split; [exact H200|].
  exists message, requestId, db, coll, t. rewrite Hb.
  injection E as _ <-. injection Hb as _ _ _ _ <- _. reflexivity.
Defined.

(* ================================================================= *)
(** ** The failure analyzer *)

Section Analyzer.
Import Runtime DLQ.

(** What [analyzeFailure] returns, when it returns. *)
Lemma analyzeFailure_returned (now : Z) (failureInfo : FailureInfo)
    (webhookEvent : json) (a : Analysis) :
  analyzeFailure now failureInfo webhookEvent = Returned a ->
  let old := older_than_24h (messageAgeMs now failureInfo) in
  shouldRetry a = retry_by_reason (failureReason failureInfo) && negb old
  /\ failureType a = type_by_reason (failureReason failureInfo)
  /\ (In too_old (recommendations a) <-> old = true).
Proof.
  unfold analyzeFailure, retry_by_reason, type_by_reason, too_old.
  destruct (member webhookEvent "path") as [path|e]; [|discriminate].
  intros H.
  assert (C : exists c : bool,
            match opt_includes path "/payment" with
            | Returned true => Returned true
            | Returned false =>
                match opt_includes path "/security" with
                | Returned true => Returned true
                | Returned false => opt_includes path "/critical"
                | Thrown e => Thrown e
                end
            | Thrown e => Thrown e
            end = Returned c).
  { destruct (match opt_includes path "/payment" with
              | Returned true => Returned true
              | Returned false => _
              | Thrown e => Thrown e
              end) as [c|e]; [eauto | discriminate]. }
  destruct C as [c C]. rewrite C in H. clear C.
  destruct (older_than_24h (messageAgeMs now failureInfo));
    destruct (JS.includes (failureReason failureInfo) "timeout");
    destruct (JS.includes (failureReason failureInfo) "5");
    destruct (JS.includes (failureReason failureInfo) "4");
    destruct c; injection H as <-; cbn;
    (split; [reflexivity|split; [reflexivity|]]);
    split; intros H; try reflexivity; try discriminate;
    try (left; reflexivity); try (right; left; reflexivity);
    repeat (destruct H as [H|H]; [discriminate H|]); destruct H.
Qed.

(** [analyzeFailure] returns for every event that is an object whose
    [path] is absent or a string. *)
Lemma analyzeFailure_returns (now : Z) (failureInfo : FailureInfo)
    (members : list (string * json)) :
  (lookup "path" members = None
   \/ exists p, lookup "path" members = Some (JString p)) ->
  exists a, analyzeFailure now failureInfo (JObject members) = Returned a.
Proof.
  intros H. unfold analyzeFailure, member.
  destruct H as [-> | [p ->]]; cbn [opt_includes].
  - destruct (older_than_24h _); eauto.
  - destruct (JS.includes p "/payment"), (JS.includes p "/security"),
      (JS.includes p "/critical"), (older_than_24h _); eauto.
Qed.

(** The age enters the analysis through [older_than_24h] only. *)
Lemma analyzeFailure_age (now now' : Z) (fi fi' : FailureInfo) (ev : json) :
  failureReason fi' = failureReason fi ->
  older_than_24h (messageAgeMs now' fi') = older_than_24h (messageAgeMs now fi) ->
  analyzeFailure now' fi' ev = analyzeFailure now fi ev.
Proof.
  intros Hr Ho. unfold analyzeFailure. rewrite Hr, Ho. reflexivity.
Qed.

End Analyzer.

(** C10.  When [sentTimestamp] is absent or [parseInt] gives [NaN] for
    it, the message age is [NaN] and the 24-hour gate does not trigger:
    [analyzeFailure] does not depend on the clock, gives what it gives for
    the same entry with any time stamp not older than 24 hours, and its
    [shouldRetry] is the decision of the failure reason alone (true
    exactly for a reason containing "timeout" or "5"), without the
    too-old recommendation. *)
Theorem C10_unknown_age_is_fresh :
  forall (now : Z) (failureInfo : DLQ.FailureInfo)
         (webhookEvent : Runtime.json),
    (DLQ.sentTimestamp failureInfo = None
     \/ exists str, DLQ.sentTimestamp failureInfo = Some str
                    /\ JS.parseInt str = None) ->
    DLQ.messageAgeMs now failureInfo = None
    /\ DLQ.older_than_24h (DLQ.messageAgeMs now failureInfo) = false
    /\ (forall now', DLQ.analyzeFailure now' failureInfo webhookEvent
                     = DLQ.analyzeFailure now failureInfo webhookEvent)
    /\ (forall t,
          DLQ.older_than_24h
            (DLQ.messageAgeMs now (with_sentTimestamp failureInfo t)) = false ->
          DLQ.analyzeFailure now (with_sentTimestamp failureInfo t) webhookEvent
          = DLQ.analyzeFailure now failureInfo webhookEvent)
    /\ (forall a,
          DLQ.analyzeFailure now failureInfo webhookEvent = Runtime.Returned a ->
          DLQ.shouldRetry a
          = (JS.includes (DLQ.failureReason failureInfo) "timeout"
             || JS.includes (DLQ.failureReason failureInfo) "5")
          /\ ~ In "Message too old for retry" (DLQ.recommendations a))
    /\ (forall members,
          webhookEvent = Runtime.JObject members ->
          DLQ.lookup "path" members = None ->
          exists a,
            DLQ.analyzeFailure now failureInfo webhookEvent
            = Runtime.Returned a).
Proof.
  intros now fi ev H.
  assert (Hage : forall n, DLQ.messageAgeMs n fi = None).
  { intros n. unfold DLQ.messageAgeMs.
    destruct H as [-> | (str & -> & ->)]; reflexivity. }
  split; [apply Hage|]. split; [rewrite Hage; reflexivity|].
  split; [|split; [|split]].
  - intros now'. apply analyzeFailure_age; [reflexivity|].
    rewrite !Hage. reflexivity.
  - intros t Ht. apply analyzeFailure_age; [reflexivity|].
    rewrite Ht, Hage. reflexivity.
  - intros a Ha. destruct (analyzeFailure_returned now fi ev a Ha)
      as (Hs & _ & Hr).
    rewrite Hage in Hs, Hr. cbn in Hs, Hr. rewrite andb_true_r in Hs.
    split; [exact Hs|]. intros Hin. apply Hr in Hin. discriminate.
  - intros members -> Hp. apply analyzeFailure_returns. left. exact Hp.
Qed.

(** C10 at an entry whose [SentTimestamp] is the text "yesterday", with
    the reason "connection timeout": it is retried whatever the clock
    says. *)
Lemma C10_witness :
  let failureInfo :=
    {| DLQ.messageId := "m-1"; DLQ.receiveCount := 1;
       DLQ.firstReceiveTimestamp := None;
       DLQ.sentTimestamp := Some "yesterday";
       DLQ.originalTopicArn := Some "arn:aws:sns:webhook-events";
       DLQ.failureReason := "connection timeout";
       DLQ.subscriberEndpoint := None; DLQ.protocol := Some "https" |} in
  JS.parseInt "yesterday" = None
  /\ forall now, exists a,
       DLQ.analyzeFailure now failureInfo (Runtime.JObject [])
       = Runtime.Returned a
       /\ DLQ.shouldRetry a = true.
Proof.
  intros failureInfo. split; [reflexivity|]. intros now.
  destruct (C10_unknown_age_is_fresh now failureInfo (Runtime.JObject []))
    as (_ & _ & _ & _ & Hs & Hr).
  - right. exists "yesterday". split; reflexivity.
  - destruct (Hr [] eq_refl eq_refl) as [a Ha].
    exists a. split; [exact Ha|].
    destruct (Hs a Ha) as [-> _]. reflexivity.
Defined.

(* ================================================================= *)
(** ** The dead-letter pipeline *)

Section Pipeline.
Import Runtime DLQ.
Local Open Scope js_scope.
Local Open Scope list_scope.

Lemma appends_here (P : Call -> Prop) {A : Type} (m : M A) :
  (forall w s, exists r, m w s = (s, r)) -> appends P m.
Proof.
  intros H w s s' r E. destruct (H w s) as [r' E']. rewrite E' in E.
  injection E as <- _. split; [reflexivity|].
  exists []. rewrite app_nil_r. auto.
Qed.

Lemma appends_ret (P : Call -> Prop) {A : Type} (a : A) : appends P (ret a).
Proof. apply appends_here. intros; eexists; reflexivity. Qed.

Lemma appends_throw (P : Call -> Prop) {A : Type} (e : string) :
  appends P (@throw Call (list EntryResult) A e).
Proof. apply appends_here. intros; eexists; reflexivity. Qed.

Lemma appends_date_now (P : Call -> Prop) : appends P date_now.
Proof. apply appends_here. intros; eexists; reflexivity. Qed.

Lemma appends_parse (P : Call -> Prop) (v : json) : appends P (parse v).
Proof.
  apply appends_here. intros w s. unfold parse.
  destruct (JSON_parse w v); eexists; reflexivity.
Qed.

Lemma appends_send (P : Call -> Prop) (c : Call) : P c -> appends P (send c).
Proof.
  intros Hc w s s' r. unfold send, called.
  destruct (reply w (trace s) c); intros [= <- _];
    (split; [reflexivity|]); exists [c]; auto.
Qed.

Lemma appends_bind (P : Call -> Prop) {A B : Type} (m : M A) (k : A -> M B) :
  appends P m -> (forall a, appends P (k a)) -> appends P (bind m k).
Proof.
  intros Hm Hk w s s' r. unfold bind.
  destruct (m w s) as [s1 [a|e]] eqn:E1.
  - intros E2. destruct (Hm _ _ _ _ E1) as (G1 & c1 & T1 & F1).
    destruct (Hk a _ _ _ _ E2) as (G2 & c2 & T2 & F2).
    split; [congruence|]. exists (c1 ++ c2).
    rewrite T2, T1, app_assoc. split; [reflexivity|].
    apply Forall_app. auto.
  - intros [= <- _]. destruct (Hm _ _ _ _ E1) as (G1 & c1 & T1 & F1). eauto.
Qed.

Lemma appends_try_catch (P : Call -> Prop) {A : Type} (m : M A)
    (h : string -> M A) :
  appends P m -> (forall e, appends P (h e)) -> appends P (try_catch m h).
Proof.
  intros Hm Hh w s s' r. unfold try_catch.
  destruct (m w s) as [s1 [a|e]] eqn:E1.
  - intros [= <- _]. destruct (Hm _ _ _ _ E1) as (G1 & c1 & T1 & F1). eauto.
  - intros E2. destruct (Hm _ _ _ _ E1) as (G1 & c1 & T1 & F1).
    destruct (Hh e _ _ _ _ E2) as (G2 & c2 & T2 & F2).
    split; [congruence|]. exists (c1 ++ c2).
    rewrite T2, T1, app_assoc. split; [reflexivity|].
    apply Forall_app. auto.
Qed.

Create HintDb appends.
Hint Resolve appends_ret appends_throw appends_date_now appends_parse
  appends_bind appends_try_catch : appends.

(** Processing one entry publishes and emits metrics; it never deletes,
    and it does not touch [results]. *)
Lemma processDLQMessage_appends (P : Call -> Prop) (env : Env)
    (record : SQS.Record_) :
  (forall c, is_delete c = false -> P c) ->
  appends P (processDLQMessage env record).
Proof.
  intros HP.
  assert (Hsend : forall c, is_delete c = false -> appends P (send c))
    by (intros c Hc; apply appends_send, HP, Hc).
  unfold processDLQMessage, parseWebhookEvent, message_or_body, sendMetrics,
    retryDelivery, sendCriticalFailureNotification, storeFailureDetails.
  apply appends_try_catch; [|auto with appends].
  apply appends_bind; [auto with appends|]. intros messageBody.
  apply appends_bind.
  { destruct (member messageBody "Message"); auto 6 with appends. }
  intros webhookEvent.
  apply appends_bind; [auto with appends|]. intros now.
  apply appends_bind.
  { destruct (analyzeFailure _ _ _); auto with appends. }
  intros analysis.
  apply appends_bind.
  { apply appends_try_catch; [|auto with appends].
    apply appends_bind; [apply Hsend; reflexivity | auto with appends]. }
  intros _. apply appends_bind; [|auto with appends].
  destruct (shouldRetry analysis && (receiveCount _ <? 3)%Z).
  - destruct (truthy _); [|auto with appends].
    apply appends_bind; [auto with appends|]. intros t.
    apply appends_bind; [apply Hsend; reflexivity | auto with appends].
  - destruct (truthy _ && isCritical analysis); [|auto with appends].
    destruct (member webhookEvent "path"), (member webhookEvent "method"),
      (member webhookEvent "timestamp"); auto 6 with appends.
Qed.

(** The escalation publishes a notification, never a retry. *)
Lemma notification_appends (env : Env) (failureInfo : FailureInfo)
    (webhookEvent : json) (analysis : Analysis) :
  appends (fun c => is_retry c = false)
    (sendCriticalFailureNotification env failureInfo webhookEvent analysis).
Proof.
  unfold sendCriticalFailureNotification.
  destruct (member webhookEvent "path"), (member webhookEvent "method"),
    (member webhookEvent "timestamp"); auto with appends.
  apply appends_bind; [auto with appends|]. intros t.
  apply appends_bind; [|auto with appends].
  apply appends_send. reflexivity.
Qed.

(** The loop body, by the outcome of the processing and of the delete. *)
Lemma iteration_run (env : Env) (record : SQS.Record_) (w : World Call)
    (s : State Call (list EntryResult)) :
  iteration env record w s
  = match processDLQMessage env record w s with
    | (s1, Returned result) =>
        if truthy (DLQ_URL env) then
          let c :=
            DeleteMessage (coalesce (DLQ_URL env) "")
              (SQS.receiptHandle record) in
          match reply w (trace s1) c with
          | Resolved _ =>
              ({| trace := trace s1 ++ [c];
                  globals := globals s1 ++ [result] |}, Returned tt)
          | Rejected e =>
              ({| trace := trace s1 ++ [c];
                  globals :=
                    (globals s1 ++ [result])
                      ++ [FailedResult (SQS.messageId record) e] |},
               Returned tt)
          end
        else
          ({| trace := trace s1; globals := globals s1 ++ [result] |},
           Returned tt)
    | (s1, Thrown e) =>
        ({| trace := trace s1;
            globals := globals s1 ++ [FailedResult (SQS.messageId record) e] |},
         Returned tt)
    end.
Proof.
  unfold iteration, push. run.
  destruct (processDLQMessage env record w s) as [s1 [result|e]];
    [|reflexivity].
  run. destruct (truthy (DLQ_URL env)); [|reflexivity].
  run. destruct (reply w (trace s1) _); reflexivity.
Qed.

Lemma loop_returns (env : Env) (records : list SQS.Record_) (w : World Call) :
  forall s, exists s', loop env records w s = (s', Returned tt).
Proof.
  induction records as [|record rest IH]; intros s; cbn [loop].
  - eexists. reflexivity.
  - unfold bind. rewrite iteration_run.
    destruct (processDLQMessage env record w s) as [s1 [result|e]].
    + destruct (truthy (DLQ_URL env)); [|apply IH].
      cbv zeta. destruct (reply w (trace s1) _); apply IH.
    + apply IH.
Qed.

(** Where an element of a concatenation lies. *)
Lemma app_split {A : Type} (a b pre post : list A) (c : A) :
  a ++ b = pre ++ c :: post ->
  (exists l, a = pre ++ c :: l)
  \/ (exists l, pre = a ++ l /\ b = l ++ c :: post).
Proof.
  intros H. apply app_eq_app in H as [l [[-> H]|[-> H]]].
  - destruct l as [|d l].
    + right. exists []. rewrite !app_nil_r. split; [reflexivity|].
      simpl in H. simpl. auto.
    + left. injection H as <- _. eauto.
  - right. eauto.
Qed.

Lemma no_delete_inside (calls pre post : list Call) (c : Call) :
  Forall (fun c => is_delete c = false) calls ->
  is_delete c = true -> calls <> pre ++ c :: post.
Proof.
  intros F Hc ->. apply Forall_app in F as [_ F].
  inversion F as [|? ? Hd _]; subst. congruence.
Qed.

(** Every delete in the trace of the loop comes directly after the
    calls of a processing that returned, for the record whose receipt
    handle it carries. *)
Lemma loop_deletes (env : Env) (w : World Call) (records : list SQS.Record_) :
  forall s0 s_end r pre c post,
    loop env records w s0 = (s_end, r) ->
    trace s_end = trace s0 ++ pre ++ c :: post ->
    is_delete c = true ->
    exists record s s1 result,
      In record records
      /\ processDLQMessage env record w s = (s1, Returned result)
      /\ trace s1 = trace s0 ++ pre
      /\ truthy (DLQ_URL env) = true
      /\ c = DeleteMessage (coalesce (DLQ_URL env) "")
               (SQS.receiptHandle record).
Proof.
  induction records as [|record rest IH];
    intros s0 s_end r pre c post Hloop Htrace Hc; cbn [loop] in Hloop.
  - injection Hloop as <- _. exfalso.
    apply (f_equal (@List.length Call)) in Htrace.
    rewrite !List.length_app in Htrace. simpl in Htrace. lia.
  - unfold bind in Hloop. rewrite iteration_run in Hloop.
    destruct (processDLQMessage env record w s0) as [s1 res] eqn:Ep.
    destruct (processDLQMessage_appends (fun c => is_delete c = false)
                env record (fun _ H => H) w s0 s1 res Ep)
      as (_ & calls & T1 & F1).
    (* the state after the iteration: the calls of the processing, then
       at most one delete *)
    assert (Hstep : exists s2 dels,
              loop env rest w s2 = (s_end, r)
              /\ trace s2 = trace s1 ++ dels
              /\ (dels = []
                  \/ (exists result, res = Returned result)
                     /\ truthy (DLQ_URL env) = true
                     /\ dels = [DeleteMessage (coalesce (DLQ_URL env) "")
                                  (SQS.receiptHandle record)])).
    { destruct res as [result|e].
      - destruct (truthy (DLQ_URL env)) eqn:Hurl.
        + cbv zeta in Hloop.
          destruct (reply w (trace s1) _);
            (eexists; eexists; split; [exact Hloop|]; split;
             [reflexivity | right; eauto]).
        + eexists. exists []. split; [exact Hloop|].
          cbn [trace]. rewrite app_nil_r. auto.
      - eexists. exists []. split; [exact Hloop|].
        cbn [trace]. rewrite app_nil_r. auto. }
    destruct Hstep as (s2 & dels & Hrest & T2 & Hdels).
    destruct (loop_returns env rest w s2) as [s_end' Hret].
    assert (Hmore : exists more, trace s_end = trace s2 ++ more).
    { clear - Hrest. revert s2 Hrest.
      induction rest as [|r0 rest IHr]; intros s2 Hrest; cbn [loop] in Hrest.
      - injection Hrest as <- _. exists []. rewrite app_nil_r. reflexivity.
      - unfold bind in Hrest. rewrite iteration_run in Hrest.
        destruct (processDLQMessage env r0 w s2) as [s3 res3] eqn:Ep.
        destruct (processDLQMessage_appends (fun _ => True) env r0
                    (fun _ _ => I) w s2 s3 res3 Ep) as (_ & cs & T & _).
        destruct res3 as [result|e].
        + destruct (truthy (DLQ_URL env)).
          * cbv zeta in Hrest.
            destruct (reply w (trace s3) _);
              destruct (IHr _ Hrest) as [more Hm];
              cbn [trace] in Hm; rewrite Hm, T, <- !app_assoc; eauto.
          * destruct (IHr _ Hrest) as [more Hm].
            cbn [trace] in Hm. rewrite Hm, T, <- !app_assoc. eauto.
        + destruct (IHr _ Hrest) as [more Hm].
          cbn [trace] in Hm. rewrite Hm, T, <- !app_assoc. eauto. }
    destruct Hmore as [more Hmore].
    rewrite Hmore, T2, T1, <- !app_assoc in Htrace.
    apply app_inv_head in Htrace.
    apply app_split in Htrace as [[l Hin]|(l & -> & Htrace)].
    { exfalso. exact (no_delete_inside _ _ _ _ F1 Hc Hin). }
    destruct Hdels as [-> | ((result & ->) & Hurl & ->)].
    + (* no delete in this iteration: the call lies further on *)
      simpl in Htrace.
      destruct (IH s2 s_end r l c post Hrest) as (rec & s & s1' & res' & H).
      * rewrite Hmore, Htrace. reflexivity.
      * exact Hc.
      * destruct H as (Hin & Hp & Ht & Hu & Hd).
        exists rec, s, s1', res'. split; [right; exact Hin|].
        split; [exact Hp|]. split; [|auto].
        rewrite Ht, T2, T1, app_nil_r, <- app_assoc. reflexivity.
    + apply app_split in Htrace as [[l' Hin]|(l' & -> & Htrace)].
      * (* the call is the delete of this iteration *)
        destruct l as [|d l].
        -- injection Hin as <- _.
           exists record, s0, s1, result. split; [left; reflexivity|].
           split; [exact Ep|]. split; [|auto].
           rewrite T1, app_nil_r. reflexivity.
        -- exfalso. injection Hin as _ Hnil.
           destruct l; discriminate Hnil.
      * destruct (IH s2 s_end r l' c post Hrest) as (rec & s & s1' & res' & H).
        -- rewrite Hmore, Htrace. reflexivity.
        -- exact Hc.
        -- destruct H as (Hin & Hp & Ht & Hu & Hd).
           exists rec, s, s1', res'. split; [right; exact Hin|].
           split; [exact Hp|]. split; [|auto].
           rewrite Ht, T2, T1, <- !app_assoc. reflexivity.
Qed.

(** The results the loop adds: one for each record, and a second one
    for a record whose delete is rejected. *)
Lemma loop_results (env : Env) (w : World Call) (records : list SQS.Record_) :
  forall s0 s_end r,
    loop env records w s0 = (s_end, r) ->
    exists new,
      globals s_end = globals s0 ++ new
      /\ List.length records <= List.length new <= 2 * List.length records
      /\ (truthy (DLQ_URL env) = false
          \/ (forall t c, is_delete c = true -> exists v, reply w t c = Resolved v) ->
          List.length new = List.length records).
Proof.
  induction records as [|record rest IH]; intros s0 s_end r Hloop;
    cbn [loop] in Hloop.
  - injection Hloop as <- _. exists []. rewrite app_nil_r. simpl.
    repeat split; auto.
  - unfold bind in Hloop. rewrite iteration_run in Hloop.
    destruct (processDLQMessage env record w s0) as [s1 res] eqn:Ep.
    destruct (processDLQMessage_appends (fun _ => True) env record
                (fun _ _ => I) w s0 s1 res Ep) as (G1 & _).
    destruct res as [result|e].
    + destruct (truthy (DLQ_URL env)) eqn:Hurl.
      * cbv zeta in Hloop.
        destruct (reply w (trace s1) _) as [v|e] eqn:Hreply;
          destruct (IH _ _ _ Hloop) as (new & G & L & E);
          cbn [globals] in G; rewrite G1 in G.
        -- exists (result :: new). rewrite G, <- app_assoc.
           split; [reflexivity|]. simpl. split; [lia|].
           intros H. rewrite (E H). reflexivity.
        -- exists (result :: FailedResult (SQS.messageId record) e :: new).
           rewrite G, <- !app_assoc. split; [reflexivity|]. simpl.
           split; [lia|].
           intros [H|H]; [discriminate H|].
           destruct (H (trace s1)
                       (DeleteMessage (coalesce (DLQ_URL env) "")
                          (SQS.receiptHandle record)) eq_refl) as [v Hv].
           congruence.
      * destruct (IH _ _ _ Hloop) as (new & G & L & E).
        cbn [globals] in G. rewrite G1 in G.
        exists (result :: new). rewrite G, <- app_assoc.
        split; [reflexivity|]. simpl. split; [lia|].
        intros H. rewrite (E H). reflexivity.
    + destruct (IH _ _ _ Hloop) as (new & G & L & E).
      cbn [globals] in G. rewrite G1 in G.
      exists (FailedResult (SQS.messageId record) e :: new).
      rewrite G, <- app_assoc. split; [reflexivity|]. simpl. split; [lia|].
      intros H. rewrite (E H). reflexivity.
Qed.

Lemma count_status_total (results : list EntryResult) :
  count_status "processed" results + count_status "failed" results
  = List.length results.
Proof.
  unfold count_status.
  induction results as [|[id a|id e] rest IH]; simpl in *; lia.
Qed.

(** The handler is the loop, started from an empty [results]. *)
Lemma run_loop (env : Env) (w : World Call) (event : SQS.Event) :
  exists s_end,
    loop env (coalesce (SQS.Records event) []) w
      {| trace := []; globals := [] |} = (s_end, Returned tt)
    /\ run w env event
       = (s_end,
          Returned {| statusCode := 200;
                      message := "DLQ processing complete";
                      summary := summarize (globals s_end);
                      results := globals s_end |}).
Proof.
  destruct (loop_returns env (coalesce (SQS.Records event) []) w
              {| trace := []; globals := [] |}) as [s_end H].
  exists s_end. split; [exact H|].
  unfold run, handler. run. rewrite H. reflexivity.
Qed.

Lemma sendMetrics_run (failureInfo : FailureInfo) (analysis : Analysis)
    (w : World Call) (s : State Call (list EntryResult)) :
  sendMetrics failureInfo analysis w s
  = (called s (PutMetricData "WebhookReceiver/DLQ"
                 (metricData failureInfo analysis)),
     Returned tt).
Proof.
  unfold sendMetrics. run. destruct (reply w (trace s) _); reflexivity.
Qed.

Lemma retryDelivery_run (webhookEvent : json) (failureInfo : FailureInfo)
    (w : World Call) (s : State Call (list EntryResult)) :
  retryDelivery webhookEvent failureInfo w s
  = if truthy (originalTopicArn failureInfo) then
      let c :=
        Publish (retryCommand webhookEvent failureInfo (now w (trace s))) in
      (called s c,
       match reply w (trace s) c with
       | Resolved _ => Returned tt
       | Rejected e => Thrown e
       end)
    else (s, Returned tt).
Proof.
  unfold retryDelivery.
  destruct (truthy (originalTopicArn failureInfo)); [|reflexivity].
  run. destruct (reply w (trace s) _); reflexivity.
Qed.

(** The run of [processDLQMessage] once the body is parsed and the
    analysis has returned: the metrics, then the retry or the
    escalation. *)
Lemma processDLQMessage_analysed (env : Env) (record : SQS.Record_)
    (w : World Call) (s : State Call (list EntryResult))
    (messageBody webhookEvent : json) (analysis : Analysis) :
  JSON_parse w (JString (SQS.body record)) = Some messageBody ->
  parseWebhookEvent messageBody w s = (s, Returned webhookEvent) ->
  analyzeFailure (now w (trace s)) (failureInfoOf record) webhookEvent
  = Returned analysis ->
  let failureInfo := failureInfoOf record in
  let s1 :=
    called s (PutMetricData "WebhookReceiver/DLQ"
                (metricData failureInfo analysis)) in
  let branch : M unit :=
    if shouldRetry analysis && (receiveCount failureInfo <? 3)%Z then
      retryDelivery webhookEvent failureInfo
    else if truthy (CRITICAL_FAILURE_TOPIC_ARN env) && isCritical analysis
         then sendCriticalFailureNotification env failureInfo webhookEvent
                analysis
         else ret tt in
  processDLQMessage env record w s
  = match branch w s1 with
    | (s2, Returned _) =>
        (s2, Returned (ProcessedResult (SQS.messageId record) analysis))
    | (s2, Thrown e) => (s2, Thrown e)
    end.
Proof.
  intros Hbody Hevent Han failureInfo s1 branch.
  unfold processDLQMessage, try_catch, bind, parse, date_now,
    storeFailureDetails.
  rewrite Hbody. cbv beta iota. rewrite Hevent. cbv beta iota.
  rewrite Han. unfold ret at 1. cbv beta iota.
  rewrite sendMetrics_run. cbv beta iota.
  subst branch s1 failureInfo. cbv beta.
  destruct (shouldRetry analysis && _).
  - destruct (retryDelivery _ _ w _) as [s2 [[]|e]]; reflexivity.
  - destruct (truthy _ && isCritical analysis); [|reflexivity].
    destruct (sendCriticalFailureNotification _ _ _ _ w _) as [s2 [[]|e]];
      reflexivity.
Qed.

End Pipeline.

(** C7.  Processing an entry never issues a delete.  In the loop body
    the only call after the processing is the delete of that entry, made
    when the processing returned (and a queue URL is configured); when
    the processing throws, no call follows it.  Over a whole batch, every
    delete in the trace comes directly after the calls of a processing
    that returned, for a record of the batch whose receipt handle it
    carries. *)
Theorem C7_delete_only_after_processing :
  forall (env : DLQ.Env) (w : Runtime.World DLQ.Call),
    (forall (record : SQS.Record_)
            (s : Runtime.State DLQ.Call (list DLQ.EntryResult)),
       let '(s1, outcome) := DLQ.processDLQMessage env record w s in
       (exists calls,
          Runtime.trace s1 = (Runtime.trace s ++ calls)%list
          /\ Forall (fun c => is_delete c = false) calls)
       /\ exists s2,
            DLQ.iteration env record w s = (s2, Runtime.Returned tt)
            /\ match outcome with
               | Runtime.Thrown _ => Runtime.trace s2 = Runtime.trace s1
               | Runtime.Returned _ =>
                   Runtime.trace s2
                   = (Runtime.trace s1
                        ++ (if Runtime.truthy (DLQ.DLQ_URL env)
                            then [DLQ.DeleteMessage
                                    (Runtime.coalesce (DLQ.DLQ_URL env) "")
                                    (SQS.receiptHandle record)]
                            else []))%list
               end)
    /\ (forall event : SQS.Event,
          exists s_end response,
            DLQ.run w env event = (s_end, Runtime.Returned response)
            /\ forall pre c post,
                 Runtime.trace s_end = (pre ++ c :: post)%list ->
                 is_delete c = true ->
                 exists record s s1 result,
                   In record (Runtime.coalesce (SQS.Records event) [])
                   /\ DLQ.processDLQMessage env record w s
                      = (s1, Runtime.Returned result)
                   /\ Runtime.trace s1 = pre
                   /\ c = DLQ.DeleteMessage
                            (Runtime.coalesce (DLQ.DLQ_URL env) "")
                            (SQS.receiptHandle record)).
Proof.
  intros env w. split.
  - intros record s.
    destruct (DLQ.processDLQMessage env record w s) as [s1 outcome] eqn:Ep.
    destruct (processDLQMessage_appends (fun c => is_delete c = false)
                env record (fun _ H => H) w s s1 outcome Ep)
      as (_ & calls & T & F).
    split; [eauto|].
    rewrite iteration_run, Ep. destruct outcome as [result|e].
    + destruct (Runtime.truthy (DLQ.DLQ_URL env)).
      * cbv zeta. destruct (Runtime.reply w (Runtime.trace s1) _);
          eexists; split; reflexivity.
      * eexists. split; [reflexivity|]. cbn. rewrite app_nil_r. reflexivity.
    + eexists. split; reflexivity.
  - intros event. destruct (run_loop env w event) as (s_end & Hloop & Hrun).
    do 2 eexists. split; [exact Hrun|].
    intros pre c post Htrace Hc.
    destruct (loop_deletes env w _ _ _ _ pre c post Hloop Htrace Hc)
      as (record & s & s1 & result & Hin & Hp & Ht & _ & Hd).
    exists record, s, s1, result. auto.
Qed.

(** The summary of a batch of N entries: [processed + failed = total],
    with [total] between N and 2N, and [total = N] when no queue URL is
    configured or no delete is rejected. *)
Lemma batch_summary :
  forall (env : DLQ.Env) (w : Runtime.World DLQ.Call) (event : SQS.Event),
    let N := List.length (Runtime.coalesce (SQS.Records event) []) in
    exists s_end response,
      DLQ.run w env event = (s_end, Runtime.Returned response)
      /\ DLQ.processed (DLQ.summary response) + DLQ.failed (DLQ.summary response)
         = DLQ.total (DLQ.summary response)
      /\ DLQ.total (DLQ.summary response) = List.length (DLQ.results response)
      /\ N <= DLQ.total (DLQ.summary response) <= 2 * N
      /\ (Runtime.truthy (DLQ.DLQ_URL env) = false
          \/ (forall t c, is_delete c = true ->
                          exists v, Runtime.reply w t c = Runtime.Resolved v) ->
          DLQ.total (DLQ.summary response) = N).
Proof.
  intros env w event N.
  destruct (run_loop env w event) as (s_end & Hloop & Hrun).
  do 2 eexists. split; [exact Hrun|]. cbn.
  destruct (loop_results env w _ _ _ _ Hloop) as (new & G & L & E).
  cbn in G. rewrite G.
  split; [apply count_status_total|]. split; [reflexivity|]. auto.
Qed.

(** C6 at the failing input: one entry that is processed without an
    exception, in a world where SQS rejects the delete.  The delete is
    awaited inside the [try] block after the result was pushed, so the
    [catch] pushes a second result for the same entry: two results for
    one entry, counted once as processed and once as failed. *)
Theorem C6_rejected_delete_counts_entry_twice :
  let record := Sample.entry "timeout" 1 Sample.recent in
  let event := {| SQS.Records := Some [record] |} in
  let analysis :=
    {| DLQ.shouldRetry := true; DLQ.isCritical := false;
       DLQ.failureType := "timeout";
       DLQ.recommendations :=
         ["Consider increasing timeout for subscriber"] |} in
  exists s_end,
    DLQ.processDLQMessage Sample.dlq_env record Sample.delete_rejected
      Sample.fresh_start
    = (Runtime.called
         (Runtime.called Sample.fresh_start
            (DLQ.PutMetricData "WebhookReceiver/DLQ"
               (DLQ.metricData (DLQ.failureInfoOf record) analysis)))
         (DLQ.Publish
            (DLQ.retryCommand Sample.generatives (DLQ.failureInfoOf record)
               1700000000000)),
       Runtime.Returned (DLQ.ProcessedResult "m-1" analysis))
    /\ DLQ.run Sample.delete_rejected Sample.dlq_env event
       = (s_end,
          Runtime.Returned
            {| DLQ.statusCode := 200;
               DLQ.message := "DLQ processing complete";
               DLQ.summary :=
                 {| DLQ.processed := 1; DLQ.failed := 1; DLQ.total := 2 |};
               DLQ.results :=
                 [DLQ.ProcessedResult "m-1" analysis;
                  DLQ.FailedResult "m-1" "ReceiptHandleIsInvalid"] |}).
Proof.
  cbv zeta. eexists. split; vm_compute; reflexivity.
Qed.

Section Reading.
Import Runtime DLQ.
Local Open Scope js_scope.
Local Open Scope list_scope.

Lemma message_or_body_run (messageBody : json) (w : World Call)
    (s : State Call (list EntryResult)) :
  messageBody <> JNull ->
  message_or_body messageBody w s = (s, Returned (message_of messageBody)).
Proof.
  intros H. unfold message_or_body, message_of.
  destruct messageBody; try contradiction; reflexivity.
Qed.

(** The event is read without a call, from every body but [null]. *)
Lemma parseWebhookEvent_run (messageBody : json) (w : World Call)
    (s : State Call (list EntryResult)) :
  messageBody <> JNull ->
  parseWebhookEvent messageBody w s
  = (s, Returned (original_event w messageBody)).
Proof.
  intros H. unfold parseWebhookEvent, original_event, try_catch, bind, parse.
  rewrite (message_or_body_run messageBody w s H).
  destruct (JSON_parse w (message_of messageBody)); [reflexivity|].
  apply message_or_body_run, H.
Qed.

Lemma parseWebhookEvent_null (w : World Call)
    (s : State Call (list EntryResult)) :
  exists error, parseWebhookEvent JNull w s = (s, Thrown error).
Proof. eexists. reflexivity. Qed.

(** The analysis returns exactly on the events whose path it can
    read. *)
Lemma analyzeFailure_readable (now : Z) (failureInfo : FailureInfo)
    (webhookEvent : json) :
  if readable_path webhookEvent
  then exists a, analyzeFailure now failureInfo webhookEvent = Returned a
  else exists e, analyzeFailure now failureInfo webhookEvent = Thrown e.
Proof.
  unfold analyzeFailure, readable_path.
  destruct webhookEvent as [| b | n | t | items | members]; cbn [member];
    try (eexists; reflexivity);
    try (cbn [opt_includes];
         destruct (older_than_24h (messageAgeMs now failureInfo));
         eexists; reflexivity).
  destruct (lookup "path" members) as [[| b | n | t | items | ms]|];
    cbn [opt_includes]; try (eexists; reflexivity);
    try (destruct (older_than_24h (messageAgeMs now failureInfo));
         eexists; reflexivity).
  - destruct (JS.includes t "/payment");
      [|destruct (JS.includes t "/security");
        [|destruct (JS.includes t "/critical")]];
      destruct (older_than_24h (messageAgeMs now failureInfo));
      eexists; reflexivity.
  - destruct (existsb _ items);
      [|destruct (existsb _ items);
        [|destruct (existsb _ items)]];
      destruct (older_than_24h (messageAgeMs now failureInfo));
      eexists; reflexivity.
Qed.

(** A processing that cannot read its event throws before any call. *)
Lemma processDLQMessage_unread (env : Env) (record : SQS.Record_)
    (w : World Call) (s : State Call (list EntryResult))
    (messageBody : json) :
  JSON_parse w (JString (SQS.body record)) = Some messageBody ->
  messageBody = JNull \/ readable_path (original_event w messageBody) = false ->
  exists error, processDLQMessage env record w s = (s, Thrown error).
Proof.
  intros Hbody Hbad. unfold processDLQMessage, try_catch, bind, parse.
  rewrite Hbody. cbv beta iota.
  assert (D : messageBody = JNull \/ messageBody <> JNull)
    by (destruct messageBody; (left; reflexivity) || (right; discriminate)).
  destruct D as [->|Hnull].
  - destruct (parseWebhookEvent_null w s) as (e & ->). eexists. reflexivity.
  - destruct Hbad as [->|Hbad]; [contradiction|].
    rewrite (parseWebhookEvent_run messageBody w s Hnull).
    cbv beta iota. unfold date_now.
    pose proof (analyzeFailure_readable (now w (trace s))
                  (failureInfoOf record) (original_event w messageBody))
      as Ha.
    rewrite Hbad in Ha. destruct Ha as (e & ->). eexists. reflexivity.
Qed.

End Reading.

(** C2, the claim as the spec states it, refuted at its own input: for
    the failure reason "Timeout" and a receive count of 1, on a message
    sent a second ago, [analyzeFailure] classifies the failure as
    "unknown" with [shouldRetry = false] (the test for "timeout" is case
    sensitive), and the pipeline republishes nothing. *)
Lemma C2_counterexample :
  let record := Sample.entry "Timeout" 1 Sample.recent in
  DLQ.analyzeFailure 1700000000000 (DLQ.failureInfoOf record)
    Sample.generatives
  = Runtime.Returned
      {| DLQ.shouldRetry := false; DLQ.isCritical := false;
         DLQ.failureType := "unknown"; DLQ.recommendations := [] |}
  /\ Runtime.trace
       (fst (DLQ.processDLQMessage Sample.dlq_env record Sample.reading
               Sample.fresh_start))
     = [DLQ.PutMetricData "WebhookReceiver/DLQ"
          [{| DLQ.MetricName := "ProcessedMessages";
              DLQ.Dimensions :=
                [{| DLQ.Name := "Protocol"; DLQ.Value := "https" |};
                 {| DLQ.Name := "FailureType"; DLQ.Value := "unknown" |}] |}]].
Proof. split; vm_compute; reflexivity. Qed.

(** C2, as amended.  Take an entry whose body parses and whose failure
    reason contains the lower-case text "timeout".  If the body is not
    [null] and the original event read from it (its [Message], or the
    body itself, read as JSON when that parses) is not [null] and has a
    [path] that is absent, [null], a string or an array, the analysis
    returns.  Then, if the [sentTimestamp] is not more than 24 hours old
    (or cannot be read), [shouldRetry] is true; if it is older,
    [shouldRetry] is false.  When it is not older, the receive count is
    below 3 (1, say) and the entry names its topic, the pipeline emits
    the metrics and then republishes the original event to that topic,
    tagged with the receive count and the failure reason.  When the
    receive count is 3 or more, or the message is older than 24 hours,
    no event is republished.  For every other body that parses, the
    processing throws before any call. *)
Theorem C2_retry_eligibility :
  forall (env : DLQ.Env) (record : SQS.Record_)
         (w : Runtime.World DLQ.Call)
         (s : Runtime.State DLQ.Call (list DLQ.EntryResult))
         (messageBody : Runtime.json),
    let failureInfo := DLQ.failureInfoOf record in
    let now := Runtime.now w (Runtime.trace s) in
    let webhookEvent := original_event w messageBody in
    Runtime.JSON_parse w (Runtime.JString (SQS.body record))
    = Some messageBody ->
    JS.includes (DLQ.failureReason failureInfo) "timeout" = true ->
    let old := DLQ.older_than_24h (DLQ.messageAgeMs now failureInfo) in
    (messageBody <> Runtime.JNull ->
     readable_path webhookEvent = true ->
     exists analysis,
       DLQ.analyzeFailure now failureInfo webhookEvent
       = Runtime.Returned analysis
       /\ let s1 :=
            Runtime.called s
              (DLQ.PutMetricData "WebhookReceiver/DLQ"
                 (DLQ.metricData failureInfo analysis)) in
          (old = false -> DLQ.shouldRetry analysis = true)
          /\ (old = true -> DLQ.shouldRetry analysis = false)
          /\ (old = false ->
              (DLQ.receiveCount failureInfo < 3)%Z ->
              Runtime.truthy (DLQ.originalTopicArn failureInfo) = true ->
              exists command,
                fst (DLQ.processDLQMessage env record w s)
                = Runtime.called s1 (DLQ.Publish command)
                /\ Some (DLQ.TopicArn command)
                   = DLQ.originalTopicArn failureInfo
                /\ DLQ.Message_ command
                   = DLQ.RetryMessage webhookEvent
                       {| DLQ.attempt := DLQ.receiveCount failureInfo;
                          DLQ.originalMessageId := SQS.messageId record;
                          DLQ.originalFailure :=
                            DLQ.failureReason failureInfo;
                          DLQ.retryTimestamp :=
                            Runtime.now w (Runtime.trace s1) |})
          /\ ((3 <= DLQ.receiveCount failureInfo)%Z \/ old = true ->
              exists calls,
                Runtime.trace (fst (DLQ.processDLQMessage env record w s))
                = (Runtime.trace s ++ calls)%list
                /\ Forall (fun c => is_retry c = false) calls))
    /\ (messageBody = Runtime.JNull \/ readable_path webhookEvent = false ->
        exists error,
          DLQ.processDLQMessage env record w s
          = (s, Runtime.Thrown error)).
Proof.
  intros env record w s messageBody failureInfo now webhookEvent
    Hbody Hreason old.
  split; [|apply processDLQMessage_unread; exact Hbody].
  intros Hnull Hread.
  pose proof (parseWebhookEvent_run messageBody w s Hnull) as Hevent.
  fold webhookEvent in Hevent.
  pose proof (analyzeFailure_readable now failureInfo webhookEvent) as Han.
  rewrite Hread in Han. destruct Han as (analysis & Han).
  exists analysis. split; [exact Han|]. intros s1.
  destruct (analyzeFailure_returned now failureInfo webhookEvent analysis Han)
    as (Hs & _ & _).
  fold old in Hs. unfold retry_by_reason in Hs.
  rewrite Hreason in Hs. cbn [orb andb] in Hs.
  pose proof (processDLQMessage_analysed env record w s messageBody
                webhookEvent analysis Hbody Hevent Han) as Hrun.
  cbv zeta in Hrun. fold failureInfo in Hrun. fold s1 in Hrun.
  split; [|split; [|split]].
  - intros Ho. rewrite Hs, Ho. reflexivity.
  - intros Ho. rewrite Hs, Ho. reflexivity.
  - intros Ho Hcount Htopic. rewrite Ho in Hs. cbn in Hs.
    apply Z.ltb_lt in Hcount. rewrite Hs, Hcount in Hrun. cbn [andb] in Hrun.
    rewrite retryDelivery_run, Htopic in Hrun. cbv zeta in Hrun.
    exists (DLQ.retryCommand webhookEvent failureInfo
              (Runtime.now w (Runtime.trace s1))).
    split; [|split].
    + rewrite Hrun. destruct (Runtime.reply w (Runtime.trace s1) _);
        reflexivity.
    + cbn [DLQ.retryCommand DLQ.TopicArn].
      destruct (DLQ.originalTopicArn failureInfo);
        [reflexivity | discriminate Htopic].
    + reflexivity.
  - intros Hno.
    assert (Hcond : DLQ.shouldRetry analysis
                    && (DLQ.receiveCount failureInfo <? 3)%Z = false).
    { destruct Hno as [Hc|Ho].
      - apply Z.ltb_ge in Hc. rewrite Hc. apply andb_false_r.
      - rewrite Hs, Ho. reflexivity. }
    rewrite Hcond in Hrun.
    destruct (Runtime.truthy (DLQ.CRITICAL_FAILURE_TOPIC_ARN env)
              && DLQ.isCritical analysis).
    + destruct (DLQ.sendCriticalFailureNotification env failureInfo
                  webhookEvent analysis w s1) as [s2 r] eqn:En.
      destruct (notification_appends env failureInfo webhookEvent analysis
                  w s1 s2 r En) as (_ & calls & T & F).
      exists (DLQ.PutMetricData "WebhookReceiver/DLQ"
                (DLQ.metricData failureInfo analysis) :: calls).
      split.
      * rewrite Hrun. destruct r as [[]|e]; cbn [fst]; rewrite T;
          unfold s1, Runtime.called; cbn [Runtime.trace];
          rewrite <- app_assoc; reflexivity.
      * constructor; [reflexivity | exact F].
    + exists [DLQ.PutMetricData "WebhookReceiver/DLQ"
                (DLQ.metricData failureInfo analysis)].
      split; [rewrite Hrun; reflexivity|].
      constructor; [reflexivity | constructor].
Qed.

(** C2 at the reason "timeout" on a message sent a second ago: with a
    receive count of 1 the event is republished to its topic, with a
    receive count of 3 it is not; on a message two days old
    [shouldRetry] is false; and an entry whose event has the number 5
    for its path is not processed at all. *)
Lemma C2_witness :
  let first := Sample.entry "timeout" 1 Sample.recent in
  let third := Sample.entry "timeout" 3 Sample.recent in
  let late := Sample.entry "timeout" 1 Sample.stale in
  let numbered : Runtime.World DLQ.Call :=
    {| Runtime.reply := fun _ _ => Runtime.Resolved "ok";
       Runtime.now := fun _ => 1700000000000%Z;
       Runtime.JSON_parse :=
         fun _ =>
           Some (Runtime.JObject [("path", Runtime.JNumber 5)]) |} in
  (exists command metrics,
     Runtime.trace
       (fst (DLQ.processDLQMessage Sample.dlq_env first Sample.reading
               Sample.fresh_start))
     = [metrics; DLQ.Publish command]
     /\ DLQ.TopicArn command = "arn:aws:sns:webhook-events"
     /\ exists retry,
          DLQ.Message_ command = DLQ.RetryMessage Sample.generatives retry
          /\ DLQ.attempt retry = 1%Z)
  /\ Forall (fun c => is_retry c = false)
       (Runtime.trace
          (fst (DLQ.processDLQMessage Sample.dlq_env third Sample.reading
                  Sample.fresh_start)))
  /\ (exists analysis,
        DLQ.analyzeFailure 1700000000000 (DLQ.failureInfoOf late)
          Sample.generatives = Runtime.Returned analysis
        /\ DLQ.shouldRetry analysis = false)
  /\ (exists error,
        DLQ.processDLQMessage Sample.dlq_env first numbered
          Sample.fresh_start
        = (Sample.fresh_start, Runtime.Thrown error)).
Proof.
  intros first third late numbered.
  assert (Hnull : Sample.generatives <> Runtime.JNull) by discriminate.
  split; [|split; [|split]].
  - destruct (C2_retry_eligibility Sample.dlq_env first Sample.reading
                Sample.fresh_start Sample.generatives eq_refl eq_refl)
      as (H & _).
    destruct (H Hnull eq_refl) as (analysis & _ & _ & _ & H3 & _).
    destruct (H3 eq_refl eq_refl eq_refl) as (command & Hrun & Htopic & Hmsg).
    exists command. eexists. rewrite Hrun. split; [reflexivity|].
    split; [injection Htopic as ->; reflexivity|].
    eexists. split; [exact Hmsg | reflexivity].
  - destruct (C2_retry_eligibility Sample.dlq_env third Sample.reading
                Sample.fresh_start Sample.generatives eq_refl eq_refl)
      as (H & _).
    destruct (H Hnull eq_refl) as (analysis & _ & _ & _ & _ & H4).
    destruct H4 as (calls & -> & F); [left; vm_compute; discriminate|].
    exact F.
  - destruct (C2_retry_eligibility Sample.dlq_env late Sample.reading
                Sample.fresh_start Sample.generatives eq_refl eq_refl)
      as (H & _).
    destruct (H Hnull eq_refl) as (analysis & Ha & _ & H2 & _).
    exists analysis. split; [exact Ha | exact (H2 eq_refl)].
  - destruct (C2_retry_eligibility Sample.dlq_env first numbered
                Sample.fresh_start
                (Runtime.JObject [("path", Runtime.JNumber 5)])
                eq_refl eq_refl)
      as (_ & H).
    apply H. right. reflexivity.
Defined.

(* ================================================================= *)
(** ** Header sanitization, tracking identifiers and statistics *)

Section HeaderProperties.
Import HeadersUtil.
Local Open Scope list_scope.

Lemma obj_set_fresh (o : Headers) (key value : string) :
  ~ In key (map fst o) -> obj_set o key value = o ++ [(key, value)].
Proof.
  induction o as [|[k v] rest IH]; simpl; [reflexivity|].
  intros H. destruct (String.eqb_spec k key) as [->|Hne].
  - exfalso. apply H. left. reflexivity.
  - rewrite IH; [reflexivity|]. intros Hin. apply H. right. exact Hin.
Qed.

Lemma sanitize_fold (headers acc : Headers) :
  NoDup (map fst headers) ->
  (forall k, In k (map fst acc) -> ~ In k (map fst headers)) ->
  fold_left sanitize_step headers acc = acc ++ filter kept headers.
Proof.
  revert acc. induction headers as [|[k v] rest IH]; intros acc Hnd Hdis.
  - simpl. rewrite app_nil_r. reflexivity.
  - inversion Hnd as [|? ? Hk Hrest]; subst.
    cbn [fold_left filter].
    change (sanitize_step acc (k, v))
      with (if negb (JS.toLowerCase k =? "headers")%string
            then assign acc k v else acc).
    change (kept (k, v))
      with (negb (JS.toLowerCase k =? "headers")%string
            && negb (k =? "__proto__")%string).
    assert (Hfresh : ~ In k (map fst acc)).
    { intros Hin. apply (Hdis k Hin). left. reflexivity. }
    destruct (JS.toLowerCase k =? "headers")%string; cbn [negb andb].
    + apply IH; [exact Hrest|].
      intros k' Hin Hin'. apply (Hdis k' Hin). right. exact Hin'.
    + unfold assign. destruct (String.eqb_spec k "__proto__") as [->|Hp];
        cbn [negb].
      * apply IH; [exact Hrest|].
        intros k' Hin Hin'. apply (Hdis k' Hin). right. exact Hin'.
      * rewrite (obj_set_fresh acc k v Hfresh).
        rewrite IH; [rewrite <- app_assoc; reflexivity | exact Hrest |].
        intros k' Hin Hin'. rewrite map_app in Hin.
        apply in_app_or in Hin as [Hin|[<-|[]]].
        -- apply (Hdis k' Hin). right. exact Hin'.
        -- exact (Hk Hin').
Qed.

Lemma sanitizeHeaders_fold (headers : Headers) :
  sanitizeHeaders (Some headers) = fold_left sanitize_step headers [].
Proof. reflexivity. Qed.

Lemma NoDup_filter_keys (p : string * string -> bool) (headers : Headers) :
  NoDup (map fst headers) -> NoDup (map fst (filter p headers)).
Proof.
  induction headers as [|[k v] rest IH]; simpl; intros H; [constructor|].
  inversion H as [|? ? Hk Hrest]; subst.
  destruct (p (k, v)); simpl; [|auto].
  constructor; [|auto].
  intros Hin. apply Hk. apply in_map_iff in Hin as ([k' v'] & <- & Hin).
  apply filter_In in Hin as [Hin _]. apply in_map_iff. exists (k', v'). auto.
Qed.

Lemma filter_twice {A : Type} (p : A -> bool) (l : list A) :
  filter p (filter p l) = filter p l.
Proof.
  induction l as [|a l IH]; simpl; [reflexivity|].
  destruct (p a) eqn:E; simpl; [rewrite E, IH|]; auto.
Qed.

End HeaderProperties.

(** X1.  On the entries of an object (each key once) [sanitizeHeaders]
    is a filter: it drops the entries whose lower-cased key is "headers"
    and the entry with the key [__proto__], and keeps every other entry
    with its value, in order.  Sanitizing twice changes nothing more. *)
Theorem X1_sanitizeHeaders_is_a_filter :
  forall headers : HeadersUtil.Headers,
    NoDup (map fst headers) ->
    HeadersUtil.sanitizeHeaders (Some headers) = filter kept headers
    /\ HeadersUtil.sanitizeHeaders
         (Some (HeadersUtil.sanitizeHeaders (Some headers)))
       = HeadersUtil.sanitizeHeaders (Some headers)
    /\ (forall key value,
          In (key, value) (HeadersUtil.sanitizeHeaders (Some headers)) <->
          In (key, value) headers
          /\ JS.toLowerCase key <> "headers" /\ key <> "__proto__").
Proof.
  intros headers Hnd.
  assert (E : HeadersUtil.sanitizeHeaders (Some headers) = filter kept headers).
  { rewrite sanitizeHeaders_fold.
    rewrite (sanitize_fold headers [] Hnd); [reflexivity|].
    intros k []. }
  split; [exact E|]. split.
  - rewrite E, sanitizeHeaders_fold.
    rewrite (sanitize_fold _ [] (NoDup_filter_keys kept headers Hnd));
      [apply filter_twice|].
    intros k [].
  - intros key value. rewrite E, filter_In. unfold kept. cbn [fst].
    rewrite andb_true_iff, !negb_true_iff, !String.eqb_neq. tauto.
Qed.

(** X1 on the header map of the spec's examples: "HEADERS" goes,
    "x-headers" and "headers-test" stay. *)
Lemma X1_witness :
  HeadersUtil.sanitizeHeaders
    (Some [("Content-Type", "application/json"); ("HEADERS", "x");
           ("x-headers", "kept"); ("headers-test", "kept")])
  = [("Content-Type", "application/json"); ("x-headers", "kept");
     ("headers-test", "kept")].
Proof.
  refine (proj1 (X1_sanitizeHeaders_is_a_filter _ _)).
  repeat constructor; simpl; intuition discriminate.
Defined.

Section HeaderBounds.
Import HeadersUtil.

Lemma js_substring_length_le (s : string) (k : Z) :
  (Z.of_nat (String.length (JS.substring s 0 k)) <= Z.max 0 k)%Z.
Proof.
  destruct (Z.le_gt_cases k 0) as [H|H].
  - rewrite (js_substring_negative s k H). simpl. lia.
  - destruct (Z.le_gt_cases k (Z.of_nat (String.length s))) as [Hk|Hk].
    + destruct (js_substring_prefix s k) as [_ L]; lia.
    + unfold JS.substring, JS.clamp.
      replace (Z.max 0 (Z.min 0 (Z.of_nat (String.length s)))) with 0%Z by lia.
      replace (Z.max 0 (Z.min k (Z.of_nat (String.length s))))
        with (Z.of_nat (String.length s)) by lia.
      replace (Z.min 0 (Z.of_nat (String.length s))) with 0%Z by lia.
      replace (Z.max 0 (Z.of_nat (String.length s)) - 0)%Z
        with (Z.of_nat (String.length s)) by lia.
      rewrite Nat2Z.id. simpl Z.to_nat. rewrite substring_all. lia.
Qed.

Lemma getHeaderValue_rename (f : string -> string) (headers : Headers)
    (name : string) :
  (forall k, JS.toLowerCase (f k) = JS.toLowerCase k) ->
  getHeaderValue (rename_keys f headers) name = getHeaderValue headers name.
Proof.
  intros Hf. induction headers as [|[k v] rest IH]; simpl; [reflexivity|].
  rewrite Hf, IH. reflexivity.
Qed.

Lemma lower_char_idempotent (c : ascii) :
  JS.lower_char (JS.lower_char c) = JS.lower_char c.
Proof.
  destruct c as [[|] [|] [|] [|] [|] [|] [|] [|]]; vm_compute; reflexivity.
Qed.

Lemma toLowerCase_idempotent (s : string) :
  JS.toLowerCase (JS.toLowerCase s) = JS.toLowerCase s.
Proof.
  unfold JS.toLowerCase. induction s as [|c s IH]; simpl; [reflexivity|].
  rewrite lower_char_idempotent, IH. reflexivity.
Qed.

(** What a look-up finds is the value of a header with that name, up to
    case. *)
Lemma getHeaderValue_found (headers : Headers) (name v : string) :
  getHeaderValue headers name = Some v ->
  exists key, In (key, v) headers
              /\ JS.toLowerCase key = JS.toLowerCase name.
Proof.
  induction headers as [|[k w] rest IH]; simpl; [discriminate|].
  destruct (String.eqb_spec (JS.toLowerCase k) (JS.toLowerCase name)) as [E|E].
  - intros [= <-]. exists k. auto.
  - intros H. destruct (IH H) as (key & Hin & Hk). exists key. auto.
Qed.

(** The outcome of [a || b || randomUUID()]. *)
Lemma first_or_uuid_cases (uuid : nat -> string) (n : nat)
    (a b : option string) :
  let '(id, n') := first_or_uuid uuid n a b in
  (a = Some id /\ id <> "" /\ n' = n)
  \/ (Runtime.truthy a = false /\ b = Some id /\ id <> "" /\ n' = n)
  \/ (Runtime.truthy a = false /\ Runtime.truthy b = false
      /\ id = uuid n /\ n' = S n).
Proof.
  unfold first_or_uuid, Runtime.truthy.
  destruct a as [v|], b as [v'|];
    try destruct (String.eqb_spec v ""); try destruct (String.eqb_spec v' "");
    subst; cbn [negb]; auto 10.
Qed.

End HeaderBounds.

(** X2.  For a size limit of at least 19, [createHeadersAttribute]
    returns nothing exactly when no header is left after sanitization,
    and what it returns is a "String" attribute whose value has at most
    [maxSize] characters. *)
Theorem X2_headers_attribute_within_limit :
  forall (headers : option HeadersUtil.Headers) (maxSize : Z),
    (19 <= maxSize)%Z ->
    (HeadersUtil.createHeadersAttribute headers maxSize = None
     <-> HeadersUtil.sanitizeHeaders headers = [])
    /\ forall attribute,
         HeadersUtil.createHeadersAttribute headers maxSize = Some attribute ->
         HeadersUtil.DataType attribute = "String"
         /\ (Z.of_nat (String.length (HeadersUtil.StringValue attribute))
             <= maxSize)%Z.
Proof.
  intros headers maxSize Hmax. unfold HeadersUtil.createHeadersAttribute.
  destruct headers as [h|]; [|split; [tauto | discriminate]].
  destruct (HeadersUtil.sanitizeHeaders (Some h)) as [|kv rest] eqn:E.
  { split; [tauto | discriminate]. }
  cbn [List.length Nat.eqb].
  set (json := HeadersUtil.JSON_stringify (kv :: rest)).
  destruct (Z.of_nat (String.length json) <=? maxSize)%Z eqn:Hfit.
  - split; [split; discriminate|].
    intros a [= <-]. split; [reflexivity|]. apply Z.leb_le, Hfit.
  - split; [split; discriminate|].
    intros a [= <-]. split; [reflexivity|]. cbn [HeadersUtil.StringValue].
    rewrite string_length_app, truncation_suffix_length.
    pose proof (js_substring_length_le json (maxSize - 20)). lia.
Qed.

(** X2 with a limit of 25 on a map that serializes to 36 characters. *)
Lemma X2_witness :
  exists attribute,
    HeadersUtil.createHeadersAttribute
      (Some [("a", "bbbbbbbbbbbbbbbbbbbbbbbbbbbb")]) 25 = Some attribute
    /\ (Z.of_nat (String.length (HeadersUtil.StringValue attribute)) <= 25)%Z.
Proof.
  destruct (HeadersUtil.createHeadersAttribute
              (Some [("a", "bbbbbbbbbbbbbbbbbbbbbbbbbbbb")]) 25)
    as [attribute|] eqn:E; [|discriminate E].
  exists attribute. split; [reflexivity|].
  destruct (X2_headers_attribute_within_limit
              (Some [("a", "bbbbbbbbbbbbbbbbbbbbbbbbbbbb")]) 25) as [_ H];
    [lia|].
  exact (proj2 (H attribute E)).
Defined.

(** X3.  [extractTrackingIds] reads header names without regard to
    case: rewriting the keys by any function that keeps their lower-case
    form changes neither the identifiers nor the number of generated
    ones. *)
Theorem X3_tracking_ids_ignore_case :
  forall (uuid : nat -> string) (n : nat) (f : string -> string)
         (headers : HeadersUtil.Headers),
    (forall k, JS.toLowerCase (f k) = JS.toLowerCase k) ->
    HeadersUtil.extractTrackingIds uuid n (Some (rename_keys f headers))
    = HeadersUtil.extractTrackingIds uuid n (Some headers).
Proof.
  intros uuid n f headers Hf. unfold HeadersUtil.extractTrackingIds.
  rewrite !(getHeaderValue_rename f headers _ Hf). reflexivity.
Qed.

(** X3 with the keys put in lower case. *)
Lemma X3_witness :
  HeadersUtil.extractTrackingIds (fun _ => "generated") 0
    (Some [("x-correlation-id", "test-123"); ("request-id", "r-9")])
  = HeadersUtil.extractTrackingIds (fun _ => "generated") 0
      (Some [("X-Correlation-ID", "test-123"); ("Request-ID", "r-9")]).
Proof.
  exact (X3_tracking_ids_ignore_case (fun _ => "generated") 0 JS.toLowerCase
           [("X-Correlation-ID", "test-123"); ("Request-ID", "r-9")]
           toLowerCase_idempotent).
Defined.

(** X4.  Each identifier that [extractTrackingIds] returns is either the
    non-empty value of a header with one of its two names (the [x-]
    spelling first) or a generated one; a non-empty value under the [x-]
    spelling is always the one returned; at most two identifiers are
    generated, in order; and no identifier is empty when the generator
    gives none. *)
Theorem X4_tracking_ids_propagated_or_generated :
  forall (uuid : nat -> string) (n : nat) (headers : HeadersUtil.Headers),
    let '(ids, n') :=
      HeadersUtil.extractTrackingIds uuid n (Some headers) in
    let from_header (id a b : string) :=
      id <> ""
      /\ exists key,
           In (key, id) headers
           /\ (JS.toLowerCase key = a \/ JS.toLowerCase key = b) in
    (n <= n' <= n + 2)
    /\ (from_header (HeadersUtil.correlationId ids)
          "x-correlation-id" "correlation-id"
        \/ HeadersUtil.correlationId ids = uuid n)
    /\ (from_header (HeadersUtil.requestId ids) "x-request-id" "request-id"
        \/ exists i, n <= i < n' /\ HeadersUtil.requestId ids = uuid i)
    /\ (forall v,
          HeadersUtil.getHeaderValue headers "x-correlation-id" = Some v ->
          v <> "" -> HeadersUtil.correlationId ids = v)
    /\ (forall v,
          HeadersUtil.getHeaderValue headers "x-request-id" = Some v ->
          v <> "" -> HeadersUtil.requestId ids = v)
    /\ ((forall i, uuid i <> "") ->
        HeadersUtil.correlationId ids <> ""
        /\ HeadersUtil.requestId ids <> "").
Proof.
  intros uuid n headers. unfold HeadersUtil.extractTrackingIds.
  pose proof (first_or_uuid_cases uuid n
                (HeadersUtil.getHeaderValue headers "x-correlation-id")
                (HeadersUtil.getHeaderValue headers "correlation-id")) as C.
  destruct (HeadersUtil.first_or_uuid uuid n _ _) as [cid n1].
  pose proof (first_or_uuid_cases uuid n1
                (HeadersUtil.getHeaderValue headers "x-request-id")
                (HeadersUtil.getHeaderValue headers "request-id")) as R.
  destruct (HeadersUtil.first_or_uuid uuid n1 _ _) as [rid n2].
  cbn [HeadersUtil.correlationId HeadersUtil.requestId].
  assert (Hn1 : n <= n1 <= n + 1) by (destruct C as [C|[C|C]]; lia).
  assert (Hn2 : n1 <= n2 <= n1 + 1) by (destruct R as [R|[R|R]]; lia).
  split; [lia|]. split; [|split; [|split; [|split]]].
  - destruct C as [(E & Hne & _)|[(_ & E & Hne & _)|(_ & _ & E & _)]];
      [left|left|right; exact E];
      (split; [exact Hne|]);
      destruct (getHeaderValue_found _ _ _ E) as (key & Hin & Hk);
      exists key; split; auto.
  - destruct R as [(E & Hne & _)|[(_ & E & Hne & _)|(_ & _ & E & Hn)]].
    + left. split; [exact Hne|].
      destruct (getHeaderValue_found _ _ _ E) as (key & Hin & Hk).
      exists key; split; auto.
    + left. split; [exact Hne|].
      destruct (getHeaderValue_found _ _ _ E) as (key & Hin & Hk).
      exists key; split; auto.
    + right. exists n1. split; [lia | exact E].
  - intros v Hv Hne.
    destruct C as [(E & _ & _)|[(T & _)|(T & _)]]; [congruence| |];
      rewrite Hv in T; unfold Runtime.truthy in T;
      destruct (String.eqb_spec v ""); [contradiction|discriminate
                                        |contradiction|discriminate].
  - intros v Hv Hne.
    destruct R as [(E & _ & _)|[(T & _)|(T & _)]]; [congruence| |];
      rewrite Hv in T; unfold Runtime.truthy in T;
      destruct (String.eqb_spec v ""); [contradiction|discriminate
                                        |contradiction|discriminate].
  - intros Hu. split.
    + destruct C as [(_ & H & _)|[(_ & _ & H & _)|(_ & _ & -> & _)]]; auto.
    + destruct R as [(_ & H & _)|[(_ & _ & H & _)|(_ & _ & -> & _)]]; auto.
Qed.

(** X5.  [getHeadersStats] measures the serialization that
    [createHeadersAttribute] would send: [wouldBeTruncated] is true
    exactly when, with the default limit, the attribute differs from
    that serialization; [averageSize] is the size per header rounded to
    the nearest integer, and 0 for a map with no header left, whose size
    is that of "{}". *)
Theorem X5_stats_agree_with_attribute :
  forall headers : HeadersUtil.Headers,
    let stats := HeadersUtil.getHeadersStats (Some headers) in
    let sanitized := HeadersUtil.sanitizeHeaders (Some headers) in
    let json := HeadersUtil.JSON_stringify sanitized in
    HeadersUtil.totalSize stats = Z.of_nat (String.length json)
    /\ HeadersUtil.headerCount stats = Z.of_nat (List.length sanitized)
    /\ (HeadersUtil.wouldBeTruncated stats = Some true
        <-> exists attribute,
              HeadersUtil.createHeadersAttribute (Some headers)
                HeadersUtil.default_maxSize = Some attribute
              /\ HeadersUtil.StringValue attribute <> json)
    /\ (sanitized = [] ->
        HeadersUtil.totalSize stats = 2%Z
        /\ HeadersUtil.averageSize stats = 0%Z)
    /\ (sanitized <> [] ->
        let n := HeadersUtil.headerCount stats in
        let avg := HeadersUtil.averageSize stats in
        (2 * HeadersUtil.totalSize stats - n < 2 * n * avg
         <= 2 * HeadersUtil.totalSize stats + n)%Z).
Proof.
  intros headers stats sanitized json.
  subst stats json sanitized. unfold HeadersUtil.getHeadersStats.
  cbn [HeadersUtil.totalSize HeadersUtil.headerCount HeadersUtil.averageSize
       HeadersUtil.wouldBeTruncated].
  pose proof (createHeadersAttribute_eq headers 50000) as Hattr.
  cbv zeta in Hattr. unfold HeadersUtil.default_maxSize.
  remember (HeadersUtil.sanitizeHeaders (Some headers)) as sanitized
    eqn:Es.
  assert (Hempty : sanitized = [] ->
                   String.length (HeadersUtil.JSON_stringify sanitized) = 2%nat)
    by (intros ->; reflexivity).
  remember (HeadersUtil.JSON_stringify sanitized) as json eqn:Ej.
  split; [reflexivity|]. split; [reflexivity|]. split; [|split].
  - split.
    + intros H. assert (Hgt : (50000 < Z.of_nat (String.length json))%Z).
      { apply Z.ltb_lt. congruence. }
      assert (Hne : sanitized <> []) by (intros E; rewrite (Hempty E) in Hgt; lia).
      rewrite (Hattr Hne).
      destruct (Z.leb_spec (Z.of_nat (String.length json)) 50000); [lia|].
      eexists. split; [reflexivity|]. cbn [HeadersUtil.StringValue].
      intros E. apply (f_equal String.length) in E.
      rewrite string_length_app, truncation_suffix_length in E.
      destruct (js_substring_prefix json (50000 - 20)) as [_ L]; lia.
    + intros (a & Ha & Hdiff).
      destruct sanitized as [|kv rest] eqn:E.
      * unfold HeadersUtil.createHeadersAttribute in Ha.
        rewrite <- Es in Ha. discriminate Ha.
      * rewrite Hattr in Ha by discriminate.
        destruct (Z.leb_spec (Z.of_nat (String.length json)) 50000)
          as [Hle|Hgt].
        -- injection Ha as <-. contradiction Hdiff. reflexivity.
        -- f_equal. apply Z.ltb_lt. exact Hgt.
  - intros E. rewrite (Hempty E), E. split; reflexivity.
  - intros Hne. cbv zeta.
    assert (Hpos : (0 < Z.of_nat (List.length sanitized))%Z).
    { destruct sanitized; [contradiction|]. simpl List.length. lia. }
    apply Z.ltb_lt in Hpos as Hb. rewrite Hb. unfold HeadersUtil.round_div.
    set (a := Z.of_nat (String.length json)).
    set (b := Z.of_nat (List.length sanitized)) in *.
    pose proof (Z.div_mod (2 * a + b) (2 * b)) as D.
    pose proof (Z.mod_pos_bound (2 * a + b) (2 * b)) as M.
    nia.
Qed.

(* ================================================================= *)
(** ** More on the partition namer *)

Section NamerProperties.
Import WebhookHandler.

Lemma replace_canonical (s : string) :
  name_chars s = true -> replace_non_alnum s = s.
Proof.
  unfold name_chars, replace_non_alnum.
  induction s as [|c s IH]; simpl; [reflexivity|].
  intros H. apply andb_true_iff in H as [Hc Hs]. rewrite (IH Hs).
  destruct (JS.is_alnum c); [reflexivity|].
  simpl in Hc. apply Ascii.eqb_eq in Hc. subst c. reflexivity.
Qed.

Lemma strip_leading_id (s : string) :
  first_char s <> Some "-"%char -> strip_leading_dashes s = s.
Proof.
  destruct s as [|c s]; simpl; [reflexivity|].
  intros H. destruct (Ascii.eqb_spec c "-"); [congruence | reflexivity].
Qed.

Lemma strip_trailing_id (s : string) :
  last_char s <> Some "-"%char -> strip_trailing_dashes s = s.
Proof.
  induction s as [|c s IH]; [reflexivity|].
  intros H. cbn [strip_trailing_dashes].
  destruct s as [|d s].
  - cbn. destruct (Ascii.eqb_spec c "-"); [|reflexivity].
    subst c. contradiction H. reflexivity.
  - rewrite IH by exact H. reflexivity.
Qed.

Lemma generateCollectionName_fixes (name : string) :
  canonical name -> generateCollectionName name = name.
Proof.
  intros (Hc & Hne & Hf & Hl). unfold generateCollectionName.
  destruct (String.eqb_spec name "") as [E|_]; [contradiction|].
  destruct (String.eqb_spec name "/") as [E|_].
  { subst name. discriminate Hc. }
  cbn [orb]. rewrite (replace_canonical name Hc).
  unfold trim_dashes. rewrite (strip_leading_id name Hf).
  rewrite (strip_trailing_id name Hl).
  destruct (String.eqb_spec name ""); [contradiction | reflexivity].
Qed.

Lemma generateCollectionName_canonical (path : string) :
  canonical (generateCollectionName path).
Proof.
  destruct (generateCollectionName_cases path)
    as [[_ ->] | [(_ & _ & _ & ->) | (_ & _ & _ & Ht & ->)]].
  - repeat split; discriminate.
  - repeat split; discriminate.
  - split; [|split; [exact Ht|split; [apply trim_first | apply trim_last]]].
    unfold trim_dashes.
    apply strip_trailing_chars, strip_leading_chars, replace_chars.
Qed.

(** Characters outside [[a-zA-Z0-9]] are all replaced by the same
    dash. *)
Lemma replace_rename (f : ascii -> ascii) (path : string) :
  (forall c, JS.is_alnum c = true -> f c = c) ->
  (forall c, JS.is_alnum c = false -> JS.is_alnum (f c) = false) ->
  replace_non_alnum (JS.map_chars f path) = replace_non_alnum path.
Proof.
  intros Hkeep Hsep. unfold replace_non_alnum.
  induction path as [|c s IH]; simpl; [reflexivity|].
  rewrite IH. destruct (JS.is_alnum c) eqn:E.
  - rewrite (Hkeep c E), E. reflexivity.
  - rewrite (Hsep c E). reflexivity.
Qed.

End NamerProperties.

(** X7.  [generateCollectionName] is idempotent, and its fixed points
    are exactly the names in canonical form: non-empty, over
    [[A-Za-z0-9-]], with no dash at either end. *)
Theorem X7_generateCollectionName_idempotent :
  (forall path : string,
     WebhookHandler.generateCollectionName
       (WebhookHandler.generateCollectionName path)
     = WebhookHandler.generateCollectionName path)
  /\ (forall name : string,
        WebhookHandler.generateCollectionName name = name <-> canonical name).
Proof.
  split.
  - intros path. apply generateCollectionName_fixes.
    apply generateCollectionName_canonical.
  - intros name. split.
    + intros E. rewrite <- E. apply generateCollectionName_canonical.
    + apply generateCollectionName_fixes.
Qed.

(** X8.  The name depends on the path only through its alphanumeric
    characters and where the other characters stand: replacing each
    non-alphanumeric character by any other non-alphanumeric character
    gives the same collection, as long as neither path is the root path
    "/".  So "/a/b", "/a-b" and "/a.b" share one collection. *)
Theorem X8_separators_are_interchangeable :
  forall (f : ascii -> ascii) (path : string),
    (forall c, JS.is_alnum c = true -> f c = c) ->
    (forall c, JS.is_alnum c = false -> JS.is_alnum (f c) = false) ->
    path <> "/" -> JS.map_chars f path <> "/" ->
    WebhookHandler.generateCollectionName (JS.map_chars f path)
    = WebhookHandler.generateCollectionName path.
Proof.
  intros f path Hkeep Hsep Hp Hq. unfold WebhookHandler.generateCollectionName.
  rewrite (replace_rename f path Hkeep Hsep).
  destruct (String.eqb_spec path "/") as [E|_]; [contradiction|].
  destruct (String.eqb_spec (JS.map_chars f path) "/") as [E|_];
    [contradiction|].
  destruct path as [|c s]; reflexivity.
Qed.

(** X8 at the path "/messages/telegram" with every slash written as an
    underscore. *)
Lemma X8_witness :
  WebhookHandler.generateCollectionName "_messages_telegram"
  = WebhookHandler.generateCollectionName "/messages/telegram".
Proof.
  refine (X8_separators_are_interchangeable
            (fun c => if (c =? "/")%char then "_"%char else c)
            "/messages/telegram" _ _ _ _).
  - intros c H. destruct (Ascii.eqb_spec c "/"); [subst; discriminate H|].
    reflexivity.
  - intros c H. destruct (Ascii.eqb_spec c "/"); [reflexivity | exact H].
  - discriminate.
  - discriminate.
Defined.

(* ================================================================= *)
(** ** Configuration *)

Section ConfigProperties.
Import Runtime.

Lemma or_else_truthy (v : option string) (d : string) :
  d <> "" -> truthy (Some (or_else v d)) = true.
Proof.
  intros Hd. unfold or_else, truthy.
  destruct v as [s|].
  - destruct (String.eqb_spec s ""); cbn [negb].
    + destruct (String.eqb_spec d ""); [contradiction|reflexivity].
    + destruct (String.eqb_spec s ""); [contradiction|reflexivity].
  - destruct (String.eqb_spec d ""); [contradiction|reflexivity].
Qed.

Lemma detectEnvironment_cases (functionName : string) :
  Config.detectEnvironment functionName = "dev"
  \/ Config.detectEnvironment functionName = "prod"
  \/ Config.detectEnvironment functionName = "unknown".
Proof.
  unfold Config.detectEnvironment.
  destruct (JS.includes functionName "dev"); [auto|].
  destruct (JS.includes functionName "prod"); auto.
Qed.

Lemma getConfig_cases :
  forall env : Config.Env,
    Config.getConfig env
    = if Runtime.truthy (Config.MONGODB_URI_PARAMETER env) then
        Runtime.Returned
          {| Config.aws :=
               {| Config.region :=
                    Runtime.or_else (Config.AWS_REGION env) "ap-southeast-3";
                  Config.snsTopicArn := Config.SNS_TOPIC_ARN env;
                  Config.mongodbUriParameter :=
                    Config.MONGODB_URI_PARAMETER env |};
             Config.webhook :=
               {| Config.allowedMethods := ["POST"; "PUT"; "PATCH"; "DELETE"];
                  Config.maxHeaderSize := 50000;
                  Config.maxRetries := 3;
                  Config.messageAgeHours := 24 |};
             Config.environment :=
               Config.detectEnvironment
                 (Runtime.or_else (Config.AWS_LAMBDA_FUNCTION_NAME env) "") |}
      else
        Runtime.Thrown
          "Missing required configuration: MONGODB_URI_PARAMETER".
Proof.
  intros env. unfold Config.getConfig, Config.construct, Config.missing.
  cbn [filter map fst snd Config.region Config.mongodbUriParameter].
  rewrite or_else_truthy by discriminate. cbn [negb].
  destruct (Runtime.truthy (Config.MONGODB_URI_PARAMETER env)); reflexivity.
Qed.

End ConfigProperties.

(** X9.  The configuration is built exactly when MONGODB_URI_PARAMETER
    is set to a non-empty string; otherwise the constructor throws, and
    the message names that variable alone: AWS_REGION has a default and
    is never reported missing.  SNS_TOPIC_ARN is optional, and
    [isSNSConfigured] tells whether it is set. *)
Theorem X9_configuration_validation :
  forall env : Config.Env,
    Config.getConfig env
    = if Runtime.truthy (Config.MONGODB_URI_PARAMETER env) then
        Runtime.Returned
          {| Config.aws :=
               {| Config.region :=
                    Runtime.or_else (Config.AWS_REGION env) "ap-southeast-3";
                  Config.snsTopicArn := Config.SNS_TOPIC_ARN env;
                  Config.mongodbUriParameter :=
                    Config.MONGODB_URI_PARAMETER env |};
             Config.webhook :=
               {| Config.allowedMethods := ["POST"; "PUT"; "PATCH"; "DELETE"];
                  Config.maxHeaderSize := 50000;
                  Config.maxRetries := 3;
                  Config.messageAgeHours := 24 |};
             Config.environment :=
               Config.detectEnvironment
                 (Runtime.or_else (Config.AWS_LAMBDA_FUNCTION_NAME env) "") |}
      else
        Runtime.Thrown
          "Missing required configuration: MONGODB_URI_PARAMETER".
Proof.
  intros env. unfold Config.getConfig, Config.construct, Config.missing.
  cbn [filter map fst snd Config.region Config.mongodbUriParameter].
  rewrite or_else_truthy by discriminate. cbn [negb].
  destruct (Runtime.truthy (Config.MONGODB_URI_PARAMETER env)); reflexivity.
Qed.

(** X10.  The database name is "dev-webhook", "prod-webhook" or
    "unknown-webhook", "dev" winning when the function name contains
    both markers; and the two handlers name the same database whenever
    the function name of the context is the one of the environment. *)
Theorem X10_database_name :
  forall (env : Config.Env) (config : Config.Config)
         (context : Lambda.Context),
    Config.getConfig env = Runtime.Returned config ->
    let functionName :=
      Runtime.or_else (Config.AWS_LAMBDA_FUNCTION_NAME env) "" in
    In (Config.getDatabaseName config)
       ["dev-webhook"; "prod-webhook"; "unknown-webhook"]
    /\ (JS.includes functionName "dev" = true ->
        Config.getDatabaseName config = "dev-webhook")
    /\ (JS.includes functionName "dev" = false ->
        JS.includes functionName "prod" = true ->
        Config.getDatabaseName config = "prod-webhook")
    /\ (Lambda.functionName context = Config.AWS_LAMBDA_FUNCTION_NAME env ->
        Monolith.generateDatabaseName
          (Config.detectEnvironment
             (Runtime.or_else (Lambda.functionName context) ""))
        = Config.getDatabaseName config).
Proof.
  intros env config context Hcfg functionName.
  rewrite getConfig_cases in Hcfg.
  destruct (Runtime.truthy (Config.MONGODB_URI_PARAMETER env));
    [|discriminate Hcfg].
  injection Hcfg as <-. unfold Config.getDatabaseName, Monolith.generateDatabaseName.
  cbn [Config.environment]. fold functionName.
  split; [|split; [|split]].
  - destruct (detectEnvironment_cases functionName) as [-> | [-> | ->]];
      simpl; auto.
  - intros H. unfold Config.detectEnvironment. rewrite H. reflexivity.
  - intros H1 H2. unfold Config.detectEnvironment. rewrite H1, H2.
    reflexivity.
  - intros ->. reflexivity.
Qed.

(** X10 for the production function. *)
Lemma X10_witness :
  exists config,
    Config.getConfig Sample.env = Runtime.Returned config
    /\ Config.getDatabaseName config = "prod-webhook".
Proof.
  destruct (Config.getConfig Sample.env) as [config|e] eqn:E;
    [|discriminate E].
  exists config. split; [reflexivity|].
  destruct (X10_database_name Sample.env config Sample.context E)
    as (_ & _ & H & _).
  apply H; reflexivity.
Defined.

(* ================================================================= *)
(** ** More on header validation *)

Section ValidationSoundness.
Import HeadersUtil.
Local Open Scope list_scope.

Lemma justified_cons (kv : string * string) (rest : Headers)
    (issue : string) :
  justified rest issue -> justified (kv :: rest) issue.
Proof.
  intros (k & v & Hin & H). exists k, v. split; [right; exact Hin | exact H].
Qed.

Lemma check_headers_sound (entries : Headers) :
  forall i : nat,
    (forall issue, In issue (check_headers (patterns_at i) entries) ->
                   justified entries issue)
    /\ (List.length (check_headers (patterns_at i) entries)
        <= 4 * List.length entries)%nat.
Proof.
  induction entries as [|[k v] rest IH]; intros i.
  - split; [intros ? []| cbn; lia].
  - cbn [check_headers].
    destruct (check_header_at i k v) as (found & j & E & Hs & Hn & _).
    rewrite E. destruct (IH j) as [IHin IHlen]. split.
    + intros issue Hin. apply in_app_or in Hin as [Hin|Hin];
        [|apply justified_cons, IHin, Hin].
      exists k, v. split; [left; reflexivity|].
      apply in_app_or in Hin as [Hin|Hin].
      { unfold too_long_issue in Hin.
        destruct (8192 <? Z.of_nat (String.length v))%Z eqn:L;
          [|destruct Hin].
        destruct Hin as [<-|[]]. left. split; [reflexivity|].
        apply Z.ltb_lt, L. }
      apply in_app_or in Hin as [Hin|Hin].
      { unfold script_issue in Hin.
        destruct (has_script v || has_script k)%bool eqn:L; [|destruct Hin].
        destruct Hin as [<-|[]]. right. left. split; [reflexivity|].
        apply orb_true_iff, L. }
      apply in_app_or in Hin as [Hin|Hin].
      { destruct Hs as [->| ->]; [destruct Hin|].
        destruct Hin as [<-|[]]. right. right. left. split; [reflexivity|].
        destruct (has_html_tag v) eqn:Tv; [left; reflexivity|].
        destruct (has_html_tag k) eqn:Tk; [right; reflexivity|].
        specialize (Hn eq_refl eq_refl). discriminate Hn. }
      unfold javascript_issue in Hin.
      destruct (has_javascript v || has_javascript k)%bool eqn:L;
        [|destruct Hin].
      destruct Hin as [<-|[]]. right. right. right. split; [reflexivity|].
      apply orb_true_iff, L.
    + rewrite !length_app.
      assert (List.length (too_long_issue k v) <= 1)%nat
        by (unfold too_long_issue; destruct (_ <? _)%Z; cbn; lia).
      assert (List.length (script_issue k v) <= 1)%nat
        by (unfold script_issue; destruct (_ || _)%bool; cbn; lia).
      assert (List.length (javascript_issue k v) <= 1)%nat
        by (unfold javascript_issue; destruct (_ || _)%bool; cbn; lia).
      assert (List.length found <= 1)%nat
        by (destruct Hs as [->| ->]; cbn; lia).
      cbn [List.length]. lia.
Qed.

End ValidationSoundness.

(** X6.  [validateHeaders] reports nothing that is not there: every
    issue of the result is the length issue of an entry whose value is
    longer than 8192, or the issue of one of the three patterns for an
    entry whose key or value contains it; an entry gives at most four
    issues; and the result is valid exactly when the list is empty. *)
Theorem X6_validateHeaders_reports_only_findings :
  forall headers : HeadersUtil.Headers,
    let result := HeadersUtil.validateHeaders (Some headers) in
    (forall issue, In issue (HeadersUtil.issues result) ->
                   justified headers issue)
    /\ (List.length (HeadersUtil.issues result)
        <= 4 * List.length headers)%nat
    /\ (HeadersUtil.isValid result = true
        <-> HeadersUtil.issues result = []).
Proof.
  intros headers result. subst result. unfold HeadersUtil.validateHeaders.
  cbn [HeadersUtil.issues HeadersUtil.isValid]. rewrite patterns_at_zero.
  destruct (check_headers_sound headers 0) as [A B].
  split; [exact A|]. split; [exact B|].
  destruct (HeadersUtil.check_headers (patterns_at 0) headers);
    cbn; split; congruence.
Qed.

(* ================================================================= *)
(** ** More on the request path *)

Section RequestProperties.
Import Runtime.
Local Open Scope js_scope.
Local Open Scope list_scope.

(** The store branch of the monolith from a state where the client
    object exists: the insert alone. *)
Lemma mongoOperation_connected (mongoUri databaseName collectionName : string)
    (eventData : EventData.t) (w : World Http.Call)
    (s : State Http.Call Http.Globals) :
  Http.mongoClient (globals s) <> None ->
  exists r,
    Monolith.mongoOperation mongoUri databaseName collectionName eventData
      w s
    = (called s (Http.MongoInsert databaseName collectionName eventData),
       Returned r).
Proof.
  intros H. unfold Monolith.mongoOperation, Monolith.connect,
    Monolith.storeWebhookEvent, called.
  run. destruct (Http.mongoClient (globals s)); [|contradiction]. run.
  destruct (reply w (trace s)
              (Http.MongoInsert databaseName collectionName eventData));
    eexists; reflexivity.
Qed.


Lemma snsOperation_unsent (topicArn environment : string)
    (eventData : EventData.t) (w : World Http.Call)
    (s : State Http.Call Http.Globals) :
  MonolithSNS.datadogTraceId
    (EventData.headers (EventData.transport eventData)) = None ->
  MonolithSNS.snsOperation topicArn eventData environment w s
  = (s, Returned
          {| Http.success := false; Http.operation := "sns";
             Http.error :=
               Some "SNS publish failed: correlationId is not defined" |}).
Proof.
  unfold MonolithSNS.datadogTraceId, MonolithSNS.snsOperation. intros H.
  rewrite monolith_snsOperation_spec, H. reflexivity.
Qed.

(** The run of the monolithic handler on a request that is not a GET and
    has no trace header. *)
Lemma monolith_unsent_run (env : Config.Env) (event : Lambda.Event)
    (context : Lambda.Context) (w : World Http.Call)
    (s : State Http.Call Http.Globals) :
  is_GET (Lambda.method_of event) = false ->
  truthy (Config.SNS_TOPIC_ARN env) = true ->
  MonolithSNS.datadogTraceId (coalesce (Lambda.headers event) []) = None ->
  match Monolith.resolveMongoUri env w s with
  | (s1, Thrown e) =>
      MonolithSNS.handler env event context w s
      = (s1, Returned (WebhookHandler.error_response context e))
  | (s1, Returned mongoUri) =>
      exists eventData s2 mongoResult,
        Monolith.mongoOperation mongoUri
          (Monolith.generateDatabaseName
             (Config.detectEnvironment
                (or_else (Lambda.functionName context) "")))
          (WebhookHandler.generateCollectionName
             (coalesce (Lambda.path event) "/")) eventData w s1
        = (s2, Returned mongoResult)
        /\ MonolithSNS.handler env event context w s
           = (s2,
              Returned
                (settled_response context
                   (Monolith.generateDatabaseName
                      (Config.detectEnvironment
                         (or_else (Lambda.functionName context) "")))
                   (WebhookHandler.generateCollectionName
                      (coalesce (Lambda.path event) "/"))
                   (Http.success mongoResult) false
                   (now w (trace s2) - now w (trace s1))))
  end.
Proof.
  unfold MonolithSNS.datadogTraceId, MonolithSNS.handler.
  intros Hgate Htopic Hid.
  destruct (monolith_handler_run env event context w s Hgate)
    as (ed & _ & R).
  destruct (Monolith.resolveMongoUri env w s) as [s1 [uri|e]];
    [|exact R].
  cbv zeta in R. destruct R as (s2 & mr & Hm & _ & R).
  rewrite Htopic, Hid in R. exists ed, s2, mr. split; [exact Hm | exact R].
Qed.




(** What the entry-point handler does once the secret is resolved. *)
Lemma modular_after_secret (env : Config.Env) (config : Config.Config)
    (event : Lambda.Event) (context : Lambda.Context)
    (w : World Http.Call) (s : State Http.Call Http.Globals) :
  Config.getConfig env = Returned config ->
  allowed (Lambda.method_of event) = true ->
  exists eventData,
    WebhookHandler.extractEventData event w s = (s, Returned eventData)
    /\ match WebhookHandler.resolveMongoUri
               (coalesce (Config.mongodbUriParameter (Config.aws config)) "")
               w s with
       | (s1, Thrown e) =>
           WebhookHandler.handler env event context w s
           = (s1, Returned (WebhookHandler.error_response context e))
       | (s1, Returned _) =>
           exists s' response,
             WebhookHandler.handler env event context w s
             = (s', Returned response)
             /\ trace s'
                = trace s1
                    ++ (if Config.isSNSConfigured config then
                          [Http.SNSPublish
                             (coalesce
                                (Config.snsTopicArn (Config.aws config)) "")
                             eventData (Config.environment config)]
                        else [])
             /\ globals s' = globals s1
       end.
Proof.
  intros Hcfg Hgate.
  destruct (modular_handler_run env config event context w s Hcfg Hgate)
    as (ed & Hed & R).
  exists ed. split; [exact Hed|].
  destruct (WebhookHandler.resolveMongoUri _ w s) as [s1 [uri|e]];
    [|exact R].
  cbv zeta in R. destruct (Config.isSNSConfigured config).
  - do 2 eexists. split; [exact R|]. split; reflexivity.
  - do 2 eexists. split; [exact R|].
    split; [symmetry; apply app_nil_r | reflexivity].
Qed.

End RequestProperties.

(** X11.  [extractEventData] never throws and calls no collaborator.
    The event is tagged "application/json" exactly when the body is not
    empty and parses, and then carries the parsed value; in every other
    case it is tagged "text/plain" and carries the body as it came (the
    empty string when the request has none).  The time stamp is the
    clock at the call, and a request without path, method or address is
    given "/", "UNKNOWN" and "unknown". *)
Theorem X11_extractEventData_payload :
  forall (event : Lambda.Event) (w : Runtime.World Http.Call)
         (s : Runtime.State Http.Call Http.Globals),
    let body := Runtime.coalesce (Lambda.body event) "" in
    exists eventData,
      WebhookHandler.extractEventData event w s
      = (s, Runtime.Returned eventData)
      /\ (EventData.type eventData = "application/json"
          <-> body <> ""
              /\ Runtime.JSON_parse w (Runtime.JString body) <> None)
      /\ (forall v,
            body <> "" ->
            Runtime.JSON_parse w (Runtime.JString body) = Some v ->
            EventData.payload eventData = EventData.Parsed v)
      /\ (EventData.type eventData <> "application/json" ->
          EventData.type eventData = "text/plain"
          /\ EventData.payload eventData = EventData.Raw body)
      /\ EventData.timestamp eventData = Runtime.now w (Runtime.trace s)
      /\ EventData.path (EventData.transport eventData)
         = Runtime.coalesce (Lambda.path event) "/"
      /\ EventData.method (EventData.transport eventData)
         = Runtime.coalesce (Lambda.method_of event) "UNKNOWN"
      /\ EventData.sourceIp (EventData.transport eventData)
         = Runtime.coalesce (Lambda.sourceIp_of event) "unknown".
Proof.
  intros event w s body. unfold WebhookHandler.extractEventData. run.
  fold body. destruct (String.eqb_spec body "") as [E|E].
  - eexists. split; [reflexivity|]. cbn.
    split; [split; [discriminate | intros [H _]; contradiction]|].
    split; [intros v H; contradiction|].
    split; [intros _; split; reflexivity|].
    repeat split; reflexivity.
  - destruct (Runtime.JSON_parse w (Runtime.JString body)) as [j|] eqn:P.
    + eexists. split; [reflexivity|]. cbn.
      split; [split; [intros _; split; [exact E|discriminate]
                     | reflexivity]|].
      split; [intros v _ [= <-]; reflexivity|].
      split; [intros H; contradiction H; reflexivity|].
      repeat split; reflexivity.
    + eexists. split; [reflexivity|]. cbn.
      split; [split; [discriminate | intros [_ H]; contradiction]|].
      split; [intros v _ H; discriminate H|].
      split; [intros _; split; reflexivity|].
      repeat split; reflexivity.
Qed.

(** X12.  Without a valid configuration the entry-point handler still
    answers a GET with 405; for every other request the method check
    itself throws, outside the [try] of [processWebhook]: the handler
    rejects with the configuration error instead of answering 500, and
    no collaborator is called. *)
Theorem X12_gate_without_configuration :
  forall (env : Config.Env) (event : Lambda.Event)
         (context : Lambda.Context) (w : Runtime.World Http.Call)
         (s : Runtime.State Http.Call Http.Globals),
    Runtime.truthy (Config.MONGODB_URI_PARAMETER env) = false ->
    Index.handler env event context w s
    = if is_GET (Lambda.method_of event) then
        (s, Runtime.Returned
              (WebhookHandler.not_allowed context
                 "GET requests are not supported by this webhook endpoint"))
      else
        (s, Runtime.Thrown
              "Missing required configuration: MONGODB_URI_PARAMETER").
Proof.
  intros env event context w s H.
  unfold Index.handler, WebhookHandler.handler, WebhookHandler.validateMethod.
  fold (is_GET (Lambda.method_of event)).
  rewrite getConfig_cases, H.
  destruct (is_GET (Lambda.method_of event)); reflexivity.
Qed.

(** X12 for a POST when the parameter name is not set. *)
Lemma X12_witness :
  Index.handler
    {| Config.AWS_REGION := None;
       Config.SNS_TOPIC_ARN := Some "arn:aws:sns:webhook-events";
       Config.MONGODB_URI_PARAMETER := None;
       Config.AWS_LAMBDA_FUNCTION_NAME := None |}
    (Sample.request "POST" "/generatives" "{}") Sample.context
    Sample.calm Sample.cold
  = (Sample.cold,
     Runtime.Thrown "Missing required configuration: MONGODB_URI_PARAMETER").
Proof.
  exact (X12_gate_without_configuration
           {| Config.AWS_REGION := None;
              Config.SNS_TOPIC_ARN := Some "arn:aws:sns:webhook-events";
              Config.MONGODB_URI_PARAMETER := None;
              Config.AWS_LAMBDA_FUNCTION_NAME := None |}
           (Sample.request "POST" "/generatives" "{}") Sample.context
           Sample.calm Sample.cold eq_refl).
Defined.

(** X13.  The calls of the entry-point handler on a permitted request.
    The parameter store is asked only when no secret is kept in the
    global and the cache of the parameter service holds no entry for it
    younger than five minutes; a cached entry is used without a call.
    The value obtained is kept in the global, and a fetched one in the
    cache as well.  A rejected fetch ends the request with the 500
    response, whose error is the reason under the prefix of the service,
    and keeps nothing.  After that at most the publish follows, and the
    store is never contacted. *)
Theorem X13_modular_handler_calls :
  forall (env : Config.Env) (config : Config.Config) (event : Lambda.Event)
         (context : Lambda.Context) (w : Runtime.World Http.Call)
         (s : Runtime.State Http.Call Http.Globals),
    Config.getConfig env = Runtime.Returned config ->
    allowed (Lambda.method_of event) = true ->
    let name :=
      Runtime.coalesce (Config.mongodbUriParameter (Config.aws config)) "" in
    let fetch := secret_command name in
    let key := SSMService.cacheKey name true in
    let cache := Http.ssmCache (Runtime.globals s) in
    let served :=
      match SSMService.cache_get cache key with
      | Some cached =>
          if fresh (Runtime.now w (Runtime.trace s)) cached
          then Some (SSMService.value cached) else None
      | None => None
      end in
    let swept :=
      match SSMService.cache_get cache key with
      | Some _ => SSMService.cache_delete cache key
      | None => cache
      end in
    exists eventData s' response,
      WebhookHandler.extractEventData event w s
      = (s, Runtime.Returned eventData)
      /\ Index.handler env event context w s
         = (s', Runtime.Returned response)
      /\ (forall c, In c (Runtime.trace s') -> is_store_call c = true ->
                    In c (Runtime.trace s))
      /\ let publish :=
           if Config.isSNSConfigured config then
             [Http.SNSPublish
                (Runtime.coalesce (Config.snsTopicArn (Config.aws config)) "")
                eventData (Config.environment config)]
           else [] in
         if Runtime.truthy (Http.mongoUri (Runtime.globals s)) then
           Runtime.trace s' = (Runtime.trace s ++ publish)%list
           /\ Runtime.globals s' = Runtime.globals s
         else
           match served with
           | Some value =>
               Runtime.trace s' = (Runtime.trace s ++ publish)%list
               /\ Runtime.globals s'
                  = with_mongoUri (Runtime.globals s) value
           | None =>
               match Runtime.reply w (Runtime.trace s) fetch with
               | Runtime.Resolved value =>
                   Runtime.trace s'
                   = (Runtime.trace s ++ fetch :: publish)%list
                   /\ Runtime.globals s'
                      = with_mongoUri
                          (Http.with_ssmCache (Runtime.globals s)
                             (SSMService.cache_set swept key
                                {| SSMService.value := value;
                                   SSMService.timestamp :=
                                     Runtime.now w
                                       (Runtime.trace s ++ [fetch])%list |}))
                          value
               | Runtime.Rejected e =>
                   Runtime.trace s' = (Runtime.trace s ++ [fetch])%list
                   /\ Runtime.globals s'
                      = Http.with_ssmCache (Runtime.globals s) swept
                   /\ response
                      = WebhookHandler.error_response context
                          ("SSM parameter retrieval failed: " ++ e)
               end
           end.
Proof.
  intros env config event context w s Hcfg Hgate name fetch key cache
    served swept.
  destruct (modular_after_secret env config event context w s Hcfg Hgate)
    as (ed & Hed & R).
  unfold Index.handler. fold name in R.
  rewrite resolveMongoUri_spec, ssm_getParameter_run in R.
  cbv zeta in R. fold key in R. fold cache in R.
  exists ed.
  set (publish :=
         if Config.isSNSConfigured config then
           [Http.SNSPublish
              (Runtime.coalesce (Config.snsTopicArn (Config.aws config)) "")
              ed (Config.environment config)]
         else []) in *.
  assert (Hpublish : forall d, In d publish -> is_store_call d = false).
  { unfold publish. destruct (Config.isSNSConfigured config);
      [intros d [<-|[]]; reflexivity | intros d []]. }
  assert (Hstore : forall (l : list Http.Call) c,
            In c (Runtime.trace s ++ l)%list -> is_store_call c = true ->
            (forall d, In d l -> is_store_call d = false) ->
            In c (Runtime.trace s)).
  { intros l c Hin Hc Hl. apply in_app_or in Hin as [Hin|Hin];
      [exact Hin|]. rewrite (Hl c Hin) in Hc. discriminate Hc. }
  destruct (Runtime.truthy (Http.mongoUri (Runtime.globals s))).
  { destruct R as (s' & response & Hrun & Ht & Hg).
    exists s', response. split; [exact Hed|]. split; [exact Hrun|].
    split; [|split; assumption].
    intros c Hin Hc. rewrite Ht in Hin. exact (Hstore _ c Hin Hc Hpublish). }
  assert (Hfetch : forall cache0,
            match
              (let (s1, r) := fetched w s name cache0 in
               match r with
               | Runtime.Returned value =>
                   ({| Runtime.trace := Runtime.trace s1;
                       Runtime.globals :=
                         with_mongoUri (Runtime.globals s1) value |},
                    Runtime.Returned value)
               | Runtime.Thrown e => (s1, Runtime.Thrown e)
               end)
            with
            | (s1, Runtime.Thrown e) =>
                WebhookHandler.handler env event context w s
                = (s1, Runtime.Returned
                         (WebhookHandler.error_response context e))
            | (s1, Runtime.Returned _) =>
                exists s' response,
                  WebhookHandler.handler env event context w s
                  = (s', Runtime.Returned response)
                  /\ Runtime.trace s' = (Runtime.trace s1 ++ publish)%list
                  /\ Runtime.globals s' = Runtime.globals s1
            end ->
            exists s' response,
              WebhookHandler.handler env event context w s
              = (s', Runtime.Returned response)
              /\ (forall c, In c (Runtime.trace s') ->
                            is_store_call c = true ->
                            In c (Runtime.trace s))
              /\ match Runtime.reply w (Runtime.trace s) fetch with
                 | Runtime.Resolved value =>
                     Runtime.trace s'
                     = (Runtime.trace s ++ fetch :: publish)%list
                     /\ Runtime.globals s'
                        = with_mongoUri
                            (Http.with_ssmCache (Runtime.globals s)
                               (SSMService.cache_set cache0 key
                                  {| SSMService.value := value;
                                     SSMService.timestamp :=
                                       Runtime.now w
                                         (Runtime.trace s ++ [fetch])%list |}))
                            value
                 | Runtime.Rejected e =>
                     Runtime.trace s' = (Runtime.trace s ++ [fetch])%list
                     /\ Runtime.globals s'
                        = Http.with_ssmCache (Runtime.globals s) cache0
                     /\ response
                        = WebhookHandler.error_response context
                            ("SSM parameter retrieval failed: " ++ e)
                 end).
  { intros cache0. unfold fetched. cbv zeta. fold fetch. fold key.
    destruct (Runtime.reply w (Runtime.trace s) fetch) as [value|e].
    - intros (s' & response & Hrun & Ht & Hg).
      cbn [Runtime.trace Runtime.globals] in Ht, Hg.
      rewrite <- app_assoc in Ht. cbn [app] in Ht.
      exists s', response. split; [exact Hrun|]. split; [|split; assumption].
      intros c Hin Hc. rewrite Ht in Hin. apply (Hstore _ c Hin Hc).
      intros d [<-|Hd]; [reflexivity | exact (Hpublish d Hd)].
    - intros Hrun. do 2 eexists. split; [exact Hrun|].
      cbn [Runtime.trace Runtime.globals].
      split; [|repeat split; reflexivity].
      intros c Hin Hc. apply (Hstore _ c Hin Hc).
      intros d [<-|[]]. reflexivity. }
  subst served swept.
  destruct (SSMService.cache_get cache key) as [cached|].
  - destruct (fresh (Runtime.now w (Runtime.trace s)) cached).
    + destruct R as (s' & response & Hrun & Ht & Hg).
      cbn [Runtime.trace Runtime.globals] in Ht, Hg.
      exists s', response. split; [exact Hed|]. split; [exact Hrun|].
      split; [|split; assumption].
      intros c Hin Hc. rewrite Ht in Hin. exact (Hstore _ c Hin Hc Hpublish).
    + destruct (Hfetch _ R) as (s' & response & Hrun & Hs & H).
      exists s', response. auto.
  - destruct (Hfetch _ R) as (s' & response & Hrun & Hs & H).
    exists s', response. auto.
Qed.

(** X13 on a cold start: one fetch, then the publish; the secret is then
    in the global and in the cache of the service. *)
Lemma X13_witness :
  exists eventData s' response,
    Index.handler Sample.env (Sample.request "POST" "/generatives" "{}")
      Sample.context Sample.calm Sample.cold
    = (s', Runtime.Returned response)
    /\ Runtime.trace s'
       = [secret_command "/webhook/receiver/prod/mongodb-uri";
          Http.SNSPublish "arn:aws:sns:webhook-events" eventData "prod"]
    /\ Http.mongoUri (Runtime.globals s') = Some "ok"
    /\ SSMService.cache_get (Http.ssmCache (Runtime.globals s'))
         "/webhook/receiver/prod/mongodb-uri:true"
       = Some {| SSMService.value := "ok";
                 SSMService.timestamp := 1700000000000 |}.
Proof.
  destruct (Config.getConfig Sample.env) as [config|m] eqn:Hcfg;
    [|discriminate Hcfg].
  destruct (X13_modular_handler_calls Sample.env config
              (Sample.request "POST" "/generatives" "{}") Sample.context
              Sample.calm Sample.cold Hcfg eq_refl)
    as (ed & s' & r & _ & Hrun & _ & H).
  injection Hcfg as <-. cbn in H. destruct H as [Ht Hg].
  exists ed, s', r. split; [exact Hrun|]. split; [exact Ht|].
  rewrite Hg. split; reflexivity.
Defined.

(** X14.  The store branch of the monolith from an empty global.  When
    the construction of the client throws (a malformed connection
    string) the branch fails, the global stays empty, and the next
    invocation constructs again.  When the client is constructed it is
    put in the global before [connect()] is awaited and stays there
    even if [connect()] rejects: the branch then fails, and every later
    store branch of the container finds the client, skips construction
    and connection, and sends only the insert.  In both failures the
    error is the reason after "MongoDB connection failed: ". *)
Theorem X14_failed_connection_is_kept :
  forall (mongoUri databaseName collectionName : string)
         (eventData : EventData.t) (w : Runtime.World Http.Call)
         (s : Runtime.State Http.Call Http.Globals),
    Http.mongoClient (Runtime.globals s) = None ->
    let construct := Http.MongoClientNew mongoUri in
    let connect := Http.MongoConnect mongoUri in
    let failure (e : string) :=
      {| Http.success := false; Http.operation := "mongodb";
         Http.error := Some ("MongoDB connection failed: " ++ e) |} in
    exists s' result,
      Monolith.mongoOperation mongoUri databaseName collectionName eventData
        w s
      = (s', Runtime.Returned result)
      /\ match Runtime.reply w (Runtime.trace s) construct with
         | Runtime.Rejected e =>
             result = failure e
             /\ Runtime.trace s' = (Runtime.trace s ++ [construct])%list
             /\ Runtime.globals s' = Runtime.globals s
         | Runtime.Resolved _ =>
             Http.mongoClient (Runtime.globals s') = Some mongoUri
             /\ match Runtime.reply w (Runtime.trace s ++ [construct])%list
                        connect with
                | Runtime.Rejected e =>
                    result = failure e
                    /\ Runtime.trace s'
                       = (Runtime.trace s ++ [construct; connect])%list
                | Runtime.Resolved _ =>
                    Runtime.trace s'
                    = (Runtime.trace s
                         ++ [construct; connect;
                             Http.MongoInsert databaseName collectionName
                               eventData])%list
                end
             /\ forall (uri2 db2 coll2 : string) (ed2 : EventData.t)
                       (w2 : Runtime.World Http.Call)
                       (s2 : Runtime.State Http.Call Http.Globals),
                  Runtime.globals s2 = Runtime.globals s' ->
                  exists r,
                    Monolith.mongoOperation uri2 db2 coll2 ed2 w2 s2
                    = (Runtime.called s2 (Http.MongoInsert db2 coll2 ed2),
                       Runtime.Returned r)
         end.
Proof.
  intros mongoUri databaseName collectionName eventData w s Hnone
    construct connect failure.
  unfold Monolith.mongoOperation, Monolith.connect,
    Monolith.storeWebhookEvent.
  run. rewrite Hnone. run. fold construct.
  destruct (Runtime.reply w (Runtime.trace s) construct) as [v|e]; run.
  - fold connect.
    destruct (Runtime.reply w (Runtime.trace s ++ [construct])%list connect)
      as [v'|e]; run.
    + destruct (Runtime.reply w _
                  (Http.MongoInsert databaseName collectionName eventData));
        (do 2 eexists; split; [reflexivity|];
         cbn [Runtime.trace Runtime.globals Http.mongoClient];
         split; [reflexivity|];
         split; [rewrite <- !app_assoc; reflexivity|];
         intros uri2 db2 coll2 ed2 w2 s2 Hg;
         apply mongoOperation_connected; rewrite Hg; discriminate).
    + do 2 eexists. split; [reflexivity|].
      cbn [Runtime.trace Runtime.globals Http.mongoClient].
      split; [reflexivity|].
      split; [split; [reflexivity | rewrite <- app_assoc; reflexivity]|].
      intros uri2 db2 coll2 ed2 w2 s2 Hg.
      apply mongoOperation_connected. rewrite Hg. discriminate.
  - do 2 eexists. split; [reflexivity|].
    cbn [Runtime.trace Runtime.globals]. repeat split.
Qed.

(** X14 on a cold start where the server cannot be reached: the client
    is kept. *)
Lemma X14_witness :
  let w : Runtime.World Http.Call :=
    {| Runtime.reply :=
         fun _ c => match c with
                    | Http.MongoConnect _ => Runtime.Rejected "ECONNREFUSED"
                    | _ => Runtime.Resolved "ok"
                    end;
       Runtime.now := fun _ => 0%Z;
       Runtime.JSON_parse := fun _ => None |} in
  let eventData :=
    {| EventData.timestamp := 0; EventData.source := "";
       EventData.transport :=
         {| EventData.method := "POST"; EventData.path := "/generatives";
            EventData.headers := [];
            EventData.queryStringParameters := [];
            EventData.sourceIp := "unknown" |};
       EventData.payload := EventData.Raw "";
       EventData.type := "text/plain";
       EventData.isBase64Encoded := false |} in
  exists s',
    Monolith.mongoOperation "mongodb://db" "prod-webhook" "generatives"
      eventData w Sample.cold
    = (s', Runtime.Returned
             {| Http.success := false; Http.operation := "mongodb";
                Http.error :=
                  Some "MongoDB connection failed: ECONNREFUSED" |})
    /\ Http.mongoClient (Runtime.globals s') = Some "mongodb://db".
Proof.
  intros w eventData.
  destruct (X14_failed_connection_is_kept "mongodb://db" "prod-webhook"
              "generatives" eventData w Sample.cold eq_refl)
    as (s' & result & Hrun & H).
  cbn in H. destruct H as (Hc & [-> _] & _).
  exists s'. split; [exact Hrun | exact Hc].
Defined.

(** X15.  The publish command of the monolith gives the attribute
    [x-datadog-trace-id] the value [datadogTraceId || correlationId],
    and no [correlationId] is in scope there.  So for a request that
    has neither an [x-datadog-trace-id] nor an [X-Datadog-Trace-Id]
    header with a non-empty value, building the command throws, nothing
    is published, and whenever the secret resolves the answer is the 200
    response with the publish reported as failed. *)
Theorem X15_monolith_publish_needs_trace_header :
  forall (env : Config.Env) (event : Lambda.Event)
         (context : Lambda.Context) (w : Runtime.World Http.Call)
         (s : Runtime.State Http.Call Http.Globals),
    is_GET (Lambda.method_of event) = false ->
    Runtime.truthy (Config.SNS_TOPIC_ARN env) = true ->
    MonolithSNS.datadogTraceId (Runtime.coalesce (Lambda.headers event) [])
    = None ->
    exists s' response,
      MonolithSNS.handler env event context w s
      = (s', Runtime.Returned response)
      /\ match Http.body response with
         | Http.Processed _ _ _ _ operations_status _ =>
             Http.statusCode response = 200%Z
             /\ Http.sns operations_status = "failed"
         | Http.Failure _ _ _ =>
             Http.statusCode response = 500%Z
             /\ exists s1 e,
                  Monolith.resolveMongoUri env w s = (s1, Runtime.Thrown e)
         | Http.MethodNotAllowed _ _ _ _ => False
         end
      /\ (forall topicArn eventData environment s0,
            MonolithSNS.datadogTraceId
              (EventData.headers (EventData.transport eventData)) = None ->
            MonolithSNS.snsOperation topicArn eventData environment w s0
            = (s0, Runtime.Returned
                     {| Http.success := false; Http.operation := "sns";
                        Http.error :=
                          Some "SNS publish failed: correlationId is not defined" |})).
Proof.
  intros env event context w s Hgate Htopic Hid.
  pose proof (monolith_unsent_run env event context w s Hgate Htopic Hid)
    as R.
  destruct (Monolith.resolveMongoUri env w s) as [s1 [uri|e]] eqn:E.
  - destruct R as (ed & s2 & mr & _ & R).
    do 2 eexists. split; [exact R|]. split.
    + cbn. split; reflexivity.
    + intros. apply snsOperation_unsent. assumption.
  - do 2 eexists. split; [exact R|]. split.
    + cbn. split; [reflexivity|]. eauto.
    + intros. apply snsOperation_unsent. assumption.
Qed.

(** X15 on the sample request, which carries a correlation header
    only. *)
Lemma X15_witness :
  exists s' response,
    MonolithSNS.handler Sample.env
      (Sample.request "POST" "/generatives" "{}") Sample.context
      Sample.calm Sample.cold
    = (s', Runtime.Returned response)
    /\ match Http.body response with
       | Http.Processed _ _ _ _ operations_status _ =>
           Http.sns operations_status = "failed"
       | _ => False
       end.
Proof.
  destruct (X15_monolith_publish_needs_trace_header Sample.env
              (Sample.request "POST" "/generatives" "{}") Sample.context
              Sample.calm Sample.cold eq_refl eq_refl eq_refl)
    as (s' & response & Hrun & Hbody & _).
  exists s', response. split; [exact Hrun|].
  vm_compute in Hrun. injection Hrun as _ <-. reflexivity.
Defined.



(* ================================================================= *)
(** ** More on the dead-letter pipeline *)

Section PipelineProperties.
Import Runtime DLQ.
Local Open Scope js_scope.
Local Open Scope list_scope.

Lemma analyzeFailure_not_null (now : Z) (failureInfo : FailureInfo)
    (webhookEvent : json) (a : Analysis) :
  analyzeFailure now failureInfo webhookEvent = Returned a ->
  webhookEvent <> JNull.
Proof. intros H ->. discriminate H. Qed.

Lemma sendCriticalFailureNotification_run (env : Env)
    (failureInfo : FailureInfo) (webhookEvent : json) (analysis : Analysis)
    (w : World Call) (s : State Call (list EntryResult)) :
  webhookEvent <> JNull ->
  exists command,
    DLQ.TopicArn command = coalesce (CRITICAL_FAILURE_TOPIC_ARN env) ""
    /\ is_retry (Publish command) = false
    /\ sendCriticalFailureNotification env failureInfo webhookEvent analysis
         w s
       = (called s (Publish command),
          match reply w (trace s) (Publish command) with
          | Resolved _ => Returned tt
          | Rejected e => Thrown e
          end).
Proof.
  intros Hnull. unfold sendCriticalFailureNotification.
  destruct webhookEvent; try contradiction; cbn [member]; run;
    (eexists; split; [|split; [|destruct (reply w (trace s) _) eqn:E;
                                 rewrite ?E; reflexivity]];
     reflexivity).
Qed.

(** A batch of which no body parses. *)
Lemma loop_unparsed (env : Env) (w : World Call)
    (records : list SQS.Record_) :
  (forall record, In record records ->
                  JSON_parse w (JString (SQS.body record)) = None) ->
  forall s,
    loop env records w s
    = ({| trace := trace s;
          globals :=
            globals s
              ++ map (fun record =>
                        FailedResult (SQS.messageId record) "Unexpected token")
                   records |},
       Returned tt).
Proof.
  induction records as [|record rest IH]; intros H s; cbn [loop map].
  - rewrite app_nil_r. destruct s. reflexivity.
  - unfold bind. rewrite iteration_run.
    unfold processDLQMessage, try_catch, bind, parse.
    rewrite (H record (or_introl eq_refl)). unfold throw.
    rewrite IH by (intros r Hr; apply H; right; exact Hr).
    cbn [trace globals]. rewrite <- app_assoc. reflexivity.
Qed.

Lemma count_status_failed (f : SQS.Record_ -> EntryResult)
    (records : list SQS.Record_) :
  (forall record, status (f record) = "failed") ->
  count_status "failed" (map f records) = List.length records
  /\ count_status "processed" (map f records) = 0.
Proof.
  intros H. unfold count_status.
  induction records as [|r rest [IH1 IH2]]; [split; reflexivity|].
  cbn [map filter]. rewrite (H r). cbn. rewrite IH1, IH2.
  split; reflexivity.
Qed.

End PipelineProperties.

(** X17.  The dead-letter processor looks for the path of an event at
    its top level, and the message the receiver publishes keeps the
    path under [transport].  So for every event published by
    [SNSService], whatever its path, the analysis returns and is never
    critical; an event is critical exactly when it has a top-level
    string [path] containing "/payment", "/security" or "/critical". *)
Theorem X17_published_events_are_never_critical :
  (forall (iso : Z -> string) (eventData : EventData.t)
          (environment : string) (now : Z) (failureInfo : DLQ.FailureInfo),
     exists analysis,
       DLQ.analyzeFailure now failureInfo
         (SNSService._buildMessage iso eventData environment)
       = Runtime.Returned analysis
       /\ DLQ.isCritical analysis = false)
  /\ (forall (now : Z) (failureInfo : DLQ.FailureInfo)
             (members : list (string * Runtime.json)) (path : string),
        DLQ.lookup "path" members = Some (Runtime.JString path) ->
        exists analysis,
          DLQ.analyzeFailure now failureInfo (Runtime.JObject members)
          = Runtime.Returned analysis
          /\ DLQ.isCritical analysis
             = (JS.includes path "/payment" || JS.includes path "/security"
                || JS.includes path "/critical")%bool).
Proof.
  split.
  - intros iso eventData environment now failureInfo.
    unfold DLQ.analyzeFailure, SNSService._buildMessage.
    cbn [DLQ.member DLQ.lookup String.eqb Ascii.eqb Bool.eqb DLQ.opt_includes].
    destruct (JS.includes (DLQ.failureReason failureInfo) "timeout");
      [|destruct (JS.includes (DLQ.failureReason failureInfo) "5");
        [|destruct (JS.includes (DLQ.failureReason failureInfo) "4")]];
      (destruct (DLQ.older_than_24h (DLQ.messageAgeMs now failureInfo));
       eexists; split; reflexivity).
  - intros now failureInfo members path Hpath.
    unfold DLQ.analyzeFailure. cbn [DLQ.member]. rewrite Hpath.
    cbn [DLQ.opt_includes].
    destruct (JS.includes path "/payment");
      [|destruct (JS.includes path "/security");
        [|destruct (JS.includes path "/critical")]];
      (destruct (JS.includes (DLQ.failureReason failureInfo) "timeout");
       [|destruct (JS.includes (DLQ.failureReason failureInfo) "5");
         [|destruct (JS.includes (DLQ.failureReason failureInfo) "4")]];
       (destruct (DLQ.older_than_24h (DLQ.messageAgeMs now failureInfo));
        eexists; split; reflexivity)).
Qed.

(** X18.  What the processing of one entry sends, once its body is read
    and analysed: first the metrics, whose rejection is ignored; then at
    most one publish, which is either the redelivery (only for a
    retry-eligible entry below three receives that names its topic) or
    the escalation (only for a critical entry that is not redelivered,
    when a topic for it is configured), never both.  A retry-eligible
    entry without a topic sends nothing more, and is reported processed
    all the same; the processing throws only if that publish is
    rejected. *)
Theorem X18_processing_side_effects :
  forall (env : DLQ.Env) (record : SQS.Record_)
         (w : Runtime.World DLQ.Call)
         (s : Runtime.State DLQ.Call (list DLQ.EntryResult))
         (messageBody webhookEvent : Runtime.json) (analysis : DLQ.Analysis),
    Runtime.JSON_parse w (Runtime.JString (SQS.body record))
    = Some messageBody ->
    DLQ.parseWebhookEvent messageBody w s
    = (s, Runtime.Returned webhookEvent) ->
    DLQ.analyzeFailure (Runtime.now w (Runtime.trace s))
      (DLQ.failureInfoOf record) webhookEvent
    = Runtime.Returned analysis ->
    let failureInfo := DLQ.failureInfoOf record in
    let metrics :=
      DLQ.PutMetricData "WebhookReceiver/DLQ"
        (DLQ.metricData failureInfo analysis) in
    let retry :=
      (DLQ.shouldRetry analysis && (DLQ.receiveCount failureInfo <? 3)%Z)%bool
    in
    let escalate :=
      (Runtime.truthy (DLQ.CRITICAL_FAILURE_TOPIC_ARN env)
       && DLQ.isCritical analysis)%bool in
    let done :=
      Runtime.Returned (DLQ.ProcessedResult (SQS.messageId record) analysis)
    in
    exists s' r publish,
      DLQ.processDLQMessage env record w s = (s', r)
      /\ Runtime.globals s' = Runtime.globals s
      /\ Runtime.trace s' = (Runtime.trace s ++ metrics :: publish)%list
      /\ match publish with
         | [] =>
             r = done
             /\ (if retry
                 then Runtime.truthy (DLQ.originalTopicArn failureInfo) = false
                 else escalate = false)
         | [c] =>
             (if is_retry c then
                retry = true
                /\ Runtime.truthy (DLQ.originalTopicArn failureInfo) = true
                /\ c = DLQ.Publish
                         (DLQ.retryCommand webhookEvent failureInfo
                            (Runtime.now w (Runtime.trace s ++ [metrics])%list))
              else
                retry = false /\ escalate = true
                /\ exists command,
                     c = DLQ.Publish command
                     /\ DLQ.TopicArn command
                        = Runtime.coalesce
                            (DLQ.CRITICAL_FAILURE_TOPIC_ARN env) "")
             /\ r = match Runtime.reply w
                            (Runtime.trace s ++ [metrics])%list c with
                    | Runtime.Resolved _ => done
                    | Runtime.Rejected e => Runtime.Thrown e
                    end
         | _ => False
         end.
Proof.
  intros env record w s messageBody webhookEvent analysis Hbody Hevent Han
    failureInfo metrics retry escalate done.
  rewrite (processDLQMessage_analysed env record w s messageBody webhookEvent
             analysis Hbody Hevent Han).
  cbv zeta. fold failureInfo. fold metrics. fold retry.
  destruct retry eqn:R.
  - rewrite retryDelivery_run.
    destruct (Runtime.truthy (DLQ.originalTopicArn failureInfo)) eqn:T.
    + cbv zeta.
      set (c := DLQ.Publish
                  (DLQ.retryCommand webhookEvent failureInfo
                     (Runtime.now w
                        (Runtime.trace (Runtime.called s metrics))))).
      exists (Runtime.called (Runtime.called s metrics) c).
      exists (match Runtime.reply w (Runtime.trace s ++ [metrics])%list c with
              | Runtime.Resolved _ => done
              | Runtime.Rejected e => Runtime.Thrown e
              end).
      exists [c]. split.
      { cbn [Runtime.trace Runtime.called].
        destruct (Runtime.reply w (Runtime.trace s ++ [metrics])%list c);
          reflexivity. }
      split; [reflexivity|]. split.
      { cbn [Runtime.trace Runtime.called]. rewrite <- app_assoc.
        reflexivity. }
      split; [|reflexivity].
      change (is_retry c) with true. cbv iota. repeat split.
    + exists (Runtime.called s metrics), done, []. split; [reflexivity|].
      split; [reflexivity|]. split; [reflexivity|]. split; reflexivity.
  - fold escalate. destruct escalate eqn:E.
    + destruct (sendCriticalFailureNotification_run env failureInfo
                  webhookEvent analysis w (Runtime.called s metrics)
                  (analyzeFailure_not_null _ _ _ _ Han))
        as (command & Htopic & Hretry & Hrun).
      rewrite Hrun.
      exists (Runtime.called (Runtime.called s metrics) (DLQ.Publish command)).
      exists (match Runtime.reply w (Runtime.trace s ++ [metrics])%list
                      (DLQ.Publish command) with
              | Runtime.Resolved _ => done
              | Runtime.Rejected e => Runtime.Thrown e
              end).
      exists [DLQ.Publish command]. split.
      { cbn [Runtime.trace Runtime.called].
        destruct (Runtime.reply w (Runtime.trace s ++ [metrics])%list
                    (DLQ.Publish command)); reflexivity. }
      split; [reflexivity|]. split.
      { cbn [Runtime.trace Runtime.called]. rewrite <- app_assoc.
        reflexivity. }
      split; [|reflexivity].
      rewrite Hretry. split; [reflexivity|]. split; [reflexivity|].
      exists command. split; [reflexivity | exact Htopic].
    + exists (Runtime.called s metrics), done, []. split; [reflexivity|].
      split; [reflexivity|]. split; [reflexivity|]. split; reflexivity.
Qed.

(** X18 on a fresh timeout entry that names its topic: the metrics,
    then the redelivery. *)
Lemma X18_witness :
  exists s' r c,
    DLQ.processDLQMessage Sample.dlq_env
      (Sample.entry "timeout" 1 Sample.recent) Sample.reading
      Sample.fresh_start
    = (s', r)
    /\ is_retry c = true
    /\ Runtime.trace s'
       = [DLQ.PutMetricData "WebhookReceiver/DLQ"
            (DLQ.metricData
               (DLQ.failureInfoOf (Sample.entry "timeout" 1 Sample.recent))
               {| DLQ.shouldRetry := true; DLQ.isCritical := false;
                  DLQ.failureType := "timeout";
                  DLQ.recommendations :=
                    ["Consider increasing timeout for subscriber"] |});
          c].
Proof.
  destruct (X18_processing_side_effects Sample.dlq_env
              (Sample.entry "timeout" 1 Sample.recent) Sample.reading
              Sample.fresh_start Sample.generatives Sample.generatives
              {| DLQ.shouldRetry := true; DLQ.isCritical := false;
                 DLQ.failureType := "timeout";
                 DLQ.recommendations :=
                   ["Consider increasing timeout for subscriber"] |}
              eq_refl eq_refl eq_refl)
    as (s' & r & publish & Hrun & _ & Htrace & Hpub).
  destruct publish as [|c [|d rest]]; [|clear Hpub|destruct Hpub].
  - destruct Hpub as [_ H]. vm_compute in H. discriminate H.
  - exists s', r, c. split; [exact Hrun|].
    vm_compute in Hrun. injection Hrun as <- _.
    cbn in Htrace. injection Htrace as <-.
    split; reflexivity.
Defined.

(** X19.  A batch of which no body parses: the handler calls no
    collaborator, deletes nothing, and returns one failed result per
    entry, in order, so that [failed = total = N] and [processed = 0]. *)
Theorem X19_unparsed_batch_is_kept :
  forall (env : DLQ.Env) (w : Runtime.World DLQ.Call) (event : SQS.Event),
    (forall record,
       In record (Runtime.coalesce (SQS.Records event) []) ->
       Runtime.JSON_parse w (Runtime.JString (SQS.body record)) = None) ->
    exists s_end response,
      DLQ.run w env event = (s_end, Runtime.Returned response)
      /\ Runtime.trace s_end = []
      /\ map DLQ.status (DLQ.results response)
         = map (fun _ => "failed") (Runtime.coalesce (SQS.Records event) [])
      /\ Forall2 (fun record result =>
                    exists error,
                      result = DLQ.FailedResult (SQS.messageId record) error)
           (Runtime.coalesce (SQS.Records event) []) (DLQ.results response)
      /\ DLQ.summary response
         = {| DLQ.processed := 0;
              DLQ.failed :=
                List.length (Runtime.coalesce (SQS.Records event) []);
              DLQ.total :=
                List.length (Runtime.coalesce (SQS.Records event) []) |}.
Proof.
  intros env w event H.
  destruct (run_loop env w event) as (s_end & Hloop & Hrun).
  rewrite (loop_unparsed env w _ H) in Hloop. injection Hloop as <-.
  do 2 eexists. split; [exact Hrun|].
  cbn [Runtime.trace Runtime.globals DLQ.results DLQ.summary app].
  set (records := Runtime.coalesce (SQS.Records event) []).
  split; [reflexivity|]. split.
  { rewrite map_map. reflexivity. }
  split.
  { induction records as [|r rest IH]; constructor; [eexists; reflexivity|].
    exact IH. }
  unfold DLQ.summarize. rewrite length_map.
  destruct (count_status_failed
              (fun record =>
                 DLQ.FailedResult (SQS.messageId record) "Unexpected token")
              records (fun _ => eq_refl)) as [-> ->].
  reflexivity.
Qed.

(** X19 on a batch of two entries in a world where nothing parses. *)
Lemma X19_witness :
  exists s_end response,
    DLQ.run Sample.calm Sample.dlq_env
      {| SQS.Records :=
           Some [Sample.entry "timeout" 1 Sample.recent;
                 Sample.entry "HTTP 500" 2 None] |}
    = (s_end, Runtime.Returned response)
    /\ Runtime.trace s_end = []
    /\ DLQ.summary response
       = {| DLQ.processed := 0; DLQ.failed := 2; DLQ.total := 2 |}.
Proof.
  destruct (X19_unparsed_batch_is_kept Sample.dlq_env Sample.calm
              {| SQS.Records :=
                   Some [Sample.entry "timeout" 1 Sample.recent;
                         Sample.entry "HTTP 500" 2 None] |}
              (fun _ _ => eq_refl))
    as (s_end & response & Hrun & Htrace & _ & _ & Hsum).
  exists s_end, response. split; [exact Hrun|]. split; [exact Htrace|].
  exact Hsum.
Defined.

(* ================================================================= *)
(** ** The publish service *)

Section PublishProperties.
Import Runtime SNSService.
Local Open Scope list_scope.

Lemma createHeadersAttribute_String (headers : option HeadersUtil.Headers)
    (maxSize : Z) (a : HeadersUtil.Attribute) :
  HeadersUtil.createHeadersAttribute headers maxSize = Some a ->
  HeadersUtil.DataType a = "String".
Proof.
  unfold HeadersUtil.createHeadersAttribute.
  destruct headers; [|discriminate].
  destruct (_ =? 0)%nat; [discriminate|]. cbv zeta.
  destruct (_ <=? _)%Z; intros [= <-]; reflexivity.
Qed.

Lemma strip_prefix_spec (pre s r : string) :
  strip_prefix pre s = Some r <-> s = (pre ++ r)%string.
Proof.
  revert s. induction pre as [|a pre IH]; intros s; cbn.
  - split; [intros [= ->]; reflexivity | intros ->; reflexivity].
  - destruct s as [|b s]; [split; discriminate|].
    destruct (Ascii.eqb_spec a b) as [->|N].
    + rewrite IH. split; [intros ->; reflexivity | intros [= ->]; reflexivity].
    + split; [discriminate | intros [= E _]; congruence].
Qed.

Lemma span_spec (p : ascii -> bool) (s a b : string) :
  span p s = (a, b) <->
  s = (a ++ b)%string /\ JS.forall_chars p a = true /\ stops p b.
Proof.
  revert a b. induction s as [|c s IH]; intros a b; cbn.
  - split.
    + intros [= <- <-]. repeat split.
    + intros (E & _ & _). destruct a; [|discriminate E].
      cbn in E. subst b. reflexivity.
  - destruct (p c) eqn:Pc.
    + destruct (span p s) as [a' b'] eqn:Es. split.
      * intros [= <- <-]. destruct (proj1 (IH a' b') eq_refl) as (E & F & S).
        cbn. rewrite Pc, F, <- E. repeat split. exact S.
      * intros (E & F & S). destruct a as [|d a].
        { cbn in E. subst b. cbn in S. congruence. }
        cbn in E, F. injection E as <- E.
        apply andb_true_iff in F as [_ F].
        assert (H : (a', b') = (a, b)) by (apply IH; auto).
        injection H as -> ->. reflexivity.
    + split.
      * intros [= <- <-]. repeat split. exact Pc.
      * intros (E & F & S). destruct a as [|d a].
        { cbn in E. subst b. reflexivity. }
        cbn in E, F. injection E as <- E. rewrite Pc in F. discriminate F.
Qed.

Lemma expect_colon_spec (s r : string) :
  expect_colon s = Some r <-> s = String ":" r.
Proof.
  destruct s as [|c s]; cbn; [split; discriminate|].
  destruct (Ascii.eqb_spec c ":") as [->|N].
  - split; [intros [= ->]; reflexivity | intros [= ->]; reflexivity].
  - split; [discriminate | intros [= E _]; contradiction].
Qed.

Lemma nonempty_eqb (s : string) : negb (s =? "") = true <-> s <> "".
Proof.
  destruct (String.eqb_spec s ""); cbn; split; congruence.
Qed.

End PublishProperties.

(** X20.  The message attributes of a publish: between seven and ten of
    them under distinct names, all of type "String"; the five fixed ones
    with the values of the event; the correlation identifier handed in,
    or a generated one when it is missing or empty, and likewise the
    request identifier, for which the next generated one is taken;
    [headers] present
    exactly when [createHeadersAttribute] gives an attribute, and then
    that attribute; each tracing attribute present exactly when its
    identifier is non-empty. *)
Theorem X20_message_attributes :
  forall (maxHeaderSize : option Z) (uuid : nat -> string) (n : nat)
         (eventData : EventData.t) (environment : string)
         (trackingIds : SNSService.TrackingIdsArg)
         (datadogTraceId datadogParentId : option string),
    let transport := EventData.transport eventData in
    let '(attributes, n') :=
      SNSService._buildMessageAttributes maxHeaderSize uuid n eventData
        environment trackingIds datadogTraceId datadogParentId in
    NoDup (map fst attributes)
    /\ 7 <= List.length attributes <= 10
    /\ Forall (fun kv => HeadersUtil.DataType (snd kv) = "String") attributes
    /\ attribute attributes "environment"
       = Some (SNSService.string_attribute environment)
    /\ attribute attributes "method"
       = Some (SNSService.string_attribute (EventData.method transport))
    /\ attribute attributes "path"
       = Some (SNSService.string_attribute (EventData.path transport))
    /\ attribute attributes "contentType"
       = Some (SNSService.string_attribute (EventData.type eventData))
    /\ attribute attributes "content-type"
       = Some (SNSService.string_attribute "application/json")
    /\ attribute attributes "x-correlation-id"
       = Some (SNSService.string_attribute
                 (if Runtime.truthy (SNSService.correlationId trackingIds)
                  then Runtime.coalesce
                         (SNSService.correlationId trackingIds) ""
                  else uuid n))
    /\ attribute attributes "x-request-id"
       = Some (SNSService.string_attribute
                 (if Runtime.truthy (SNSService.requestId trackingIds)
                  then Runtime.coalesce (SNSService.requestId trackingIds) ""
                  else uuid (if Runtime.truthy
                                  (SNSService.correlationId trackingIds)
                             then n else S n)))
    /\ attribute attributes "headers"
       = HeadersUtil.createHeadersAttribute
           (Some (EventData.headers transport))
           (Runtime.coalesce maxHeaderSize 50000%Z)
    /\ attribute attributes "x-datadog-trace-id"
       = (if Runtime.truthy datadogTraceId
          then Some (SNSService.string_attribute
                       (Runtime.coalesce datadogTraceId ""))
          else None)
    /\ attribute attributes "x-datadog-parent-id"
       = (if Runtime.truthy datadogParentId
          then Some (SNSService.string_attribute
                       (Runtime.coalesce datadogParentId ""))
          else None)
    /\ n' = n
            + (if Runtime.truthy (SNSService.correlationId trackingIds)
               then 0 else 1)
            + (if Runtime.truthy (SNSService.requestId trackingIds)
               then 0 else 1)
    /\ n <= n' <= n + 2.
Proof.
  intros maxHeaderSize uuid n eventData environment trackingIds
    datadogTraceId datadogParentId transport.
  unfold SNSService._buildMessageAttributes, SNSService._addHeadersAttribute,
    SNSService._addDatadogAttributes.
  fold transport. change HeadersUtil.default_maxSize with 50000%Z.
  pose proof (createHeadersAttribute_String
                (Some (EventData.headers transport))
                (Runtime.coalesce maxHeaderSize 50000%Z)) as Hstring.
  destruct (HeadersUtil.createHeadersAttribute
              (Some (EventData.headers transport))
              (Runtime.coalesce maxHeaderSize 50000%Z)) as [ha|];
    [specialize (Hstring ha eq_refl)|clear Hstring];
    destruct (SNSService.correlationId trackingIds) as [corr|] eqn:Ec;
    destruct (SNSService.requestId trackingIds) as [req|] eqn:Er;
    cbn [Runtime.truthy Runtime.coalesce];
    try destruct (negb (corr =? "")%string);
    try destruct (negb (req =? "")%string);
    destruct (Runtime.truthy datadogTraceId);
    destruct (Runtime.truthy datadogParentId);
    cbn;
    (split; [repeat constructor; cbn; intuition discriminate|]);
    (split; [lia|]);
    (split; [repeat constructor; try exact Hstring|]);
    repeat (split; [reflexivity|]); lia.
Qed.

(** X21.  [validateTopicArn] accepts exactly the strings
    [arn:aws:sns:<region>:<account>:<name>] with a non-empty region over
    [[a-z0-9-]], a non-empty account over the digits and a non-empty
    name over [[a-zA-Z0-9_-]]; a missing value is refused, and so is the
    name of a FIFO topic, which contains a dot. *)
Theorem X21_validateTopicArn_shape :
  SNSService.validateTopicArn None = false
  /\ forall s : string,
       SNSService.validateTopicArn (Some s) = true <-> topic_arn_shape s.
Proof.
  split; [reflexivity|]. intros s. unfold SNSService.validateTopicArn.
  split.
  - destruct (SNSService.strip_prefix "arn:aws:sns:" s) as [r1|] eqn:E1;
      [|discriminate].
    apply strip_prefix_spec in E1.
    destruct (SNSService.span SNSService.is_region_char r1)
      as [region r2] eqn:E2.
    apply span_spec in E2 as (E2 & Fr & _).
    destruct (SNSService.expect_colon r2) as [r3|] eqn:E3; [|discriminate].
    apply expect_colon_spec in E3.
    destruct (SNSService.span JS.is_digit r3) as [account r4] eqn:E4.
    apply span_spec in E4 as (E4 & Fa & _).
    destruct (SNSService.expect_colon r4) as [name|] eqn:E5; [|discriminate].
    apply expect_colon_spec in E5.
    intros H. apply andb_true_iff in H as [H Fn].
    apply andb_true_iff in H as [H Nn]. apply andb_true_iff in H as [Nr Na].
    apply nonempty_eqb in Nr, Na, Nn.
    exists region, account, name. subst. repeat split; assumption.
  - intros (region & account & name & -> & Nr & Fr & Na & Fa & Nn & Fn).
    assert (E1 : SNSService.strip_prefix "arn:aws:sns:"
                   ("arn:aws:sns:" ++ region ++ ":" ++ account ++ ":" ++ name)
                 = Some (region ++ ":" ++ account ++ ":" ++ name))
      by (apply strip_prefix_spec; reflexivity).
    rewrite E1.
    assert (E2 : SNSService.span SNSService.is_region_char
                   (region ++ ":" ++ account ++ ":" ++ name)
                 = (region, ":" ++ account ++ ":" ++ name))
      by (apply span_spec; repeat split; assumption).
    rewrite E2. cbn [SNSService.expect_colon append Ascii.eqb Bool.eqb].
    cbv iota.
    assert (E4 : SNSService.span JS.is_digit (account ++ ":" ++ name)
                 = (account, ":" ++ name))
      by (apply span_spec; repeat split; assumption).
    cbn [append] in E4. rewrite E4. cbn [SNSService.expect_colon append Ascii.eqb Bool.eqb].
    cbv iota. rewrite Fn.
    apply nonempty_eqb in Nr, Na, Nn. rewrite Nr, Na, Nn. reflexivity.
Qed.

(* ================================================================= *)
(** ** The parameter service *)

(** X22.  A value that [getParameter] returns with caching on is in the
    cache under the key of the parameter and the decryption flag, and
    every later request for it made while that entry is younger than
    five minutes is answered from the cache: no call, nothing changed.
    The request itself made no call (a cached value) or exactly one
    (which then stamps the entry with the time after the call). *)
Theorem X22_parameter_is_cached :
  forall (parameterName : string) (withDecryption : bool)
         (w : Runtime.World SSMService.Call)
         (s s1 : Runtime.State SSMService.Call SSMService.Cache)
         (v : string),
    SSMService.getParameter parameterName withDecryption true w s
    = (s1, Runtime.Returned v) ->
    exists entry,
      SSMService.cache_get (Runtime.globals s1)
        (SSMService.cacheKey parameterName withDecryption) = Some entry
      /\ SSMService.value entry = v
      /\ (s1 = s
          \/ Runtime.trace s1
             = (Runtime.trace s
                  ++ [SSMService.GetParameter parameterName withDecryption])%list
             /\ SSMService.timestamp entry
                = Runtime.now w (Runtime.trace s1))
      /\ forall (w2 : Runtime.World SSMService.Call)
                (s2 : Runtime.State SSMService.Call SSMService.Cache),
           Runtime.globals s2 = Runtime.globals s1 ->
           (Runtime.now w2 (Runtime.trace s2) - SSMService.timestamp entry
            < SSMService.cacheTTL)%Z ->
           SSMService.getParameter parameterName withDecryption true w2 s2
           = (s2, Runtime.Returned v).
Proof.
  intros parameterName withDecryption w s s1 v Hrun.
  set (key := SSMService.cacheKey parameterName withDecryption) in *.
  assert (Hlater : forall entry,
            SSMService.cache_get (Runtime.globals s1) key = Some entry ->
            SSMService.value entry = v ->
            forall w2 s2,
              Runtime.globals s2 = Runtime.globals s1 ->
              (Runtime.now w2 (Runtime.trace s2) - SSMService.timestamp entry
               < SSMService.cacheTTL)%Z ->
              SSMService.getParameter parameterName withDecryption true w2 s2
              = (s2, Runtime.Returned v)).
  { intros entry Hget <- w2 s2 Hg Hlt.
    apply getParameter_hit; [rewrite Hg; exact Hget|].
    apply Z.ltb_lt, Hlt. }
  destruct (SSMService.cache_get (Runtime.globals s) key) as [cached|] eqn:E.
  - destruct (fresh (Runtime.now w (Runtime.trace s)) cached) eqn:F.
    + rewrite (getParameter_hit _ _ w s cached E F) in Hrun.
      injection Hrun as <- <-.
      exists cached. split; [exact E|]. split; [reflexivity|].
      split; [left; reflexivity|]. apply Hlater; [exact E | reflexivity].
    + pose proof (getParameter_miss parameterName withDecryption true w s)
        as Hmiss.
      cbv zeta in Hmiss. fold key in Hmiss. rewrite E in Hmiss.
      rewrite (Hmiss F) in Hrun. clear Hmiss.
      destruct (Runtime.reply w (Runtime.trace s)
                  (SSMService.GetParameter parameterName withDecryption))
        as [v'|e]; [|discriminate Hrun].
      injection Hrun as <- <-. cbn [Runtime.globals Runtime.trace] in *.
      eexists. split; [rewrite cache_get_set, String.eqb_refl; reflexivity|].
      split; [reflexivity|]. split; [right; split; reflexivity|].
      apply Hlater; [|reflexivity].
      rewrite cache_get_set, String.eqb_refl. reflexivity.
  - pose proof (getParameter_miss parameterName withDecryption true w s)
      as Hmiss.
    cbv zeta in Hmiss. fold key in Hmiss. rewrite E in Hmiss.
    rewrite (Hmiss I) in Hrun. clear Hmiss.
    destruct (Runtime.reply w (Runtime.trace s)
                (SSMService.GetParameter parameterName withDecryption))
      as [v'|e]; [|discriminate Hrun].
    injection Hrun as <- <-. cbn [Runtime.globals Runtime.trace] in *.
    eexists. split; [rewrite cache_get_set, String.eqb_refl; reflexivity|].
    split; [reflexivity|]. split; [right; split; reflexivity|].
    apply Hlater; [|reflexivity].
    rewrite cache_get_set, String.eqb_refl. reflexivity.
Qed.

(** X22 on a first request with an empty cache. *)
Lemma X22_witness :
  exists entry,
    SSMService.cache_get
      (Runtime.globals
         (fst (SSMService.getParameter "/webhook/receiver/prod/mongodb-uri"
                 true true Sample.calm
                 {| Runtime.trace := []; Runtime.globals := [] |})))
      "/webhook/receiver/prod/mongodb-uri:true" = Some entry
    /\ SSMService.value entry = "ok".
Proof.
  destruct (X22_parameter_is_cached "/webhook/receiver/prod/mongodb-uri"
              true Sample.calm
              {| Runtime.trace := []; Runtime.globals := [] |}
              _ "ok" eq_refl)
    as (entry & Hget & Hvalue & _).
  exists entry. split; [exact Hget | exact Hvalue].
Defined.

(** X23.  [getParameter] throws only when the call to the store is
    rejected, and then under the message "SSM parameter retrieval
    failed: " followed by the reason; exactly that one call was made,
    and with caching on no entry is left for the parameter, so the next
    request asks the store again. *)
Theorem X23_parameter_failure :
  forall (parameterName : string) (withDecryption useCache : bool)
         (w : Runtime.World SSMService.Call)
         (s s1 : Runtime.State SSMService.Call SSMService.Cache)
         (message : string),
    SSMService.getParameter parameterName withDecryption useCache w s
    = (s1, Runtime.Thrown message) ->
    let c := SSMService.GetParameter parameterName withDecryption in
    exists e,
      Runtime.reply w (Runtime.trace s) c = Runtime.Rejected e
      /\ message = "SSM parameter retrieval failed: " ++ e
      /\ Runtime.trace s1 = (Runtime.trace s ++ [c])%list
      /\ (useCache = true ->
          SSMService.cache_get (Runtime.globals s1)
            (SSMService.cacheKey parameterName withDecryption) = None)
      /\ (useCache = false -> Runtime.globals s1 = Runtime.globals s).
Proof.
  intros parameterName withDecryption useCache w s s1 message Hrun c.
  set (key := SSMService.cacheKey parameterName withDecryption) in *.
  pose proof (getParameter_miss parameterName withDecryption useCache w s)
    as Hmiss.
  cbv zeta in Hmiss. fold key in Hmiss. fold c in Hmiss.
  destruct (if useCache
            then SSMService.cache_get (Runtime.globals s) key else None)
    as [cached|] eqn:E.
  - destruct (fresh (Runtime.now w (Runtime.trace s)) cached) eqn:F.
    + destruct useCache; [|discriminate E].
      rewrite (getParameter_hit _ _ w s cached E F) in Hrun.
      discriminate Hrun.
    + rewrite (Hmiss eq_refl) in Hrun.
      destruct (Runtime.reply w (Runtime.trace s) c) as [v|e];
        [discriminate Hrun|].
      injection Hrun as <- <-. exists e.
      cbn [Runtime.trace Runtime.globals].
      repeat split.
      * intros _. rewrite cache_get_delete, String.eqb_refl. reflexivity.
      * intros ->. discriminate E.
  - rewrite (Hmiss I) in Hrun.
    destruct (Runtime.reply w (Runtime.trace s) c) as [v|e];
      [discriminate Hrun|].
    injection Hrun as <- <-. exists e.
    cbn [Runtime.trace Runtime.globals].
    repeat split. intros ->. exact E.
Qed.

(** X23 when the store refuses access. *)
Lemma X23_witness :
  Runtime.reply
    {| Runtime.reply := fun _ _ => Runtime.Rejected "AccessDenied";
       Runtime.now := fun _ => 0%Z;
       Runtime.JSON_parse := fun _ => None |}
    [] (SSMService.GetParameter "/p" true)
  = Runtime.Rejected "AccessDenied"
  /\ "SSM parameter retrieval failed: AccessDenied"
     = "SSM parameter retrieval failed: " ++ "AccessDenied".
Proof.
  destruct (X23_parameter_failure "/p" true true
              {| Runtime.reply := fun _ _ => Runtime.Rejected "AccessDenied";
                 Runtime.now := fun _ => 0%Z;
                 Runtime.JSON_parse := fun _ => None |}
              {| Runtime.trace := []; Runtime.globals := [] |}
              _ "SSM parameter retrieval failed: AccessDenied" eq_refl)
    as (e & Hreply & Hmessage & _).
  cbn in Hreply. injection Hreply as <-. split; [reflexivity|exact Hmessage].
Defined.

(** With caching off [getParameter] neither reads nor writes the cache:
    it always makes exactly one call, even when a fresh value is cached,
    and the cache is the same afterwards. *)
Lemma getParameter_without_cache :
  forall (parameterName : string) (withDecryption : bool)
         (w : Runtime.World SSMService.Call)
         (s : Runtime.State SSMService.Call SSMService.Cache),
    let c := SSMService.GetParameter parameterName withDecryption in
    SSMService.getParameter parameterName withDecryption false w s
    = ({| Runtime.trace := (Runtime.trace s ++ [c])%list;
          Runtime.globals := Runtime.globals s |},
       match Runtime.reply w (Runtime.trace s) c with
       | Runtime.Resolved v => Runtime.Returned v
       | Runtime.Rejected e =>
           Runtime.Thrown ("SSM parameter retrieval failed: " ++ e)
       end).
Proof.
  intros parameterName withDecryption w s c.
  rewrite (getParameter_miss parameterName withDecryption false w s I).
  fold c. destruct (Runtime.reply w (Runtime.trace s) c); reflexivity.
Qed.

(** X24.  [clearCache(name)] removes the entries of [name] for both
    values of the decryption flag, and with them every entry whose key
    starts with [name] and a colon; all other entries keep their value.
    Without a name, or with the empty one, the cache is emptied.  No
    call is made. *)
Theorem X24_clearCache :
  forall (parameterName : option string)
         (w : Runtime.World SSMService.Call)
         (s : Runtime.State SSMService.Call SSMService.Cache),
    exists cache,
      SSMService.clearCache parameterName w s
      = ({| Runtime.trace := Runtime.trace s; Runtime.globals := cache |},
         Runtime.Returned tt)
      /\ match parameterName with
         | Some name =>
             if (name =? "")%string then cache = []
             else
               (forall withDecryption,
                  SSMService.cache_get cache
                    (SSMService.cacheKey name withDecryption) = None)
               /\ (forall key,
                     SSMService.cache_get cache key
                     = if String.prefix (name ++ ":") key then None
                       else SSMService.cache_get (Runtime.globals s) key)
         | None => cache = []
         end.
Proof.
  intros parameterName w s. unfold SSMService.clearCache. run.
  destruct parameterName as [name|]; cbn [Runtime.truthy];
    [|eexists; split; reflexivity].
  destruct (String.eqb_spec name "") as [->|N]; cbn [negb];
    [eexists; split; reflexivity|].
  eexists. split; [reflexivity|]. cbn [Runtime.coalesce].
  assert (K : forall key,
            SSMService.cache_get
              (fold_left SSMService.cache_delete
                 (filter (fun key0 => String.prefix (name ++ ":") key0)
                    (map fst (Runtime.globals s)))
                 (Runtime.globals s)) key
            = if String.prefix (name ++ ":") key then None
              else SSMService.cache_get (Runtime.globals s) key).
  { intros key. rewrite cache_get_fold_delete.
    destruct (String.prefix (name ++ ":") key) eqn:P.
    - destruct (existsb (String.eqb key) _) eqn:X; [reflexivity|].
      destruct (SSMService.cache_get (Runtime.globals s) key) as [e|] eqn:G;
        [|reflexivity].
      apply cache_get_In in G.
      assert (In key (filter (fun key0 => String.prefix (name ++ ":") key0)
                        (map fst (Runtime.globals s))))
        by (apply filter_In; split; assumption).
      assert (Y : existsb (String.eqb key)
                    (filter (fun key0 => String.prefix (name ++ ":") key0)
                       (map fst (Runtime.globals s))) = true)
        by (apply existsb_exists; exists key; split;
            [assumption | apply String.eqb_refl]).
      rewrite Y in X. discriminate X.
    - destruct (existsb (String.eqb key) _) eqn:X; [|reflexivity].
      apply existsb_exists in X as (k & Hin & Hk).
      apply String.eqb_eq in Hk. subst k.
      apply filter_In in Hin as [_ Hin]. rewrite P in Hin. discriminate Hin. }
  split; [|exact K].
  intros withDecryption. rewrite K, cacheKey_prefix. reflexivity.
Qed.

(** X25.  [getCacheStats] changes nothing and splits the entries into
    expired and valid ones: [validEntries + expiredEntries =
    totalEntries], and the valid ones are those that [getParameter]
    would serve from the cache at that instant. *)
Theorem X25_getCacheStats :
  forall (w : Runtime.World SSMService.Call)
         (s : Runtime.State SSMService.Call SSMService.Cache),
    exists stats,
      SSMService.getCacheStats w s = (s, Runtime.Returned stats)
      /\ SSMService.totalEntries stats
         = Z.of_nat (List.length (Runtime.globals s))
      /\ SSMService.validEntries stats
         = Z.of_nat
             (List.length
                (filter (fun ke => fresh (Runtime.now w (Runtime.trace s))
                                     (snd ke))
                   (Runtime.globals s)))
      /\ (SSMService.validEntries stats + SSMService.expiredEntries stats
          = SSMService.totalEntries stats)%Z
      /\ (0 <= SSMService.expiredEntries stats
          <= SSMService.totalEntries stats)%Z
      /\ SSMService.cacheTTLMs stats = 300000%Z.
Proof.
  intros w s. unfold SSMService.getCacheStats. run.
  remember (Runtime.now w (Runtime.trace s)) as t eqn:Ht.
  eexists. split; [reflexivity|].
  cbn [SSMService.totalEntries SSMService.validEntries
       SSMService.expiredEntries SSMService.cacheTTLMs].
  assert (K : (List.length
                 (filter (fun ke => fresh t (snd ke)) (Runtime.globals s))
               + List.length
                   (filter
                      (fun entry =>
                         (SSMService.cacheTTL
                          <=? t - SSMService.timestamp entry)%Z)
                      (map snd (Runtime.globals s)))
               = List.length (Runtime.globals s))%nat).
  { induction (Runtime.globals s) as [|[k e] rest IH]; [reflexivity|].
    cbn [map filter snd]. unfold fresh at 1.
    destruct (Z.ltb_spec (t - SSMService.timestamp e) SSMService.cacheTTL);
      destruct (Z.leb_spec SSMService.cacheTTL (t - SSMService.timestamp e));
      try lia; cbn [List.length]; lia. }
  subst t. unfold SSMService.Cache in *. split; [reflexivity|]. split; [lia|]. split; [lia|].
  split; [lia|]. reflexivity.
Qed.
